(** * SetFitTrainer: a shallow embedding of [src/setfit/trainer.py]

    The trainer is a Python class whose methods mutate [self], log, raise
    and call into external collaborators (datasets, torch, sentence
    transformers, the model).  The embedding keeps that shape:

    - hyperparameter suggestions are an inductive [hpval]; floats are
      IEEE-754 binary64 values ([spec_float] with [prec = 53],
      [emax = 1024]), integers are [Z];
    - methods are computations in a small state/exception/trace monad [M]:
      a raised exception keeps the mutations made before it, as in Python;
    - external collaborators are modelled by the part of their contract the
      trainer relies on; what the trainer cannot determine (the generated
      pairs, the result of rebuilding a foreign object by reflection) is a
      [Variable] of the section. *)

From Stdlib Require Import ZArith String Ascii List Bool Lia.
From Stdlib Require Import Floats.SpecFloat.
From stdpp Require Import base option list gmap sets strings.

Local Open Scope string_scope.
Local Open Scope list_scope.
Local Open Scope Z_scope.

(** ** Python scalars *)

Module Py.

(** binary64 *)
Definition prec : Z := 53.
Definition emax : Z := 1024.

Abbreviation float := spec_float.

Definition float_lt (x y : float) : bool := SFltb x y.
Definition float_le (x y : float) : bool := SFleb x y.
Definition float_mul (x y : float) : float := SFmul prec emax x y.

(** The literals [0.0] and [1.0]. *)
Definition f0 : float := S754_zero false.
Definition f1 : float := S754_finite false 4503599627370496 (-52).

(** Exceptions.  The payload of a [ValueError] or [RuntimeError] raised by
    the trainer itself identifies the [raise] statement and carries the
    values its message interpolates. *)
Inductive trainer_error :=
| WarmupProportionOutOfRange (warmup_proportion : float)
| RequiresModelOrModelInit
| RequiresModelOrModelInitNotBoth
| GotDatasetDictTrainSplit
| GotDatasetDictSplits (splits : gset string)
| MissingRequiredColumns (required found : gset string)
| MappingMissesColumns (missing : gset string)
| MappingExpectsColumns (expected found : gset string)
| InvalidTrialParameter
| ModelInitArity
| ModelInitReturnedNone
| NeedsDifferentiableHead
| TrainingRequiresDataset
| MetricMustBeStrOrCallable.

Inductive exn :=
| ValueError (e : trainer_error)
| RuntimeError (e : trainer_error)
| LibValueError (what : string)
| TypeError (what : string)
| KeyError (key : string)
| AttributeError (attr : string)
| OverflowError (what : string).

Inductive result (A : Type) :=
| Ok (a : A)
| Raise (e : exn).
Arguments Ok {A} a.
Arguments Raise {A} e.

Definition rbind {A B} (r : result A) (k : A → result B) : result B :=
  match r with Ok a => k a | Raise e => Raise e end.

(** The text of the message raised at trainer.py:159-162. *)
Definition train_split_message : string :=
  "SetFit expected a Dataset, but it got a DatasetDict with the split ['train']. " +:+
  "Did you mean to select the training split with dataset['train']?".

(** The messages that are plain string literals; the others interpolate
    the payload of the error. *)
Definition message (e : trainer_error) : option string :=
  match e with
  | RequiresModelOrModelInit =>
      Some "`SetFitTrainer` requires either a `model` or `model_init` argument"
  | RequiresModelOrModelInitNotBoth =>
      Some "`SetFitTrainer` requires either a `model` or `model_init` argument, but not both"
  | GotDatasetDictTrainSplit => Some train_split_message
  | InvalidTrialParameter => Some "Invalid trial parameter"
  | ModelInitArity => Some "`model_init` should have 0 or 1 argument."
  | ModelInitReturnedNone => Some "`model_init` should not return None."
  | NeedsDifferentiableHead =>
      Some "Please use the differentiable head in `SetFitModel` when calling this function."
  | TrainingRequiresDataset =>
      Some "Training requires a `train_dataset` given to the `SetFitTrainer` initialization."
  | MetricMustBeStrOrCallable => Some "metric must be a string or a callable"
  | _ => None
  end.

(** [needle in text] *)
Definition contains (needle text : string) : bool :=
  bool_decide (is_Some (String.index 0 needle text)).

(** [repr(name)] for a name without quotes, backslashes or control characters. *)
Definition quoted (name : string) : string := "'" +:+ name +:+ "'".

(** *** Truthiness ([x or y], [if x:]) *)

Definition float_truthy (f : float) : bool :=
  match f with S754_zero _ => false | _ => true end.

Definition int_truthy (z : Z) : bool := negb (z =? 0).

(** [override or default] on an [Optional[int]] override. *)
Definition or_int (override : option Z) (default : Z) : Z :=
  match override with
  | Some z => if int_truthy z then z else default
  | None => default
  end.

(** [override or default] on an [Optional[float]] override. *)
Definition or_float (override : option float) (default : float) : float :=
  match override with
  | Some f => if float_truthy f then f else default
  | None => default
  end.

(** *** [float(int)], [int * float], [math.ceil] *)

(** [float(z)]: round to nearest even; CPython raises [OverflowError]
    where the rounded value would be infinite. *)
Definition float_of_int (z : Z) : result float :=
  match binary_normalize prec emax z 0 false with
  | S754_infinity _ => Raise (OverflowError "int too large to convert to float")
  | f => Ok f
  end.

Definition int_mul_float (z : Z) (f : float) : result float :=
  rbind (float_of_int z) (λ fz, Ok (float_mul fz f)).

(** [math.ceil(f)] *)
Definition ceil (f : float) : result Z :=
  match f with
  | S754_zero _ => Ok 0
  | S754_infinity _ => Raise (OverflowError "cannot convert float infinity to integer")
  | S754_nan => Raise (LibValueError "cannot convert float NaN to integer")
  | S754_finite s m e =>
      let zm := if s then Z.neg m else Z.pos m in
      Ok (match e with
          | Z.neg k => - ((- zm) / 2 ^ Z.pos k)
          | _ => zm * 2 ^ e
          end)
  end.

(** [int(f)]: truncation towards zero. *)
Definition int_of_float (f : float) : result Z :=
  match f with
  | S754_zero _ => Ok 0
  | S754_infinity _ => Raise (OverflowError "cannot convert float infinity to integer")
  | S754_nan => Raise (LibValueError "cannot convert float NaN to integer")
  | S754_finite s m e =>
      let mag := match e with
                 | Z.neg k => Z.pos m / 2 ^ Z.pos k
                 | _ => Z.pos m * 2 ^ e
                 end in
      Ok (if s then - mag else mag)
  end.

(** *** Numeric literals in strings

    [float(s)] and [int(s)] on a string.  The grammar covered is the
    decimal one: surrounding whitespace, an optional sign, digits with an
    optional fraction and an optional exponent, and the spellings of
    infinity and NaN.  A single underscore may stand between two digits
    ([1_000]); it is removed before the literal is read, and an
    underscore anywhere else makes the string invalid. *)

Definition is_space (c : ascii) : bool :=
  let n := nat_of_ascii c in
  ((9 <=? n) && (n <=? 13))%nat || ((28 <=? n) && (n <=? 32))%nat
  || (n =? 133)%nat || (n =? 160)%nat.

Definition digit_of (c : ascii) : option Z :=
  let n := nat_of_ascii c in
  if ((48 <=? n) && (n <=? 57))%nat then Some (Z.of_nat n - 48) else None.

Definition lower (c : ascii) : ascii :=
  let n := nat_of_ascii c in
  if ((65 <=? n) && (n <=? 90))%nat then ascii_of_nat (n + 32) else c.

Fixpoint drop_spaces (l : list ascii) : list ascii :=
  match l with
  | c :: l' => if is_space c then drop_spaces l' else l
  | [] => []
  end.

Definition strip (l : list ascii) : list ascii :=
  rev (drop_spaces (rev (drop_spaces l))).

(** Leading digits: their value continued from [acc], how many there
    were, and the rest of the input. *)
Fixpoint digits (l : list ascii) (acc : Z) (n : nat) : Z * nat * list ascii :=
  match l with
  | c :: l' =>
      match digit_of c with
      | Some d => digits l' (10 * acc + d) (S n)
      | None => (acc, n, l)
      end
  | [] => (acc, n, [])
  end.

Definition is_digit (c : ascii) : bool := bool_decide (is_Some (digit_of c)).

(** The literal without its digit-group underscores, [None] if one of
    them does not stand between two digits.  [prev] is the character
    before [l], if any. *)
Fixpoint ungroup (prev : option ascii) (l : list ascii) : option (list ascii) :=
  match l with
  | [] => if bool_decide (prev = Some "_"%char) then None else Some []
  | c :: l' =>
      if bool_decide (c = "_"%char) then
        if from_option is_digit false prev then ungroup (Some c) l' else None
      else if bool_decide (prev = Some "_"%char) && negb (is_digit c) then None
      else cons c <$> ungroup (Some c) l'
  end.

Definition sign_of (l : list ascii) : bool * list ascii :=
  match l with
  | "-"%char :: l' => (true, l')
  | "+"%char :: l' => (false, l')
  | _ => (false, l)
  end.

(** The correctly rounded binary64 value of [(-1)^s * m * 10^e]. *)
Definition decimal_to_float (s : bool) (m : Z) (e : Z) : float :=
  match m with
  | Z.pos p =>
      match e with
      | Z.neg k =>
          SFdiv prec emax (S754_finite s p 0) (S754_finite false (10 ^ k)%positive 0)
      | _ => binary_normalize prec emax (if s then - (m * 10 ^ e) else m * 10 ^ e) 0 s
      end
  | _ => S754_zero s
  end.

(** The exponent part: [e], an optional sign, at least one digit. *)
Definition exponent_of (l : list ascii) : option Z :=
  match l with
  | [] => Some 0
  | c :: l' =>
      if bool_decide (lower c = "e"%char) then
        let '(s, l'') := sign_of l' in
        match digits l'' 0 0 with
        | (v, S _, []) => Some (if s then - v else v)
        | _ => None
        end
      else None
  end.

Definition float_of_string (str : string) : result float :=
  let bad := Raise (LibValueError "could not convert string to float") in
  match ungroup None (strip (list_ascii_of_string str)) with
  | None => bad
  | Some l =>
      let '(s, l) := sign_of l in
      let word := string_of_list_ascii (map lower l) in
      if bool_decide (word = "inf") || bool_decide (word = "infinity") then Ok (S754_infinity s)
      else if bool_decide (word = "nan") then Ok S754_nan
      else
        let '(ip, ni, l1) := digits l 0 0 in
        let '(m, nf, l2) :=
          match l1 with
          | "."%char :: l1' => digits l1' ip 0
          | _ => (ip, 0%nat, l1)
          end in
        match (ni + nf)%nat, exponent_of l2 with
        | S _, Some e => Ok (decimal_to_float s m (e - Z.of_nat nf))
        | _, _ => bad
        end
  end.

Definition int_of_string (str : string) : result Z :=
  let bad := Raise (LibValueError "invalid literal for int() with base 10") in
  match ungroup None (strip (list_ascii_of_string str)) with
  | None => bad
  | Some l =>
      let '(s, l) := sign_of l in
      match digits l 0 0 with
      | (v, S _, []) => Ok (if s then - v else v)
      | _ => bad
      end
  end.

End Py.

Import Py.

(** ** The [datasets] collaborator *)

Module Datasets.

(** A value stored in a table: a text, a class id, or a vector of class
    ids (multi-target mode). *)
Inductive value :=
| VStr (s : string)
| VInt (z : Z)
| VInts (l : list Z).

Definition column := list value.

(** What iterating yields: the values of a column, the rows of a table. *)
Inductive cell :=
| Val (v : value)
| Row (r : list (string * value)).

(** A single split: named columns, in order. *)
Definition table := list (string * column).

Inductive dataset :=
| Dataset (t : table)
| DatasetDict (splits : list (string * table)).

Fixpoint assoc {A} (key : string) (l : list (string * A)) : option A :=
  match l with
  | (k, v) :: l' => if bool_decide (k = key) then Some v else assoc key l'
  | [] => None
  end.

(** [set(dataset.column_names)]: for a [DatasetDict], [column_names] is a
    dict keyed by split, so the set holds the split names. *)
Definition column_names (d : dataset) : gset string :=
  match d with
  | Dataset t => list_to_set t.*1
  | DatasetDict splits => list_to_set splits.*1
  end.

(** [isinstance(dataset, DatasetDict)] *)
Definition is_DatasetDict (d : dataset) : bool :=
  match d with DatasetDict _ => true | Dataset _ => false end.

Definition num_rows (t : table) : nat :=
  match t with (_, c) :: _ => length c | [] => 0%nat end.

Definition rows (t : table) : list cell :=
  (λ i, Row (omap (λ '(n, c), (n,.) <$> c !! i) t)) <$> seq 0 (num_rows t).

(** [len(dataset)], used by [dataset or default]. *)
Definition len (d : dataset) : nat :=
  match d with
  | Dataset t => num_rows t
  | DatasetDict splits => length splits
  end.

(** What [dataset[key]] returns for a string key: a column of a
    [Dataset], a split of a [DatasetDict]. *)
Inductive item :=
| Column (c : column)
| Split (t : table).

Definition getitem (d : dataset) (key : string) : result item :=
  match d with
  | Dataset t =>
      match assoc key t with Some c => Ok (Column c) | None => Raise (KeyError key) end
  | DatasetDict splits =>
      match assoc key splits with Some t => Ok (Split t) | None => Raise (KeyError key) end
  end.

(** The values met when iterating over an item ([zip], [np.array]). *)
Definition values (i : item) : list cell :=
  match i with Column c => Val <$> c | Split t => rows t end.

(** [Dataset.rename_columns(mapping)]: every key must be a column, the
    new names must be distinct and non-empty. *)
Definition rename_table (mapping : gmap string string) (t : table) : result table :=
  let new_names := (map_to_list mapping).*2 in
  if negb (bool_decide (dom mapping ⊆ list_to_set t.*1)) then
    Raise (LibValueError "Original column names not in the dataset")
  else if negb (bool_decide (NoDup new_names)) then
    Raise (LibValueError "New column names must all be different")
  else if bool_decide (""%string ∈ new_names) then
    Raise (LibValueError "New column names cannot be empty")
  else Ok ((λ '(n, c), (default n (mapping !! n), c)) <$> t).

Fixpoint rename_splits (mapping : gmap string string) (splits : list (string * table))
  : result (list (string * table)) :=
  match splits with
  | [] => Ok []
  | (k, t) :: rest =>
      rbind (rename_table mapping t) (λ t',
      rbind (rename_splits mapping rest) (λ rest', Ok ((k, t') :: rest')))
  end.

(** [dataset.rename_columns(mapping)] *)
Definition rename_columns (mapping : gmap string string) (d : dataset) : result dataset :=
  match d with
  | Dataset t => rbind (rename_table mapping t) (λ t', Ok (Dataset t'))
  | DatasetDict splits => rbind (rename_splits mapping splits) (λ s', Ok (DatasetDict s'))
  end.

(** [dataset.format] followed by [dataset.with_format(...)] over all the
    columns: a [Dataset] keeps its columns; a [DatasetDict] has no
    [format] attribute. *)
Definition reformat (d : dataset) : result dataset :=
  match d with
  | Dataset t => Ok (Dataset t)
  | DatasetDict _ => Raise (AttributeError "format")
  end.

End Datasets.

Import Datasets.

(** ** Hyperparameter suggestions *)

Module Suggestions.

(** Values a hyperparameter suggestion can take: [None], a scalar, or a
    dataset object. *)
Inductive hpval :=
| HNone
| HBool (b : bool)
| HInt (z : Z)
| HFloat (f : float)
| HStr (s : string)
| HDataset (d : dataset).

Definition params := list (string * hpval).

(** *** The constructors [float(v)], [int(v)], [bool(v)] *)

Definition to_float (v : hpval) : result float :=
  match v with
  | HNone => Raise (TypeError "float() argument must be a string or a real number")
  | HBool b => Ok (if b then f1 else f0)
  | HInt z => float_of_int z
  | HFloat f => Ok f
  | HStr s => float_of_string s
  | HDataset _ => Raise (TypeError "float() argument must be a string or a real number")
  end.

Definition to_int (v : hpval) : result Z :=
  match v with
  | HNone => Raise (TypeError "int() argument must be a string or a real number")
  | HBool b => Ok (if b then 1 else 0)
  | HInt z => Ok z
  | HFloat f => int_of_float f
  | HStr s => int_of_string s
  | HDataset _ => Raise (TypeError "int() argument must be a string or a real number")
  end.

Definition to_bool (v : hpval) : bool :=
  match v with
  | HNone => false
  | HBool b => b
  | HInt z => int_truthy z
  | HFloat f => float_truthy f
  | HStr s => negb (bool_decide (s = ""%string))
  | HDataset d => negb (len d =? 0)%nat
  end.

End Suggestions.

Import Suggestions.

(** ** The [sentence_transformers] and [torch] collaborators *)

Module SentenceTransformers.

Record InputExample := { texts : list cell; label : cell }.

(** The loss classes the trainer distinguishes, and any other class. *)
Inductive loss_class_t :=
| CosineSimilarityLoss
| BatchAllTripletLoss
| BatchHardTripletLoss
| BatchSemiHardTripletLoss
| BatchHardSoftMarginTripletLoss
| SupConLoss
| OtherLoss (name : string).

#[global] Instance loss_class_eq_dec : EqDecision loss_class_t.
Proof. solve_decision. Defined.

(** Labels are dictionary keys in the sampler: only hashable cells will do. *)
Definition label_key (c : cell) : option (Z + string) :=
  match c with
  | Val (VInt z) => Some (inl z)
  | Val (VStr s) => Some (inr s)
  | _ => None
  end.

Definition has_label (k : Z + string) (ex : InputExample) : bool :=
  bool_decide (label_key (label ex) = Some k).

(** [SentenceLabelDataset(examples, samples_per_label)]: the examples are
    grouped by label, in the order the labels first occur, and the groups
    with fewer than [samples_per_label] examples are left out.
    [label_groups] is the library's [grouped_inputs] cut at its
    [groups_right_border]. *)
Record SentenceLabelDataset := {
  label_groups : list (list InputExample);
  sld_samples_per_label : Z;
}.

Definition grouped_inputs (s : SentenceLabelDataset) : list InputExample :=
  concat (label_groups s).

(** The keys of a dict filled in this order: each key where it first occurs. *)
Definition first_occurrences {A} `{EqDecision A} (l : list A) : list A :=
  reverse (remove_dups (reverse l)).

Definition label2ex (examples : list InputExample) : list ((Z + string) * list InputExample) :=
  (λ k, (k, filter (λ ex, has_label k ex = true) examples))
    <$> first_occurrences (omap (λ ex, label_key (label ex)) examples).

Definition new_SentenceLabelDataset (examples : list InputExample) (samples_per_label : Z)
  : result SentenceLabelDataset :=
  if bool_decide (Forall (λ ex, is_Some (label_key (label ex))) examples) then
    Ok {| label_groups :=
            filter (λ b, samples_per_label <= Z.of_nat (length b)) (label2ex examples).*2;
          sld_samples_per_label := samples_per_label |}
  else Raise (TypeError "unhashable type").

(** [len(sampler)] *)
Definition sld_len (s : SentenceLabelDataset) : Z := Z.of_nat (length (grouped_inputs s)).

(** The number of examples of [l] that carry the label [k]. *)
Definition label_count (k : Z + string) (l : list InputExample) : nat :=
  length (filter (λ ex, has_label k ex = true) l).

(** The random choices made while the sampler is iterated:
    [shuffled t n] is the order of the [n] labels after the [t]-th call
    of [np.random.shuffle] (the constructor makes the first), and
    [choice t selection n] the [t]-th result of
    [np.random.choice(selection, n, replace=False)]. *)
Record random_source := {
  shuffled : nat → nat → list nat;
  choice : nat → list InputExample → nat → list InputExample;
}.

(** What numpy guarantees of them: a shuffle permutes, and a choice
    without replacement takes [n] of the positions of the selection. *)
Definition fair (r : random_source) : Prop :=
  (∀ t n, shuffled r t n ≡ₚ seq 0 n) ∧
  (∀ t selection n, (n ≤ length selection)%nat →
     length (choice r t selection n) = n ∧ choice r t selection n ⊆+ selection).

(** The loop of [SentenceLabelDataset.__iter__]: [fuel] bounds its turns,
    [label_range] is the current label order, [label_idx] the place in
    it, [shuffles] and [draws] count the random choices made so far and
    [count] the examples yielded.  Each turn visits one label and yields
    [samples_per_label] of its examples as a group, if the label has as
    many that were not yet drawn since the label order was last
    shuffled; the record of drawn examples is emptied at every shuffle
    and each label is visited once between two shuffles, so the
    selection is always the whole label group.  The result lists the
    groups in the order they are yielded. *)
Fixpoint sld_loop (fuel : nat) (r : random_source) (s : SentenceLabelDataset)
    (label_range : list nat) (label_idx shuffles draws count : nat)
  : list (list InputExample) :=
  match fuel with
  | O => []
  | S fuel' =>
      if (length (grouped_inputs s) <=? count)%nat then []
      else
        let label := default 0%nat (label_range !! label_idx) in
        let selection := default [] (label_groups s !! label) in
        let n := Z.to_nat (sld_samples_per_label s) in
        let yielded :=
          if (n <=? length selection)%nat then [choice r draws selection n] else [] in
        let wrap := (length label_range <=? S label_idx)%nat in
        yielded ++
        sld_loop fuel' r s
          (if wrap then shuffled r shuffles (length label_range) else label_range)
          (if wrap then 0%nat else S label_idx)
          (if wrap then S shuffles else shuffles)
          (draws + length yielded)
          (count + length (concat yielded))
  end.

(** One pass over the sampler, [iter(sampler)] run to its end: the groups
    it yields.  For a [samples_per_label] of at least one every turn
    yields, so that [len(sampler)] turns are enough; at zero the
    library's loop yields nothing and never ends. *)
Definition sld_iter (r : random_source) (s : SentenceLabelDataset) : list (list InputExample) :=
  sld_loop (length (grouped_inputs s)) r s (shuffled r 0 (length (label_groups s)))
    0 1 0 0.

End SentenceTransformers.

Import SentenceTransformers.

Module Torch.

(** What a [DataLoader] is built over: a list of examples (a map-style
    dataset), or the label-grouped sampler (an [IterableDataset]). *)
Inductive loader_dataset :=
| ExampleList (examples : list InputExample)
| LabelSampler (sampler : SentenceLabelDataset).

(** [len(dataset)] *)
Definition dataset_len (d : loader_dataset) : nat :=
  match d with
  | ExampleList examples => length examples
  | LabelSampler sampler => length (grouped_inputs sampler)
  end.

(** [DataLoader(dataset, batch_size=..., shuffle=..., drop_last=...)] *)
Record DataLoader := {
  dl_dataset : loader_dataset;
  dl_batch_size : Z;
  dl_shuffle : bool;
  dl_drop_last : bool;
}.

(** The constructor's checks, in its order: an iterable dataset takes no
    [shuffle]; with [shuffle] a [RandomSampler] is built, which refuses
    an empty dataset; then the [BatchSampler] checks the batch size. *)
Definition new_DataLoader (dataset : loader_dataset) (batch_size : Z)
    (shuffle drop_last : bool) : result DataLoader :=
  let batched :=
    if batch_size <=? 0 then
      Raise (LibValueError "batch_size should be a positive integer value")
    else Ok {| dl_dataset := dataset; dl_batch_size := batch_size;
               dl_shuffle := shuffle; dl_drop_last := drop_last |} in
  match dataset with
  | LabelSampler _ =>
      if shuffle then
        Raise (LibValueError "DataLoader with IterableDataset: expected unspecified shuffle option")
      else batched
  | ExampleList examples =>
      if shuffle && (length examples =? 0)%nat then
        Raise (LibValueError "num_samples should be a positive integer value")
      else batched
  end.

Definition dl_size (dl : DataLoader) : Z := Z.of_nat (dataset_len (dl_dataset dl)).

(** [len(dataloader)]: the number of batches [len(dataset)] examples make. *)
Definition dl_len (dl : DataLoader) : Z :=
  if dl_drop_last dl then dl_size dl / dl_batch_size dl
  else (dl_size dl + dl_batch_size dl - 1) / dl_batch_size dl.

(** Batching a stream of examples: [cur] collects the batch under way,
    a full batch is delivered, and what is collected when the stream ends
    is delivered unless it is empty or [drop_last] is set. *)
Fixpoint collate {A} (batch_size : nat) (drop_last : bool) (cur stream : list A)
  : list (list A) :=
  match stream with
  | [] => if drop_last || (length cur =? 0)%nat then [] else [cur]
  | x :: stream' =>
      let cur' := cur ++ [x] in
      if (length cur' =? batch_size)%nat then cur' :: collate batch_size drop_last [] stream'
      else collate batch_size drop_last cur' stream'
  end.

(** The batches of one epoch of a loader over the label-grouped sampler. *)
Definition sampler_batches (r : random_source) (dl : DataLoader) (s : SentenceLabelDataset)
  : list (list InputExample) :=
  collate (Z.to_nat (dl_batch_size dl)) (dl_drop_last dl) [] (concat (sld_iter r s)).

End Torch.

Import Torch.

(** ** The model collaborator *)

Module Model.

Inductive component := Head | Body.

(** Modelled from the spec: [SetFitModel] lives in [setfit/modeling.py],
    which is not part of the sources at hand.  The spec gives it a
    capability flag [has_differentiable_head], an optional
    [multi_target_strategy], and "a frozen/unfrozen state for its head and
    body independently (two independent boolean switches)" driven by
    [freeze(part)] and [unfreeze(part)]. *)
Record SetFitModel := {
  model_body : nat;
  has_differentiable_head : bool;
  multi_target_strategy : option string;
  head_frozen : bool;
  body_frozen : bool;
}.

Definition set_frozen (c : component) (b : bool) (m : SetFitModel) : SetFitModel :=
  match c with
  | Head => {| model_body := model_body m;
               has_differentiable_head := has_differentiable_head m;
               multi_target_strategy := multi_target_strategy m;
               head_frozen := b; body_frozen := body_frozen m |}
  | Body => {| model_body := model_body m;
               has_differentiable_head := has_differentiable_head m;
               multi_target_strategy := multi_target_strategy m;
               head_frozen := head_frozen m; body_frozen := b |}
  end.

Definition freeze (c : component) : SetFitModel → SetFitModel := set_frozen c true.
Definition unfreeze (c : component) : SetFitModel → SetFitModel := set_frozen c false.

(** A model factory as the trainer sees it: what
    [transformers.trainer_utils.number_of_arguments] reports for it, and
    what calling it with no argument and with one argument does. *)
Record ModelInit := {
  number_of_arguments : nat;
  call0 : result (option SetFitModel);
  call1 : option params → result (option SetFitModel);
}.

End Model.

Import Model.

(** ** The trainer's state *)

Inductive metric_t :=
| MetricName (name : string)
| MetricCallable (id : nat)
| MetricOther.

Inductive distance_fn :=
| cosine_distance
| OtherDistance (id : nat).

Inductive HPSearchBackend := OPTUNA | RAY | SIGOPT | WANDB.

#[global] Instance HPSearchBackend_eq_dec : EqDecision HPSearchBackend.
Proof. solve_decision. Defined.

(** The [trial] argument of [train]: a dict of parameters, or an
    [optuna.Trial] (identified by its number). *)
Inductive trial_t :=
| TrialDict (p : params)
| TrialOptuna (number : nat).

(** The attributes of a [SetFitTrainer].  [model] is [None] only if a
    factory returned [None] in [apply_hyperparameters]; [hp_space] is
    [None] until [hyperparameter_search] sets it.  The two history
    dictionaries are filled by callbacks the fit routines invoke and are
    left out. *)
Record SetFitTrainer := {
  train_dataset : option dataset;
  eval_dataset : option dataset;
  model_init : option ModelInit;
  metric : metric_t;
  metric_kwargs : option params;
  loss_class : option loss_class_t;
  num_iterations : Z;
  num_epochs : Z;
  learning_rate : float;
  batch_size : Z;
  seed : Z;
  column_mapping : option (gmap string string);
  use_amp : bool;
  warmup_proportion : float;
  distance_metric : distance_fn;
  margin : float;
  samples_per_label : Z;
  model : option SetFitModel;
  hp_search_backend : option HPSearchBackend;
  _freeze : bool;
  hp_space : option (nat → params);
}.

Definition set_train_dataset (v : option dataset) (t : SetFitTrainer) : SetFitTrainer :=
  Build_SetFitTrainer v (eval_dataset t) (model_init t) (metric t) (metric_kwargs t)
    (loss_class t) (num_iterations t) (num_epochs t) (learning_rate t) (batch_size t)
    (seed t) (column_mapping t) (use_amp t) (warmup_proportion t) (distance_metric t)
    (margin t) (samples_per_label t) (model t) (hp_search_backend t) (_freeze t)
    (hp_space t).

Definition set_eval_dataset (v : option dataset) (t : SetFitTrainer) : SetFitTrainer :=
  Build_SetFitTrainer (train_dataset t) v (model_init t) (metric t) (metric_kwargs t)
    (loss_class t) (num_iterations t) (num_epochs t) (learning_rate t) (batch_size t)
    (seed t) (column_mapping t) (use_amp t) (warmup_proportion t) (distance_metric t)
    (margin t) (samples_per_label t) (model t) (hp_search_backend t) (_freeze t)
    (hp_space t).

Definition set_model_init (v : option ModelInit) (t : SetFitTrainer) : SetFitTrainer :=
  Build_SetFitTrainer (train_dataset t) (eval_dataset t) v (metric t) (metric_kwargs t)
    (loss_class t) (num_iterations t) (num_epochs t) (learning_rate t) (batch_size t)
    (seed t) (column_mapping t) (use_amp t) (warmup_proportion t) (distance_metric t)
    (margin t) (samples_per_label t) (model t) (hp_search_backend t) (_freeze t)
    (hp_space t).

Definition set_loss_class (v : option loss_class_t) (t : SetFitTrainer) : SetFitTrainer :=
  Build_SetFitTrainer (train_dataset t) (eval_dataset t) (model_init t) (metric t)
    (metric_kwargs t) v (num_iterations t) (num_epochs t) (learning_rate t)
    (batch_size t) (seed t) (column_mapping t) (use_amp t) (warmup_proportion t)
    (distance_metric t) (margin t) (samples_per_label t) (model t) (hp_search_backend t)
    (_freeze t) (hp_space t).

Definition set_num_iterations (v : Z) (t : SetFitTrainer) : SetFitTrainer :=
  Build_SetFitTrainer (train_dataset t) (eval_dataset t) (model_init t) (metric t)
    (metric_kwargs t) (loss_class t) v (num_epochs t) (learning_rate t) (batch_size t)
    (seed t) (column_mapping t) (use_amp t) (warmup_proportion t) (distance_metric t)
    (margin t) (samples_per_label t) (model t) (hp_search_backend t) (_freeze t)
    (hp_space t).

Definition set_num_epochs (v : Z) (t : SetFitTrainer) : SetFitTrainer :=
  Build_SetFitTrainer (train_dataset t) (eval_dataset t) (model_init t) (metric t)
    (metric_kwargs t) (loss_class t) (num_iterations t) v (learning_rate t)
    (batch_size t) (seed t) (column_mapping t) (use_amp t) (warmup_proportion t)
    (distance_metric t) (margin t) (samples_per_label t) (model t) (hp_search_backend t)
    (_freeze t) (hp_space t).

Definition set_learning_rate (v : float) (t : SetFitTrainer) : SetFitTrainer :=
  Build_SetFitTrainer (train_dataset t) (eval_dataset t) (model_init t) (metric t)
    (metric_kwargs t) (loss_class t) (num_iterations t) (num_epochs t) v (batch_size t)
    (seed t) (column_mapping t) (use_amp t) (warmup_proportion t) (distance_metric t)
    (margin t) (samples_per_label t) (model t) (hp_search_backend t) (_freeze t)
    (hp_space t).

Definition set_batch_size (v : Z) (t : SetFitTrainer) : SetFitTrainer :=
  Build_SetFitTrainer (train_dataset t) (eval_dataset t) (model_init t) (metric t)
    (metric_kwargs t) (loss_class t) (num_iterations t) (num_epochs t) (learning_rate t)
    v (seed t) (column_mapping t) (use_amp t) (warmup_proportion t) (distance_metric t)
    (margin t) (samples_per_label t) (model t) (hp_search_backend t) (_freeze t)
    (hp_space t).

Definition set_seed (v : Z) (t : SetFitTrainer) : SetFitTrainer :=
  Build_SetFitTrainer (train_dataset t) (eval_dataset t) (model_init t) (metric t)
    (metric_kwargs t) (loss_class t) (num_iterations t) (num_epochs t) (learning_rate t)
    (batch_size t) v (column_mapping t) (use_amp t) (warmup_proportion t)
    (distance_metric t) (margin t) (samples_per_label t) (model t) (hp_search_backend t)
    (_freeze t) (hp_space t).

Definition set_use_amp (v : bool) (t : SetFitTrainer) : SetFitTrainer :=
  Build_SetFitTrainer (train_dataset t) (eval_dataset t) (model_init t) (metric t)
    (metric_kwargs t) (loss_class t) (num_iterations t) (num_epochs t) (learning_rate t)
    (batch_size t) (seed t) (column_mapping t) v (warmup_proportion t)
    (distance_metric t) (margin t) (samples_per_label t) (model t) (hp_search_backend t)
    (_freeze t) (hp_space t).

Definition set_warmup_proportion (v : float) (t : SetFitTrainer) : SetFitTrainer :=
  Build_SetFitTrainer (train_dataset t) (eval_dataset t) (model_init t) (metric t)
    (metric_kwargs t) (loss_class t) (num_iterations t) (num_epochs t) (learning_rate t)
    (batch_size t) (seed t) (column_mapping t) (use_amp t) v (distance_metric t)
    (margin t) (samples_per_label t) (model t) (hp_search_backend t) (_freeze t)
    (hp_space t).

Definition set_margin (v : float) (t : SetFitTrainer) : SetFitTrainer :=
  Build_SetFitTrainer (train_dataset t) (eval_dataset t) (model_init t) (metric t)
    (metric_kwargs t) (loss_class t) (num_iterations t) (num_epochs t) (learning_rate t)
    (batch_size t) (seed t) (column_mapping t) (use_amp t) (warmup_proportion t)
    (distance_metric t) v (samples_per_label t) (model t) (hp_search_backend t)
    (_freeze t) (hp_space t).

Definition set_samples_per_label (v : Z) (t : SetFitTrainer) : SetFitTrainer :=
  Build_SetFitTrainer (train_dataset t) (eval_dataset t) (model_init t) (metric t)
    (metric_kwargs t) (loss_class t) (num_iterations t) (num_epochs t) (learning_rate t)
    (batch_size t) (seed t) (column_mapping t) (use_amp t) (warmup_proportion t)
    (distance_metric t) (margin t) v (model t) (hp_search_backend t) (_freeze t)
    (hp_space t).

Definition set_model (v : option SetFitModel) (t : SetFitTrainer) : SetFitTrainer :=
  Build_SetFitTrainer (train_dataset t) (eval_dataset t) (model_init t) (metric t)
    (metric_kwargs t) (loss_class t) (num_iterations t) (num_epochs t) (learning_rate t)
    (batch_size t) (seed t) (column_mapping t) (use_amp t) (warmup_proportion t)
    (distance_metric t) (margin t) (samples_per_label t) v (hp_search_backend t)
    (_freeze t) (hp_space t).

Definition set_hp_search_backend (v : option HPSearchBackend) (t : SetFitTrainer)
  : SetFitTrainer :=
  Build_SetFitTrainer (train_dataset t) (eval_dataset t) (model_init t) (metric t)
    (metric_kwargs t) (loss_class t) (num_iterations t) (num_epochs t) (learning_rate t)
    (batch_size t) (seed t) (column_mapping t) (use_amp t) (warmup_proportion t)
    (distance_metric t) (margin t) (samples_per_label t) (model t) v (_freeze t)
    (hp_space t).

Definition set_freeze_switch (v : bool) (t : SetFitTrainer) : SetFitTrainer :=
  Build_SetFitTrainer (train_dataset t) (eval_dataset t) (model_init t) (metric t)
    (metric_kwargs t) (loss_class t) (num_iterations t) (num_epochs t) (learning_rate t)
    (batch_size t) (seed t) (column_mapping t) (use_amp t) (warmup_proportion t)
    (distance_metric t) (margin t) (samples_per_label t) (model t) (hp_search_backend t)
    v (hp_space t).

(** The arguments of [SetFitTrainer(...)]. *)
Record InitArgs := {
  arg_model : option SetFitModel;
  arg_train_dataset : option dataset;
  arg_eval_dataset : option dataset;
  arg_model_init : option ModelInit;
  arg_metric : metric_t;
  arg_metric_kwargs : option params;
  arg_loss_class : option loss_class_t;
  arg_num_iterations : Z;
  arg_num_epochs : Z;
  arg_learning_rate : float;
  arg_batch_size : Z;
  arg_seed : Z;
  arg_column_mapping : option (gmap string string);
  arg_use_amp : bool;
  arg_warmup_proportion : float;
  arg_distance_metric : distance_fn;
  arg_margin : float;
  arg_samples_per_label : Z;
}.

(** The literals [2e-5], [0.1] and [0.25]. *)
Definition lit_2e_5 : float := Eval vm_compute in decimal_to_float false 2 (-5).
Definition lit_0_1 : float := Eval vm_compute in decimal_to_float false 1 (-1).
Definition lit_0_25 : float := Eval vm_compute in decimal_to_float false 25 (-2).

(** The arguments other than [warmup_proportion] are valid: exactly one of
    [model] and [model_init] is given, and a factory takes no argument or
    one and returns a model. *)
Definition valid_model_args (a : InitArgs) : Prop :=
  match arg_model a, arg_model_init a with
  | Some _, None => True
  | None, Some f =>
      (number_of_arguments f = 0%nat ∧ ∃ m, call0 f = Ok (Some m)) ∨
      (number_of_arguments f = 1%nat ∧ ∃ m, call1 f None = Ok (Some m))
  | _, _ => False
  end.

(** The same arguments with another [warmup_proportion]. *)
Definition with_warmup_proportion (w : float) (a : InitArgs) : InitArgs := {|
  arg_model := arg_model a; arg_train_dataset := arg_train_dataset a;
  arg_eval_dataset := arg_eval_dataset a; arg_model_init := arg_model_init a;
  arg_metric := arg_metric a; arg_metric_kwargs := arg_metric_kwargs a;
  arg_loss_class := arg_loss_class a; arg_num_iterations := arg_num_iterations a;
  arg_num_epochs := arg_num_epochs a; arg_learning_rate := arg_learning_rate a;
  arg_batch_size := arg_batch_size a; arg_seed := arg_seed a;
  arg_column_mapping := arg_column_mapping a; arg_use_amp := arg_use_amp a;
  arg_warmup_proportion := w;
  arg_distance_metric := arg_distance_metric a; arg_margin := arg_margin a;
  arg_samples_per_label := arg_samples_per_label a |}.

(** The same arguments with another [eval_dataset]. *)
Definition with_eval_dataset (d : option dataset) (a : InitArgs) : InitArgs := {|
  arg_model := arg_model a; arg_train_dataset := arg_train_dataset a;
  arg_eval_dataset := d; arg_model_init := arg_model_init a;
  arg_metric := arg_metric a; arg_metric_kwargs := arg_metric_kwargs a;
  arg_loss_class := arg_loss_class a; arg_num_iterations := arg_num_iterations a;
  arg_num_epochs := arg_num_epochs a; arg_learning_rate := arg_learning_rate a;
  arg_batch_size := arg_batch_size a; arg_seed := arg_seed a;
  arg_column_mapping := arg_column_mapping a; arg_use_amp := arg_use_amp a;
  arg_warmup_proportion := arg_warmup_proportion a;
  arg_distance_metric := arg_distance_metric a; arg_margin := arg_margin a;
  arg_samples_per_label := arg_samples_per_label a |}.

(** The float [0.01]: the binary64 value nearest to 1/100. *)
Definition lit_0_01 : float := Eval vm_compute in decimal_to_float false 1 (-2).

(** The defaults of the constructor's signature. *)
Definition default_args : InitArgs := {|
  arg_model := None; arg_train_dataset := None; arg_eval_dataset := None;
  arg_model_init := None; arg_metric := MetricName "accuracy";
  arg_metric_kwargs := None; arg_loss_class := Some CosineSimilarityLoss;
  arg_num_iterations := 20; arg_num_epochs := 1; arg_learning_rate := lit_2e_5;
  arg_batch_size := 16; arg_seed := 42; arg_column_mapping := None;
  arg_use_amp := false; arg_warmup_proportion := lit_0_1;
  arg_distance_metric := cosine_distance; arg_margin := lit_0_25;
  arg_samples_per_label := 2 |}.

(** The arguments of [train(...)] and the defaults of its signature. *)
Record TrainArgs := {
  kw_num_epochs : option Z;
  kw_batch_size : option Z;
  kw_learning_rate : option float;
  kw_body_learning_rate : option float;
  kw_l2_weight : option float;
  kw_max_length : option Z;
  kw_trial : option trial_t;
  kw_show_progress_bar : bool;
  kw_log_steps : option Z;
}.

Definition default_kwargs : TrainArgs := {|
  kw_num_epochs := None; kw_batch_size := None; kw_learning_rate := None;
  kw_body_learning_rate := None; kw_l2_weight := None; kw_max_length := None;
  kw_trial := None; kw_show_progress_bar := true; kw_log_steps := Some 0 |}.

(** ** What a method call does to the outside *)

Record loss_module := {
  lm_class : loss_class_t;
  lm_model : nat;
  lm_distance_metric : option distance_fn;
  lm_margin : option float;
}.

(** [model.model_body.fit(...)] at trainer.py:479-490 *)
Record BodyFitCall := {
  bf_train_dataloader : DataLoader;
  bf_train_loss : loss_module;
  bf_epochs : Z;
  bf_lr : float;
  bf_warmup_steps : Z;
  bf_show_progress_bar : bool;
  bf_use_amp : bool;
  bf_log_steps : option Z;
  bf_evaluator : DataLoader * loss_module;
}.

(** [model.fit(...)] at trainer.py:501-515 *)
Record HeadFitCall := {
  hf_x_train : item;
  hf_y_train : item;
  hf_x_test : item;
  hf_y_test : item;
  hf_num_epochs : Z;
  hf_batch_size : Z;
  hf_learning_rate : float;
  hf_body_learning_rate : option float;
  hf_l2_weight : option float;
  hf_max_length : option Z;
}.

Inductive log_message :=
| TrialInfo (p : params)
| ApplyingColumnMappingTrain
| ApplyingColumnMappingEval
| RunningTraining
| NumExamples (n : nat)
| NumEpochs (n : Z)
| TotalOptimizationSteps (n : Z)
| TotalTrainBatchSize (n : Z)
| RunningEvaluation
| NoLossClassDetected
| NoCorrespondingField (key : string).

Inductive event :=
| SetSeed (seed : Z)
| LogInfo (m : log_message)
| LogWarning (m : log_message)
| PairGeneration (multilabel : bool)
| BodyFit (call : BodyFitCall)
| HeadFit (call : HeadFitCall)
| Predict (x_test : item).

(** What [evaluate] returns: the metric computation it delegates to. *)
Inductive metrics :=
| NamedMetric (name : string) (config_name : option string) (kwargs : params)
    (x_test references : item)
| CallableMetric (id : nat) (x_test references : item).

(** ** The method monad: state [self], exceptions, a trace of events *)

Record outcome (A : Type) := Outcome {
  value : result A;
  final : SetFitTrainer;
  trace : list event;
}.
Arguments Outcome {A} value final trace.
Arguments value {A} o.
Arguments final {A} o.
Arguments trace {A} o.

Definition M (A : Type) : Type := SetFitTrainer → outcome A.

#[global] Instance M_ret : MRet M := λ A a self, Outcome (Ok a) self [].

#[global] Instance M_bind : MBind M := λ A B k m self,
  match m self with
  | Outcome (Ok a) self' tr =>
      match k a self' with
      | Outcome v self'' tr' => Outcome v self'' (tr ++ tr')
      end
  | Outcome (Raise e) self' tr => Outcome (Raise e) self' tr
  end.

Definition get_self : M SetFitTrainer := λ self, Outcome (Ok self) self [].
Definition modify (f : SetFitTrainer → SetFitTrainer) : M unit :=
  λ self, Outcome (Ok tt) (f self) [].
Definition emit (e : event) : M unit := λ self, Outcome (Ok tt) self [e].
Definition raise {A} (e : exn) : M A := λ self, Outcome (Raise e) self [].
Definition lift {A} (r : result A) : M A :=
  match r with Ok a => mret a | Raise e => raise e end.

Fixpoint for_each {A} (l : list A) (body : A → M unit) : M unit :=
  match l with
  | [] => mret tt
  | a :: l' => body a;; for_each l' body
  end.

(** ** The methods of [SetFitTrainer] *)

(** The state of the process-wide random generator: the seed it was last
    given and the number of pair-generation passes drawn since. *)
Record rng_state := { rng_seed : Z; rng_draws : nat }.

Definition required_columns : gset string := {["text"; "label"]}.

(** The names [hasattr(self, key)] finds: the attributes [__init__] sets,
    those [hyperparameter_search] adds, the methods of the class, and the
    names an instance of any class has ([inherited_names]). *)
Definition scalar_fields : list string :=
  ["num_iterations"; "num_epochs"; "learning_rate"; "batch_size"; "seed"; "use_amp";
   "warmup_proportion"; "margin"; "samples_per_label"; "_freeze"].

Definition object_fields : list string :=
  ["train_dataset"; "eval_dataset"; "model_init"; "metric"; "metric_kwargs"; "loss_class";
   "column_mapping"; "distance_metric"; "model"; "hp_search_backend";
   "sentence_transformer_history"; "classifier_history"].

Definition method_names : list string :=
  ["_validate_column_mapping"; "_apply_column_mapping"; "apply_hyperparameters";
   "_hp_search_setup"; "call_model_init"; "freeze"; "unfreeze"; "_log_training_progress";
   "_log_test_progress"; "train"; "evaluate"; "hyperparameter_search"; "push_to_hub"].

Definition search_fields : list string := ["hp_space"; "hp_name"; "compute_objective"].

(** What [dir(object)] lists (CPython 3.11 and 3.12; [__getstate__] is
    absent before 3.11), and the three names the class statement adds to
    a class without [__slots__]. *)
Definition inherited_names : list string :=
  ["__class__"; "__delattr__"; "__dir__"; "__doc__"; "__eq__"; "__format__"; "__ge__";
   "__getattribute__"; "__getstate__"; "__gt__"; "__hash__"; "__init__";
   "__init_subclass__"; "__le__"; "__lt__"; "__ne__"; "__new__"; "__reduce__";
   "__reduce_ex__"; "__repr__"; "__setattr__"; "__sizeof__"; "__str__";
   "__subclasshook__"; "__dict__"; "__module__"; "__weakref__"].

Definition hasattr (self : SetFitTrainer) (key : string) : bool :=
  bool_decide (key ∈ (scalar_fields ++ object_fields ++ method_names ++ inherited_names)%list)
  || (bool_decide (is_Some (hp_space self)) && bool_decide (key ∈ search_fields)).

(** [value = type(old_attr)(value); setattr(self, key, value)] for the
    attributes that hold a number or a boolean (never [None]). *)
Definition setattr_scalar (key : string) (v : hpval) : option (M unit) :=
  if bool_decide (key = "num_iterations") then
    Some (z ← lift (to_int v); modify (set_num_iterations z))
  else if bool_decide (key = "num_epochs") then
    Some (z ← lift (to_int v); modify (set_num_epochs z))
  else if bool_decide (key = "learning_rate") then
    Some (f ← lift (to_float v); modify (set_learning_rate f))
  else if bool_decide (key = "batch_size") then
    Some (z ← lift (to_int v); modify (set_batch_size z))
  else if bool_decide (key = "seed") then
    Some (z ← lift (to_int v); modify (set_seed z))
  else if bool_decide (key = "use_amp") then
    Some (modify (set_use_amp (to_bool v)))
  else if bool_decide (key = "warmup_proportion") then
    Some (f ← lift (to_float v); modify (set_warmup_proportion f))
  else if bool_decide (key = "margin") then
    Some (f ← lift (to_float v); modify (set_margin f))
  else if bool_decide (key = "samples_per_label") then
    Some (z ← lift (to_int v); modify (set_samples_per_label z))
  else if bool_decide (key = "_freeze") then
    Some (modify (set_freeze_switch (to_bool v)))
  else None.

(** [setattr(self, key, value)] for a dataset attribute that holds
    [None]: there is no old value to cast to, and the suggestion is
    stored as it is (trainer.py:215-219).  Covered where the suggestion
    is [None] or a dataset. *)
Definition setattr_uncast (key : string) (v : hpval) (self : SetFitTrainer)
  : option SetFitTrainer :=
  if bool_decide (key = "train_dataset") then
    match train_dataset self, v with
    | None, HDataset d => Some (set_train_dataset (Some d) self)
    | None, HNone => Some self
    | _, _ => None
    end
  else if bool_decide (key = "eval_dataset") then
    match eval_dataset self, v with
    | None, HDataset d => Some (set_eval_dataset (Some d) self)
    | None, HNone => Some self
    | _, _ => None
    end
  else None.

(** [number_of_arguments(self.model_init)] *)
Definition model_init_argcount (mi : option ModelInit) : result nat :=
  match mi with
  | Some f => Ok (number_of_arguments f)
  | None => Raise (TypeError "None is not a callable object")
  end.

Section Trainer.

(** [sentence_pairs_generation] and [sentence_pairs_generation_multilabel]
    of [setfit/modeling.py]: given the sentences, the labels and the pairs
    so far, the pairs after one more pass, drawn at the given state of the
    random generator, or the exception the pass ends in (as when a
    sentence has no partner to be paired with). *)
Variable sentence_pairs_generation :
  rng_state → list cell → list cell → list InputExample → result (list InputExample).
Variable sentence_pairs_generation_multilabel :
  rng_state → list cell → list cell → list InputExample → result (list InputExample).

(** [value = type(old_attr)(value); setattr(self, key, value)] in the
    cases [setattr_scalar] and [setattr_uncast] leave: the attribute
    [key] holds an object (a dataset, a callable, a dict, the model, a
    method), or it holds [None] and the suggestion is a value that the
    typed record has no place for in that attribute.  What the
    constructor of a foreign class makes of a suggested value is not the
    trainer's to decide; both are left to this parameter. *)
Variable setattr_object : string → hpval → SetFitTrainer → result SetFitTrainer.

(** trainer.py:150-184 *)
Definition _validate_column_mapping (dataset : option dataset) : M unit :=
  self ← get_self;
  match dataset with
  | None => raise (AttributeError "column_names")
  | Some dataset =>
      let column_names := column_names dataset in
      (if bool_decide (column_mapping self = None)
          && negb (bool_decide (required_columns ⊆ column_names)) then
         if bool_decide (column_names = {["train"]}) && is_DatasetDict dataset then
           raise (ValueError GotDatasetDictTrainSplit)
         else if is_DatasetDict dataset then
           raise (ValueError (GotDatasetDictSplits column_names))
         else
           raise (ValueError (MissingRequiredColumns required_columns column_names))
       else mret tt);;
      match column_mapping self with
      | Some mapping =>
          let missing_columns := required_columns ∖ map_img mapping in
          if negb (bool_decide (missing_columns = ∅)) then
            raise (ValueError (MappingMissesColumns missing_columns))
          else if negb (bool_decide (dom mapping ⊆ column_names)) then
            raise (ValueError (MappingExpectsColumns (dom mapping) column_names))
          else mret tt
      | None => mret tt
      end
  end.

(** The dict built at trainer.py:192-195: the mapping itself, and
    [feat_<col>] for the columns it does not mention. *)
Definition full_mapping (dataset : dataset) (column_mapping : gmap string string)
  : gmap string string :=
  let names := match dataset with Dataset t => t.*1 | DatasetDict s => s.*1 end in
  list_to_map ((λ col, (col, "feat_" +:+ col))
                 <$> filter (λ col, column_mapping !! col = None) names)
  ∪ column_mapping.

(** trainer.py:186-204 *)
Definition _apply_column_mapping (dataset : dataset) (column_mapping : gmap string string)
  : M Datasets.dataset :=
  dataset ← lift (rename_columns (full_mapping dataset column_mapping) dataset);
  lift (reformat dataset).

(** One turn of the loop at trainer.py:213-224. *)
Definition apply_hyperparameter (key : string) (v : hpval) : M unit :=
  self ← get_self;
  if hasattr self key then
    match setattr_scalar key v with
    | Some set => set
    | None =>
        match setattr_uncast key v self with
        | Some self' => modify (λ _, self')
        | None => self' ← lift (setattr_object key v self); modify (λ _, self')
        end
    end
  else
    n ← lift (model_init_argcount (model_init self));
    if (n =? 0)%nat then emit (LogWarning (NoCorrespondingField key)) else mret tt.

(** trainer.py:206-228 *)
Definition apply_hyperparameters (params : params) (final_model : bool) : M unit :=
  for_each params (λ '(key, v), apply_hyperparameter key v);;
  self ← get_self;
  m ← match model_init self with
      | Some f => lift (call1 f (Some params))
      | None => raise (TypeError "'NoneType' object is not callable")
      end;
  modify (set_model m);;
  if final_model then modify (set_model_init None) else mret tt.

(** trainer.py:230-245 *)
Definition _hp_search_setup (trial : option trial_t) : M unit :=
  self ← get_self;
  match hp_search_backend self, trial with
  | None, _ | _, None => mret tt
  | Some backend, Some trial =>
      params ← match trial with
               | TrialDict p => mret p
               | TrialOptuna number =>
                   if bool_decide (backend = OPTUNA) then
                     match hp_space self with
                     | Some space => mret (space number)
                     | None => raise (AttributeError "hp_space")
                     end
                   else raise (ValueError InvalidTrialParameter)
               end;
      emit (LogInfo (TrialInfo params));;
      apply_hyperparameters params false
  end.

(** trainer.py:247-259 *)
Definition call_model_init (params : option params) : M SetFitModel :=
  self ← get_self;
  model_init_argcount ← lift (model_init_argcount (model_init self));
  model ← match model_init self with
          | None => raise (TypeError "'NoneType' object is not callable")
          | Some f =>
              if (model_init_argcount =? 0)%nat then lift (call0 f)
              else if (model_init_argcount =? 1)%nat then lift (call1 f params)
              else raise (RuntimeError ModelInitArity)
          end;
  match model with
  | None => raise (RuntimeError ModelInitReturnedNone)
  | Some model => mret model
  end.

(** trainer.py:83-148.  The object under construction is the state the
    call to [call_model_init] runs in; a constructor that raises yields no
    trainer. *)
Definition __init__ (a : InitArgs) : result SetFitTrainer :=
  if float_lt (arg_warmup_proportion a) f0 || float_lt f1 (arg_warmup_proportion a) then
    Raise (ValueError (WarmupProportionOutOfRange (arg_warmup_proportion a)))
  else
    let self := {|
      train_dataset := arg_train_dataset a; eval_dataset := arg_eval_dataset a;
      model_init := arg_model_init a; metric := arg_metric a;
      metric_kwargs := arg_metric_kwargs a; loss_class := arg_loss_class a;
      num_iterations := arg_num_iterations a; num_epochs := arg_num_epochs a;
      learning_rate := arg_learning_rate a; batch_size := arg_batch_size a;
      seed := arg_seed a; column_mapping := arg_column_mapping a;
      use_amp := arg_use_amp a; warmup_proportion := arg_warmup_proportion a;
      distance_metric := arg_distance_metric a; margin := arg_margin a;
      samples_per_label := arg_samples_per_label a;
      model := None; hp_search_backend := None; _freeze := true; hp_space := None |} in
    rbind
      (match arg_model a with
       | None =>
           match arg_model_init a with
           | Some _ => value (call_model_init None self)
           | None => Raise (RuntimeError RequiresModelOrModelInit)
           end
       | Some model =>
           match arg_model_init a with
           | Some _ => Raise (RuntimeError RequiresModelOrModelInitNotBoth)
           | None => Ok model
           end
       end)
      (λ model, Ok (set_model (Some model) self)).

(** [self.model.<attr>]: [None] has no attributes. *)
Definition the_model (attr : string) : M SetFitModel :=
  self ← get_self;
  match model self with
  | Some m => mret m
  | None => raise (AttributeError attr)
  end.

(** trainer.py:261-270 *)
Definition freeze : M unit :=
  m ← the_model "has_differentiable_head";
  if negb (has_differentiable_head m) then raise (ValueError NeedsDifferentiableHead)
  else
    modify (set_freeze_switch true);;
    modify (set_model (Some (Model.freeze Head m))).

(** trainer.py:272-289 *)
Definition unfreeze (keep_body_frozen : bool) : M unit :=
  m ← the_model "has_differentiable_head";
  if negb (has_differentiable_head m) then raise (ValueError NeedsDifferentiableHead)
  else
    modify (set_freeze_switch false);;
    let m := Model.unfreeze Head m in
    modify (set_model (Some (if keep_body_frozen then Model.freeze Body m
                             else Model.unfreeze Body m))).

(** The loss classes that take label-grouped batches (trainer.py:414-420). *)
Definition triplet_family : list loss_class_t :=
  [BatchAllTripletLoss; BatchHardTripletLoss; BatchSemiHardTripletLoss;
   BatchHardSoftMarginTripletLoss; SupConLoss].
Arguments triplet_family : simpl never.

(** [[InputExample(texts=[text], label=label) for text, label in zip(x, y)]] *)
Definition examples_of (x y : item) : list InputExample :=
  zip_with (λ text label, {| texts := [text]; label := label |}) (values x) (values y).

(** The loss module bound at trainer.py:431-443. *)
Definition triplet_loss (self : SetFitTrainer) (cls : loss_class_t) (body : nat) : loss_module :=
  if bool_decide (cls = BatchHardSoftMarginTripletLoss) then
    {| lm_class := cls; lm_model := body;
       lm_distance_metric := Some (distance_metric self); lm_margin := None |}
  else if bool_decide (cls = SupConLoss) then
    {| lm_class := cls; lm_model := body; lm_distance_metric := None; lm_margin := None |}
  else
    {| lm_class := cls; lm_model := body;
       lm_distance_metric := Some (distance_metric self); lm_margin := Some (margin self) |}.

Definition next_draw (r : rng_state) : rng_state :=
  {| rng_seed := rng_seed r; rng_draws := S (rng_draws r) |}.

(** The loop at trainer.py:448-462. *)
Fixpoint generate_pairs (passes : nat) (multilabel : bool) (rng : rng_state)
    (x_train y_train x_test y_test : item) (train_examples test_examples : list InputExample)
  : M (list InputExample * list InputExample) :=
  match passes with
  | O => mret (train_examples, test_examples)
  | S passes' =>
      emit (PairGeneration multilabel);;
      let generation :=
        if multilabel then sentence_pairs_generation_multilabel
        else sentence_pairs_generation in
      train_examples ← lift (generation rng (values x_train) (values y_train) train_examples);
      test_examples ←
        lift (generation (next_draw rng) (values x_test) (values y_test) test_examples);
      generate_pairs passes' multilabel (next_draw (next_draw rng))
        x_train y_train x_test y_test train_examples test_examples
  end.

(** The body-training phase, trainer.py:406-490.  It returns the local
    [batch_size], which the label-grouped branch rebinds. *)
Definition train_body (m : SetFitModel) (rng : rng_state) (x_train y_train x_test y_test : item)
    (num_epochs batch_size : Z) (learning_rate : float)
    (show_progress_bar : bool) (log_steps : option Z) : M Z :=
  self ← get_self;
  '(train_examples, train_dataloader, train_loss, test_dataloader, batch_size) ←
    (if bool_decide (loss_class self ∈ Some <$> triplet_family) then
       let cls := default CosineSimilarityLoss (loss_class self) in
       let train_examples := examples_of x_train y_train in
       train_data_sampler ←
         lift (new_SentenceLabelDataset train_examples (samples_per_label self));
       let batch_size := Z.min batch_size (sld_len train_data_sampler) in
       train_dataloader ←
         lift (new_DataLoader (LabelSampler train_data_sampler) batch_size false true);
       let test_examples := examples_of x_test y_test in
       test_data_sampler ←
         lift (new_SentenceLabelDataset test_examples (samples_per_label self));
       test_dataloader ←
         lift (new_DataLoader (LabelSampler test_data_sampler) batch_size false true);
       mret (train_examples, train_dataloader, triplet_loss self cls (model_body m),
             test_dataloader, batch_size)
     else
       '(train_examples, test_examples) ←
         generate_pairs (Z.to_nat (num_iterations self))
           (bool_decide (is_Some (multi_target_strategy m))) rng
           x_train y_train x_test y_test [] [];
       train_dataloader ← lift (new_DataLoader (ExampleList train_examples) batch_size true false);
       train_loss ←
         match loss_class self with
         | Some cls => mret {| lm_class := cls; lm_model := model_body m;
                               lm_distance_metric := None; lm_margin := None |}
         | None => raise (TypeError "'NoneType' object is not callable")
         end;
       test_dataloader ← lift (new_DataLoader (ExampleList test_examples) batch_size true false);
       mret (train_examples, train_dataloader, train_loss, test_dataloader, batch_size));
  let evaluator := (test_dataloader, train_loss) in
  let total_train_steps := dl_len train_dataloader * num_epochs in
  emit (LogInfo RunningTraining);;
  emit (LogInfo (NumExamples (length train_examples)));;
  emit (LogInfo (NumEpochs num_epochs));;
  emit (LogInfo (TotalOptimizationSteps total_train_steps));;
  emit (LogInfo (TotalTrainBatchSize batch_size));;
  warmup_steps ←
    lift (rbind (int_mul_float total_train_steps (warmup_proportion self)) ceil);
  emit (BodyFit {|
    bf_train_dataloader := train_dataloader; bf_train_loss := train_loss;
    bf_epochs := num_epochs; bf_lr := learning_rate; bf_warmup_steps := warmup_steps;
    bf_show_progress_bar := show_progress_bar; bf_use_amp := use_amp self;
    bf_log_steps := log_steps; bf_evaluator := evaluator |});;
  mret batch_size.

(** [if trial:] *)
Definition trial_truthy (trial : option trial_t) : bool :=
  match trial with
  | None => false
  | Some (TrialDict p) => negb (bool_decide (p = []))
  | Some (TrialOptuna _) => true
  end.

(** [dataset[key]] where [dataset] may be [None]. *)
Definition subscript (d : option dataset) (key : string) : result item :=
  match d with
  | Some d => getitem d key
  | None => Raise (TypeError "'NoneType' object is not subscriptable")
  end.

(** trainer.py:335-515 *)
Definition train (kw : TrainArgs) : M unit :=
  self ← get_self;
  emit (SetSeed (seed self));;
  let rng := {| rng_seed := seed self; rng_draws := 0 |} in
  (if trial_truthy (kw_trial kw) then _hp_search_setup (kw_trial kw) else mret tt);;
  self ← get_self;
  match train_dataset self with
  | None => raise (ValueError TrainingRequiresDataset)
  | Some dataset =>
      _validate_column_mapping (Some dataset);;
      let eval_dataset := eval_dataset self in
      train_dataset ←
        match column_mapping self with
        | Some mapping =>
            emit (LogInfo ApplyingColumnMappingTrain);;
            _apply_column_mapping dataset mapping
        | None => mret dataset
        end;
      x_train ← lift (getitem train_dataset "text");
      y_train ← lift (getitem train_dataset "label");
      x_test ← lift (subscript eval_dataset "text");
      y_test ← lift (subscript eval_dataset "label");
      (if bool_decide (loss_class self = None) then
         emit (LogWarning NoLossClassDetected);;
         modify (set_loss_class (Some CosineSimilarityLoss))
       else mret tt);;
      let num_epochs := or_int (kw_num_epochs kw) (num_epochs self) in
      let batch_size := or_int (kw_batch_size kw) (batch_size self) in
      let learning_rate := or_float (kw_learning_rate kw) (learning_rate self) in
      m ← the_model "has_differentiable_head";
      batch_size ←
        (if negb (has_differentiable_head m) || _freeze self then
           train_body m rng x_train y_train x_test y_test num_epochs batch_size learning_rate
             (kw_show_progress_bar kw) (kw_log_steps kw)
         else mret batch_size);
      if negb (has_differentiable_head m) || negb (_freeze self) then
        emit (HeadFit {|
          hf_x_train := x_train; hf_y_train := y_train;
          hf_x_test := x_test; hf_y_test := y_test;
          hf_num_epochs := num_epochs; hf_batch_size := batch_size;
          hf_learning_rate := learning_rate;
          hf_body_learning_rate := kw_body_learning_rate kw;
          hf_l2_weight := kw_l2_weight kw; hf_max_length := kw_max_length kw |})
      else mret tt
  end.

(** [dataset or self.eval_dataset]: an empty dataset is falsy. *)
Definition or_dataset (d default : option dataset) : option dataset :=
  match d with
  | Some d' => if (len d' =? 0)%nat then default else d
  | None => default
  end.

(** trainer.py:517-555 *)
Definition evaluate (dataset : option dataset) : M metrics :=
  self ← get_self;
  let eval_dataset := or_dataset dataset (eval_dataset self) in
  _validate_column_mapping eval_dataset;;
  eval_dataset ←
    match column_mapping self, eval_dataset with
    | Some mapping, Some d =>
        emit (LogInfo ApplyingColumnMappingEval);;
        d' ← _apply_column_mapping d mapping; mret (Some d')
    | _, _ => mret eval_dataset
    end;
  x_test ← lift (subscript eval_dataset "text");
  y_test ← lift (subscript eval_dataset "label");
  emit (LogInfo RunningEvaluation);;
  m ← the_model "predict";
  emit (Predict x_test);;
  match metric self with
  | MetricName name =>
      let metric_config :=
        if bool_decide (is_Some (multi_target_strategy m)) then Some "multilabel" else None in
      mret (NamedMetric name metric_config (default [] (metric_kwargs self)) x_test y_test)
  | MetricCallable id => mret (CallableMetric id x_test y_test)
  | MetricOther => raise (ValueError MetricMustBeStrOrCallable)
  end.


(** ** Reading a trace *)

Definition body_calls (tr : list event) : list BodyFitCall :=
  omap (λ e, match e with BodyFit c => Some c | _ => None end) tr.

Definition head_calls (tr : list event) : list HeadFitCall :=
  omap (λ e, match e with HeadFit c => Some c | _ => None end) tr.

Definition pair_passes (tr : list event) : list bool :=
  omap (λ e, match e with PairGeneration b => Some b | _ => None end) tr.

Definition warnings (tr : list event) : list log_message :=
  omap (λ e, match e with LogWarning w => Some w | _ => None end) tr.

(** No pair generation and no fitting. *)
Definition quiet (tr : list event) : Prop :=
  body_calls tr = [] ∧ head_calls tr = [] ∧ pair_passes tr = [].

(** [train] is called outside a hyperparameter search, or without a trial:
    [_hp_search_setup] is not entered, or returns at once. *)
Definition search_inactive (self : SetFitTrainer) (kw : TrainArgs) : Prop :=
  hp_search_backend self = None ∨ trial_truthy (kw_trial kw) = false.

(** The weakest precondition of a method call. *)
Definition wp {A} (m : M A) (self : SetFitTrainer)
    (Q : result A → SetFitTrainer → list event → Prop) : Prop :=
  Q (value (m self)) (final (m self)) (trace (m self)).

(** The columns [train] reads at trainer.py:381-395, or the exception it
    raises on the way; the helpers are run in state [self], which they
    leave as it is. *)
Definition load (self : SetFitTrainer) : result (item * item * item * item) :=
  match train_dataset self with
  | None => Raise (ValueError TrainingRequiresDataset)
  | Some dataset =>
      rbind (value (_validate_column_mapping (Some dataset) self)) (λ _,
      rbind (match column_mapping self with
             | Some mapping => value (_apply_column_mapping dataset mapping self)
             | None => Ok dataset
             end) (λ train_dataset,
      rbind (getitem train_dataset "text") (λ x_train,
      rbind (getitem train_dataset "label") (λ y_train,
      rbind (subscript (eval_dataset self) "text") (λ x_test,
      rbind (subscript (eval_dataset self) "label") (λ y_test,
      Ok (x_train, y_train, x_test, y_test)))))))
  end.

(** What [train] may do to the trainer outside a hyperparameter search:
    nothing, or substitute the default loss class for a missing one. *)
Definition frame (self self' : SetFitTrainer) : Prop :=
  self' = self ∨ self' = set_loss_class (Some CosineSimilarityLoss) self.

(** The call [model_body.fit] receives from a body-training phase entered
    with the training columns [x_train] and [y_train] and the resolved
    [epochs], [bs] and [lr]; [bs'] is the batch size the phase leaves
    behind. *)
Definition body_call_ok (self : SetFitTrainer) (x_train y_train : item) (epochs bs : Z)
    (lr : float) (call : BodyFitCall) (bs' : Z) : Prop :=
  let dl := bf_train_dataloader call in
  bf_epochs call = epochs ∧ bf_lr call = lr ∧
  rbind (int_mul_float (dl_len dl * epochs) (warmup_proportion self)) ceil
    = Ok (bf_warmup_steps call) ∧
  0 < dl_batch_size dl ∧ bs' = dl_batch_size dl ∧
  if bool_decide (loss_class self ∈ Some <$> triplet_family) then
    (∃ sampler,
       new_SentenceLabelDataset (examples_of x_train y_train) (samples_per_label self)
         = Ok sampler ∧
       dl_dataset dl = LabelSampler sampler ∧
       dl_batch_size dl = Z.min bs (sld_len sampler)) ∧
    dl_drop_last dl = true ∧ dl_shuffle dl = false
  else dl_batch_size dl = bs ∧ dl_drop_last dl = false.

(** The values [train] resolves from its overrides. *)
Definition resolved_epochs (kw : TrainArgs) (self : SetFitTrainer) : Z :=
  or_int (kw_num_epochs kw) (num_epochs self).
Definition resolved_batch_size (kw : TrainArgs) (self : SetFitTrainer) : Z :=
  or_int (kw_batch_size kw) (batch_size self).
Definition resolved_learning_rate (kw : TrainArgs) (self : SetFitTrainer) : float :=
  or_float (kw_learning_rate kw) (learning_rate self).

(** The two guards of trainer.py:405 and trainer.py:492. *)
Definition body_guard (m : SetFitModel) (self : SetFitTrainer) : bool :=
  negb (has_differentiable_head m) || _freeze self.
Definition head_guard (m : SetFitModel) (self : SetFitTrainer) : bool :=
  negb (has_differentiable_head m) || negb (_freeze self).

(** The fitting a call to [train] did, read off its result [v], the state
    [self] it left and its trace [tr]. *)
Definition train_ok (kw : TrainArgs) (self : SetFitTrainer) (v : result unit)
    (tr : list event) : Prop :=
  match model self with
  | None => body_calls tr = [] ∧ head_calls tr = [] ∧ ∃ e, v = Raise e
  | Some m =>
      (body_guard m self = false → body_calls tr = []) ∧
      (head_guard m self = false → head_calls tr = []) ∧
      (∀ call, call ∈ body_calls tr →
         ∃ x_train y_train x_test y_test bs',
           load self = Ok (x_train, y_train, x_test, y_test) ∧
           body_call_ok self x_train y_train (resolved_epochs kw self)
             (resolved_batch_size kw self) (resolved_learning_rate kw self) call bs') ∧
      (∀ call, call ∈ head_calls tr →
         load self = Ok (hf_x_train call, hf_y_train call, hf_x_test call, hf_y_test call) ∧
         hf_num_epochs call = resolved_epochs kw self ∧
         hf_learning_rate call = resolved_learning_rate kw self ∧
         (hf_batch_size call = resolved_batch_size kw self ∨
          ∃ c, c ∈ body_calls tr ∧ hf_batch_size call = dl_batch_size (bf_train_dataloader c))) ∧
      (v = Ok tt →
         length (body_calls tr) = (if body_guard m self then 1 else 0)%nat ∧
         length (head_calls tr) = (if head_guard m self then 1 else 0)%nat)
  end.

(** ** Sequences of calls *)

(** A call to a method of the trainer. *)
Inductive method_call :=
| call_train (kw : TrainArgs)
| call_evaluate (dataset : option dataset)
| call_freeze
| call_unfreeze (keep_body_frozen : bool)
| call_apply_hyperparameters (p : params) (final_model : bool)
| call_call_model_init (p : option params).

(** The trainer after the call, whether it returned or raised. *)
Definition after (c : method_call) (self : SetFitTrainer) : SetFitTrainer :=
  match c with
  | call_train kw => final (train kw self)
  | call_evaluate dataset => final (evaluate dataset self)
  | call_freeze => final (freeze self)
  | call_unfreeze keep => final (unfreeze keep self)
  | call_apply_hyperparameters p final_model => final (apply_hyperparameters p final_model self)
  | call_call_model_init p => final (call_model_init p self)
  end.

(** The calls that write the freeze switch. *)
Definition writes_switch (c : method_call) : bool :=
  match c with
  | call_freeze | call_unfreeze _ | call_apply_hyperparameters _ _ => true
  | _ => false
  end.

(** Neither [unfreeze] nor [apply_hyperparameters]. *)
Definition keeps_frozen (c : method_call) : bool :=
  match c with
  | call_unfreeze _ | call_apply_hyperparameters _ _ => false
  | _ => true
  end.

(** A trainer outside a hyperparameter search, with the freeze switch on
    and a model whose head is differentiable. *)
Definition body_only (self : SetFitTrainer) : Prop :=
  _freeze self = true ∧ hp_search_backend self = None ∧
  ∃ m, model self = Some m ∧ has_differentiable_head m = true.

(** ** Sample data *)

(** A pair generator: one positive and one negative pair per sentence. *)
Definition sample_pairs (r : rng_state) (x y : list cell) (acc : list InputExample)
  : result (list InputExample) :=
  Ok (acc ++ ((λ c, {| texts := [c; c]; label := Val (VInt 1) |}) <$> x)
          ++ ((λ c, {| texts := [c; c]; label := Val (VInt 0) |}) <$> x)).

(** A runtime in which no foreign object can be rebuilt from a scalar. *)
Definition no_reflection (key : string) (v : hpval) (self : SetFitTrainer)
  : result SetFitTrainer :=
  Raise (TypeError "cannot construct the attribute from a hyperparameter").

Definition sample_table : table :=
  [("text", [VStr "good"; VStr "bad"; VStr "fine"; VStr "poor"]);
   ("label", [VInt 1; VInt 0; VInt 1; VInt 0])].

(** The same data under the column names [sentence] and [target]. *)
Definition raw_table : table :=
  [("sentence", [VStr "good"; VStr "bad"; VStr "fine"; VStr "poor"]);
   ("target", [VInt 1; VInt 0; VInt 1; VInt 0])].

Definition classical_model : SetFitModel :=
  {| model_body := 0; has_differentiable_head := false; multi_target_strategy := None;
     head_frozen := false; body_frozen := false |}.

Definition differentiable_model : SetFitModel :=
  {| model_body := 0; has_differentiable_head := true; multi_target_strategy := None;
     head_frozen := false; body_frozen := false |}.

(** [SetFitTrainer(model=m, train_dataset=train, eval_dataset=eval)] *)
Definition sample_args (m : SetFitModel) (train eval : option dataset) : InitArgs := {|
  arg_model := Some m; arg_train_dataset := train; arg_eval_dataset := eval;
  arg_model_init := None; arg_metric := MetricName "accuracy";
  arg_metric_kwargs := None; arg_loss_class := Some CosineSimilarityLoss;
  arg_num_iterations := 20; arg_num_epochs := 1; arg_learning_rate := lit_2e_5;
  arg_batch_size := 16; arg_seed := 42; arg_column_mapping := None;
  arg_use_amp := false; arg_warmup_proportion := lit_0_1;
  arg_distance_metric := cosine_distance; arg_margin := lit_0_25;
  arg_samples_per_label := 2 |}.

(** The trainer that call constructs. *)
Definition sample_trainer (m : SetFitModel) (train eval : option dataset) : SetFitTrainer := {|
  train_dataset := train; eval_dataset := eval; model_init := None;
  metric := MetricName "accuracy"; metric_kwargs := None;
  loss_class := Some CosineSimilarityLoss; num_iterations := 20; num_epochs := 1;
  learning_rate := lit_2e_5; batch_size := 16; seed := 42; column_mapping := None;
  use_amp := false; warmup_proportion := lit_0_1; distance_metric := cosine_distance;
  margin := lit_0_25; samples_per_label := 2; model := Some m;
  hp_search_backend := None; _freeze := true; hp_space := None |}.

(** A trainer over [raw_table] with the mapping
    [{"sentence": "text", "target": "label"}]. *)
Definition sample_mapping : gmap string string :=
  {[ "sentence" := "text"; "target" := "label" ]}.

Definition mapped_trainer : SetFitTrainer := {|
  train_dataset := Some (Dataset raw_table); eval_dataset := Some (Dataset raw_table);
  model_init := None; metric := MetricName "accuracy"; metric_kwargs := None;
  loss_class := Some CosineSimilarityLoss; num_iterations := 20; num_epochs := 1;
  learning_rate := lit_2e_5; batch_size := 16; seed := 42;
  column_mapping := Some sample_mapping;
  use_amp := false; warmup_proportion := lit_0_1; distance_metric := cosine_distance;
  margin := lit_0_25; samples_per_label := 2; model := Some classical_model;
  hp_search_backend := None; _freeze := true; hp_space := None |}.

(** [train(batch_size=3)] *)
Definition three_per_batch : TrainArgs := {|
  kw_num_epochs := None; kw_batch_size := Some 3; kw_learning_rate := None;
  kw_body_learning_rate := None; kw_l2_weight := None; kw_max_length := None;
  kw_trial := None; kw_show_progress_bar := true; kw_log_steps := Some 0 |}.

(** [train(num_epochs=0, batch_size=0, learning_rate=0.0)] *)
Definition zero_overrides : TrainArgs := {|
  kw_num_epochs := Some 0; kw_batch_size := Some 0; kw_learning_rate := Some f0;
  kw_body_learning_rate := None; kw_l2_weight := None; kw_max_length := None;
  kw_trial := None; kw_show_progress_bar := true; kw_log_steps := Some 0 |}.

(** [train(num_epochs=3, batch_size=8, learning_rate=0.25)] *)
Definition some_overrides : TrainArgs := {|
  kw_num_epochs := Some 3; kw_batch_size := Some 8; kw_learning_rate := Some lit_0_25;
  kw_body_learning_rate := None; kw_l2_weight := None; kw_max_length := None;
  kw_trial := None; kw_show_progress_bar := true; kw_log_steps := Some 0 |}.

(** A factory of one argument, and a trainer in the middle of a
    hyperparameter search: [train(trial={"num_epochs": 3})]. *)
Definition sample_factory (m : SetFitModel) : ModelInit := {|
  number_of_arguments := 1;
  call0 := Raise (TypeError "missing 1 required positional argument");
  call1 := λ _, Ok (Some m) |}.

Definition searching_trainer : SetFitTrainer := {|
  train_dataset := Some (Dataset sample_table); eval_dataset := Some (Dataset sample_table);
  model_init := Some (sample_factory classical_model);
  metric := MetricName "accuracy"; metric_kwargs := None;
  loss_class := Some CosineSimilarityLoss; num_iterations := 20; num_epochs := 1;
  learning_rate := lit_2e_5; batch_size := 16; seed := 42; column_mapping := None;
  use_amp := false; warmup_proportion := lit_0_1; distance_metric := cosine_distance;
  margin := lit_0_25; samples_per_label := 2; model := Some classical_model;
  hp_search_backend := Some OPTUNA; _freeze := true; hp_space := None |}.

Definition trial_kwargs : TrainArgs := {|
  kw_num_epochs := None; kw_batch_size := None; kw_learning_rate := None;
  kw_body_learning_rate := None; kw_l2_weight := None; kw_max_length := None;
  kw_trial := Some (TrialDict [("num_epochs", HInt 3)]);
  kw_show_progress_bar := true; kw_log_steps := Some 0 |}.

(** A factory of no argument: calling it with the parameters raises. *)
Definition nullary_factory (m : SetFitModel) : ModelInit := {|
  number_of_arguments := 0;
  call0 := Ok (Some m);
  call1 := λ _, Raise (TypeError "takes 0 positional arguments but 1 was given") |}.

(** [SetFitTrainer(model_init=f, train_dataset=d, eval_dataset=d)] with a
    factory of a model with a differentiable head, and the trainer it
    constructs. *)
Definition factory_args : InitArgs := {|
  arg_model := None; arg_train_dataset := Some (Dataset sample_table);
  arg_eval_dataset := Some (Dataset sample_table);
  arg_model_init := Some (sample_factory differentiable_model);
  arg_metric := MetricName "accuracy";
  arg_metric_kwargs := None; arg_loss_class := Some CosineSimilarityLoss;
  arg_num_iterations := 20; arg_num_epochs := 1; arg_learning_rate := lit_2e_5;
  arg_batch_size := 16; arg_seed := 42; arg_column_mapping := None;
  arg_use_amp := false; arg_warmup_proportion := lit_0_1;
  arg_distance_metric := cosine_distance; arg_margin := lit_0_25;
  arg_samples_per_label := 2 |}.

Definition factory_trainer : SetFitTrainer :=
  set_model_init (Some (sample_factory differentiable_model))
    (sample_trainer differentiable_model (Some (Dataset sample_table))
       (Some (Dataset sample_table))).

(** A trainer in the course of a hyperparameter search whose training
    dataset is a [DatasetDict] with the single split [train]. *)
Definition split_search_trainer : SetFitTrainer :=
  set_train_dataset (Some (DatasetDict [("train", sample_table)])) searching_trainer.

(** [train(trial={"seed": "abc"})] *)
Definition seed_trial : TrainArgs := {|
  kw_num_epochs := None; kw_batch_size := None; kw_learning_rate := None;
  kw_body_learning_rate := None; kw_l2_weight := None; kw_max_length := None;
  kw_trial := Some (TrialDict [("seed", HStr "abc")]);
  kw_show_progress_bar := true; kw_log_steps := Some 0 |}.

(** [train(trial={"eval_dataset": dataset})] *)
Definition eval_trial : TrainArgs := {|
  kw_num_epochs := None; kw_batch_size := None; kw_learning_rate := None;
  kw_body_learning_rate := None; kw_l2_weight := None; kw_max_length := None;
  kw_trial := Some (TrialDict [("eval_dataset", HDataset (Dataset sample_table))]);
  kw_show_progress_bar := true; kw_log_steps := Some 0 |}.

(** Random choices that never move anything: the labels stay in their
    order and a draw takes the first examples of the selection. *)
Definition first_choices : random_source := {|
  shuffled := λ _ n, seq 0 n;
  choice := λ _ selection n, take n selection |}.



(** ** The anatomy of a call to [train] *)

(** trainer.py:378-379 *)
Definition trial_setup (kw : TrainArgs) : M unit :=
  if trial_truthy (kw_trial kw) then _hp_search_setup (kw_trial kw) else mret tt.

(** trainer.py:397-399: the trainer once a missing loss class has been
    replaced by the default. *)
Definition with_default_loss (self : SetFitTrainer) : SetFitTrainer :=
  if bool_decide (loss_class self = None) then set_loss_class (Some CosineSimilarityLoss) self
  else self.

(** What [train] logs while it loads the columns (trainer.py:388), and
    when it substitutes the default loss class (trainer.py:398). *)
Definition load_log (self : SetFitTrainer) : list event :=
  match train_dataset self with
  | Some dataset =>
      match value (_validate_column_mapping (Some dataset) self), column_mapping self with
      | Ok _, Some _ => [LogInfo ApplyingColumnMappingTrain]
      | _, _ => []
      end
  | None => []
  end.

Definition loss_log (self : SetFitTrainer) : list event :=
  if bool_decide (loss_class self = None) then [LogWarning NoLossClassDetected] else [].

(** trainer.py:401-515: the resolution of the overrides and the two
    phases, with the attributes [train] read from [self] at
    trainer.py:401-405. *)
Definition phases (kw : TrainArgs) (m : SetFitModel) (rng : rng_state)
    (x_train y_train x_test y_test : item) (self : SetFitTrainer) : M unit :=
  let num_epochs := or_int (kw_num_epochs kw) (num_epochs self) in
  let batch_size := or_int (kw_batch_size kw) (batch_size self) in
  let learning_rate := or_float (kw_learning_rate kw) (learning_rate self) in
  batch_size ←
    (if negb (has_differentiable_head m) || _freeze self then
       train_body m rng x_train y_train x_test y_test num_epochs batch_size learning_rate
         (kw_show_progress_bar kw) (kw_log_steps kw)
     else mret batch_size);
  if negb (has_differentiable_head m) || negb (_freeze self) then
    emit (HeadFit {|
      hf_x_train := x_train; hf_y_train := y_train;
      hf_x_test := x_test; hf_y_test := y_test;
      hf_num_epochs := num_epochs; hf_batch_size := batch_size;
      hf_learning_rate := learning_rate;
      hf_body_learning_rate := kw_body_learning_rate kw;
      hf_l2_weight := kw_l2_weight kw; hf_max_length := kw_max_length kw |})
  else mret tt.

(** A call to [train] with the arguments [kw] on [self], taken apart: the seeding, the trial
    set-up, the loading of the four columns, the default loss class, the
    two phases.  [v], [self'] and [tr] are the result, the trainer and the
    trace the call leaves. *)
Definition anatomy (kw : TrainArgs) (self : SetFitTrainer) (v : result unit)
    (self' : SetFitTrainer) (tr : list event) : Prop :=
  let o := trial_setup kw self in
  let s := final o in
  match value o with
  | Raise e => v = Raise e ∧ self' = s ∧ tr = SetSeed (seed self) :: trace o
  | Ok _ =>
      match load s with
      | Raise e =>
          v = Raise e ∧ self' = s ∧ tr = SetSeed (seed self) :: trace o ++ load_log s
      | Ok (x_train, y_train, x_test, y_test) =>
          match model s with
          | None =>
              v = Raise (AttributeError "has_differentiable_head") ∧
              self' = with_default_loss s ∧
              tr = SetSeed (seed self) :: trace o ++ load_log s ++ loss_log s
          | Some m =>
              let p := phases kw m {| rng_seed := seed self; rng_draws := 0 |}
                         x_train y_train x_test y_test s (with_default_loss s) in
              v = value p ∧ self' = final p ∧
              tr = SetSeed (seed self) :: trace o ++ load_log s ++ loss_log s ++ trace p
          end
      end
  end.

(** ** More readers of a trace *)

Definition seedings (tr : list event) : list Z :=
  omap (λ e, match e with SetSeed z => Some z | _ => None end) tr.

Definition infos (tr : list event) : list log_message :=
  omap (λ e, match e with LogInfo i => Some i | _ => None end) tr.

Definition predictions (tr : list event) : list item :=
  omap (λ e, match e with Predict x => Some x | _ => None end) tr.

Definition is_log (e : event) : bool :=
  match e with LogInfo _ | LogWarning _ => true | _ => false end.

(** What the body-training phase does before it fits: it generates pairs
    and logs at level [info]. *)
Definition is_preparation (e : event) : bool :=
  match e with LogInfo _ | PairGeneration _ => true | _ => false end.

(** The call [model_body.fit] receives from a body-training phase run on
    the trainer [self] with the model [m] and the evaluation columns
    [x_test] and [y_test] (trainer.py:427-443 and trainer.py:464-490),
    apart from what [body_call_ok] says of it. *)
Definition body_call_shape (self : SetFitTrainer) (m : SetFitModel) (x_test y_test : item)
    (show_progress_bar : bool) (log_steps : option Z) (call : BodyFitCall) : Prop :=
  let train_dataloader := bf_train_dataloader call in
  let test_dataloader := (bf_evaluator call).1 in
  (bf_evaluator call).2 = bf_train_loss call ∧
  dl_batch_size test_dataloader = dl_batch_size train_dataloader ∧
  dl_shuffle test_dataloader = dl_shuffle train_dataloader ∧
  dl_drop_last test_dataloader = dl_drop_last train_dataloader ∧
  bf_use_amp call = use_amp self ∧
  bf_show_progress_bar call = show_progress_bar ∧
  bf_log_steps call = log_steps ∧
  ∃ cls, loss_class self = Some cls ∧
    if bool_decide (loss_class self ∈ Some <$> triplet_family) then
      bf_train_loss call = triplet_loss self cls (model_body m) ∧
      dl_shuffle train_dataloader = false ∧
      ∃ sampler,
        new_SentenceLabelDataset (examples_of x_test y_test) (samples_per_label self)
          = Ok sampler ∧
        dl_dataset test_dataloader = LabelSampler sampler
    else
      bf_train_loss call = {| lm_class := cls; lm_model := model_body m;
                              lm_distance_metric := None; lm_margin := None |} ∧
      dl_shuffle train_dataloader = true.

(** The call [model.fit] receives at trainer.py:501-515, given the local
    [batch_size] the body-training phase left. *)
Definition head_fit_call (kw : TrainArgs) (x_train y_train x_test y_test : item)
    (self : SetFitTrainer) (batch_size : Z) : HeadFitCall := {|
  hf_x_train := x_train; hf_y_train := y_train;
  hf_x_test := x_test; hf_y_test := y_test;
  hf_num_epochs := or_int (kw_num_epochs kw) (num_epochs self);
  hf_batch_size := batch_size;
  hf_learning_rate := or_float (kw_learning_rate kw) (learning_rate self);
  hf_body_learning_rate := kw_body_learning_rate kw;
  hf_l2_weight := kw_l2_weight kw; hf_max_length := kw_max_length kw |}.

(** The events of the head-training phase. *)
Definition head_phase (kw : TrainArgs) (m : SetFitModel) (x_train y_train x_test y_test : item)
    (self : SetFitTrainer) (batch_size : Z) : list event :=
  if negb (has_differentiable_head m) || negb (_freeze self) then
    [HeadFit (head_fit_call kw x_train y_train x_test y_test self batch_size)]
  else [].

(** ** More sample data *)

(** A trainer over [sample_table] with the loss class [cls]. *)
Definition loss_trainer (cls : option loss_class_t) : SetFitTrainer :=
  set_loss_class cls
    (sample_trainer classical_model (Some (Dataset sample_table))
       (Some (Dataset sample_table))).

(** The four columns [train] loads from [sample_table]. *)
Definition sample_columns : item * item * item * item :=
  (Column [VStr "good"; VStr "bad"; VStr "fine"; VStr "poor"],
   Column [VInt 1; VInt 0; VInt 1; VInt 0],
   Column [VStr "good"; VStr "bad"; VStr "fine"; VStr "poor"],
   Column [VInt 1; VInt 0; VInt 1; VInt 0]).

(** The name [_apply_column_mapping] gives the column [col]: the one the
    mapping assigns, or [feat_<col>] (trainer.py:192-195). *)
Definition mapped_name (column_mapping : gmap string string) (col : string) : string :=
  match column_mapping !! col with
  | Some new => new
  | None => "feat_" +:+ col
  end.

(** The object [__init__] has assigned its attributes to when it looks
    for the model (trainer.py:109-125); [model], [hp_search_backend] and
    [_freeze] are assigned afterwards. *)
Definition under_construction (a : InitArgs) : SetFitTrainer := {|
  train_dataset := arg_train_dataset a; eval_dataset := arg_eval_dataset a;
  model_init := arg_model_init a; metric := arg_metric a;
  metric_kwargs := arg_metric_kwargs a; loss_class := arg_loss_class a;
  num_iterations := arg_num_iterations a; num_epochs := arg_num_epochs a;
  learning_rate := arg_learning_rate a; batch_size := arg_batch_size a;
  seed := arg_seed a; column_mapping := arg_column_mapping a;
  use_amp := arg_use_amp a; warmup_proportion := arg_warmup_proportion a;
  distance_metric := arg_distance_metric a; margin := arg_margin a;
  samples_per_label := arg_samples_per_label a;
  model := None; hp_search_backend := None; _freeze := true; hp_space := None |}.

(** What a factory returns when [call_model_init] calls it by its arity. *)
Definition factory_result (f : ModelInit) (params : option params)
  : option (result (option SetFitModel)) :=
  match number_of_arguments f with
  | 0%nat => Some (call0 f)
  | 1%nat => Some (call1 f params)
  | _ => None
  end.

(** The attributes that hold objects are the same in [s] and [s']. *)
Definition same_objects (s s' : SetFitTrainer) : Prop :=
  train_dataset s' = train_dataset s ∧ eval_dataset s' = eval_dataset s ∧
  model_init s' = model_init s ∧ metric s' = metric s ∧
  metric_kwargs s' = metric_kwargs s ∧ loss_class s' = loss_class s ∧
  column_mapping s' = column_mapping s ∧ distance_metric s' = distance_metric s ∧
  model s' = model s ∧ hp_search_backend s' = hp_search_backend s ∧
  hp_space s' = hp_space s.

(** The parameters name numeric or boolean attributes of the trainer, or
    no attribute at all. *)
Definition plain_params (self : SetFitTrainer) (p : params) : Prop :=
  Forall (λ kv, kv.1 ∈ scalar_fields ∨ hasattr self kv.1 = false) p.

(** The loop of trainer.py:213-224. *)
Definition apply_each (p : params) : M unit :=
  for_each p (λ '(key, v), apply_hyperparameter key v).

(** ** The anatomy of a call to [evaluate] *)

(** The two columns [evaluate] reads from the dataset it has chosen
    (trainer.py:530-537), or the exception it raises on the way. *)
Definition eval_columns (self : SetFitTrainer) (eval_dataset : option dataset)
  : result (item * item) :=
  rbind (value (_validate_column_mapping eval_dataset self)) (λ _,
  rbind (match column_mapping self, eval_dataset with
         | Some mapping, Some d =>
             rbind (value (_apply_column_mapping d mapping self)) (λ d', Ok (Some d'))
         | _, _ => Ok eval_dataset
         end) (λ eval_dataset,
  rbind (subscript eval_dataset "text") (λ x_test,
  rbind (subscript eval_dataset "label") (λ y_test, Ok (x_test, y_test))))).

(** What [evaluate] logs before it reads the columns (trainer.py:533). *)
Definition eval_log (self : SetFitTrainer) (eval_dataset : option dataset) : list event :=
  match value (_validate_column_mapping eval_dataset self), column_mapping self, eval_dataset with
  | Ok _, Some _, Some _ => [LogInfo ApplyingColumnMappingEval]
  | _, _, _ => []
  end.

(** The metric computation [evaluate] hands over to (trainer.py:544-555). *)
Definition eval_metric (self : SetFitTrainer) (m : SetFitModel) (x_test y_test : item)
  : result metrics :=
  match metric self with
  | MetricName name =>
      Ok (NamedMetric name
            (if bool_decide (is_Some (multi_target_strategy m)) then Some "multilabel" else None)
            (default [] (metric_kwargs self)) x_test y_test)
  | MetricCallable id => Ok (CallableMetric id x_test y_test)
  | MetricOther => Raise (ValueError MetricMustBeStrOrCallable)
  end.

(** A call [evaluate(dataset)] on [self], taken apart. *)
Definition eval_anatomy (dataset : option dataset) (self : SetFitTrainer)
    (v : result metrics) (self' : SetFitTrainer) (tr : list event) : Prop :=
  let eval_dataset := or_dataset dataset (eval_dataset self) in
  self' = self ∧
  match eval_columns self eval_dataset with
  | Raise e => v = Raise e ∧ tr = eval_log self eval_dataset
  | Ok (x_test, y_test) =>
      match model self with
      | None =>
          v = Raise (AttributeError "predict") ∧
          tr = eval_log self eval_dataset ++ [LogInfo RunningEvaluation]
      | Some m =>
          v = eval_metric self m x_test y_test ∧
          tr = eval_log self eval_dataset ++ [LogInfo RunningEvaluation; Predict x_test]
      end
  end.

(** The pairs the loop at trainer.py:448-462 hands to the data loaders in
    a call to [train] on [self] with the model [m], or the exception a
    pass ends in. *)
Definition generated_pairs (self : SetFitTrainer) (m : SetFitModel)
    (x_train y_train x_test y_test : item)
  : result (list InputExample * list InputExample) :=
  value (generate_pairs (Z.to_nat (num_iterations self))
           (bool_decide (is_Some (multi_target_strategy m)))
           {| rng_seed := seed self; rng_draws := 0 |}
           x_train y_train x_test y_test [] [] self).

(** ** Properties *)

Lemma wp_bind {A B} (m : M A) (k : A → M B) self Q :
  wp m self (λ v self' tr,
    match v with
    | Ok a => wp (k a) self' (λ v' self'' tr', Q v' self'' (tr ++ tr'))
    | Raise e => Q (Raise e) self' tr
    end) →
  wp (m ≫= k) self Q.
Proof.
  unfold wp, mbind, M_bind. destruct (m self) as [[a|e] self' tr]; simpl; [|done].
  by destruct (k a self').
Qed.

Lemma wp_ret {A} (a : A) self (Q : result A → SetFitTrainer → list event → Prop) :
  Q (Ok a) self [] → wp (mret a) self Q.
Proof. done. Qed.

Lemma wp_get self (Q : result SetFitTrainer → SetFitTrainer → list event → Prop) :
  Q (Ok self) self [] → wp get_self self Q.
Proof. done. Qed.

Lemma wp_modify f self (Q : result unit → SetFitTrainer → list event → Prop) :
  Q (Ok tt) (f self) [] → wp (modify f) self Q.
Proof. done. Qed.

Lemma wp_emit e self (Q : result unit → SetFitTrainer → list event → Prop) :
  Q (Ok tt) self [e] → wp (emit e) self Q.
Proof. done. Qed.

Lemma wp_raise {A} e self (Q : result A → SetFitTrainer → list event → Prop) :
  Q (Raise e) self [] → wp (raise e) self Q.
Proof. done. Qed.

Lemma wp_lift {A} (r : result A) self (Q : result A → SetFitTrainer → list event → Prop) :
  Q r self [] → wp (lift r) self Q.
Proof. by destruct r. Qed.

Lemma wp_mono {A} (m : M A) self (Q Q' : result A → SetFitTrainer → list event → Prop) :
  wp m self Q → (∀ v s tr, Q v s tr → Q' v s tr) → wp m self Q'.
Proof. unfold wp. auto. Qed.

Lemma body_calls_app tr tr' : body_calls (tr ++ tr') = body_calls tr ++ body_calls tr'.
Proof. apply omap_app. Qed.

Lemma head_calls_app tr tr' : head_calls (tr ++ tr') = head_calls tr ++ head_calls tr'.
Proof. apply omap_app. Qed.

Lemma pair_passes_app tr tr' : pair_passes (tr ++ tr') = pair_passes tr ++ pair_passes tr'.
Proof. apply omap_app. Qed.

Lemma quiet_app tr tr' : quiet tr → quiet tr' → quiet (tr ++ tr').
Proof.
  unfold quiet. intros (H1 & H2 & H3) (H1' & H2' & H3').
  by rewrite body_calls_app, head_calls_app, pair_passes_app, H1, H2, H3, H1', H2', H3'.
Qed.

(** *** Stepping through a method *)

Ltac wp_step :=
  lazymatch goal with
  | |- wp (mbind _ _) _ _ => apply wp_bind
  | |- wp get_self _ _ => apply wp_get
  | |- wp (mret _) _ _ => apply wp_ret
  | |- wp (raise _) _ _ => apply wp_raise
  | |- wp (emit _) _ _ => apply wp_emit
  | |- wp (modify _) _ _ => apply wp_modify
  | |- wp (lift _) _ _ => apply wp_lift
  | |- wp (if ?c then _ else _) _ _ => destruct c eqn:?
  | |- wp (match ?x with _ => _ end) _ _ => destruct x eqn:?
  | |- match ?x with _ => _ end => destruct x eqn:?
  end; cbv beta iota zeta.

(** Use the specification [H] of the call at the head of the goal. *)
Tactic Notation "wp_use" open_constr(H) :=
  eapply wp_mono; [eapply H | cbv beta; intros ? ? ?].

Ltac observe :=
  rewrite ?body_calls_app, ?head_calls_app, ?pair_passes_app; simpl;
  rewrite ?app_nil_r.

(** *** The helpers of [train] *)

Lemma validate_silent d self :
  wp (_validate_column_mapping d) self (λ _ self' tr, self' = self ∧ tr = []).
Proof. unfold _validate_column_mapping. repeat wp_step; done. Qed.

Lemma apply_mapping_silent d mapping self :
  wp (_apply_column_mapping d mapping) self (λ _ self' tr, self' = self ∧ tr = []).
Proof. unfold _apply_column_mapping. repeat wp_step; done. Qed.

Lemma generate_pairs_run passes ml rng x_train y_train x_test y_test acc acc' self :
  wp (generate_pairs passes ml rng x_train y_train x_test y_test acc acc') self
    (λ v self' tr, self' = self ∧ body_calls tr = [] ∧ head_calls tr = []).
Proof.
  revert rng acc acc'. induction passes as [|n IH]; intros; simpl.
  - by wp_step.
  - do 2 wp_step. do 2 (do 2 wp_step; wp_step; [|done]).
    wp_use IH. intros (-> & ? & ?). by observe.
Qed.

Lemma train_body_spec m rng x_train y_train x_test y_test epochs bs lr spb ls self :
  wp (train_body m rng x_train y_train x_test y_test epochs bs lr spb ls) self
    (λ v self' tr,
       self' = self ∧ head_calls tr = [] ∧
       match v with
       | Ok bs' =>
           ∃ call, body_calls tr = [call] ∧
                   body_call_ok self x_train y_train epochs bs lr call bs'
       | Raise _ => body_calls tr = []
       end).
Proof.
  unfold train_body, body_call_ok. do 4 wp_step.
  - repeat wp_step; try done.
    all: unfold new_DataLoader in *; repeat case_match; simplify_eq.
    all: observe; split_and!; try done; eexists; (split; [done|]).
    all: simpl; split_and!; try done; [by apply Z.leb_gt|].
    all: eexists; split_and!; done.
  - wp_step. wp_use generate_pairs_run. intros (-> & Hb & Hh).
    repeat wp_step; observe; rewrite ?Hb, ?Hh; try done.
    all: unfold new_DataLoader in *; repeat case_match; simplify_eq.
    all: split_and!; try done; eexists; (split; [done|]).
    all: simpl.
    all: split_and!; try done.
    all: by apply Z.leb_gt.
Qed.

Lemma setattr_scalar_silent key v set self :
  setattr_scalar key v = Some set →
  wp set self (λ _ _ tr, tr = []).
Proof.
  unfold setattr_scalar. intros Hset.
  repeat case_match; simplify_eq; repeat wp_step; done.
Qed.

Lemma apply_hyperparameter_quiet key v self :
  wp (apply_hyperparameter key v) self (λ _ _ tr, quiet tr).
Proof.
  unfold apply_hyperparameter. do 3 wp_step.
  - destruct (setattr_scalar key v) as [set|] eqn:Hset.
    + wp_use (setattr_scalar_silent key v set self Hset). by intros ->.
    + repeat wp_step; done.
  - repeat wp_step; done.
Qed.

Lemma for_each_quiet {A} (l : list A) (body : A → M unit) self :
  (∀ a s, wp (body a) s (λ _ _ tr, quiet tr)) →
  wp (for_each l body) self (λ _ _ tr, quiet tr).
Proof.
  intros Hbody. revert self. induction l as [|a l IH]; intros self; simpl.
  - by wp_step.
  - wp_step. wp_use (Hbody a self). intros Hq. wp_step; [|done].
    wp_use IH. intros Hq'. by apply quiet_app.
Qed.

Lemma apply_hyperparameters_quiet params final_model self :
  wp (apply_hyperparameters params final_model) self (λ _ _ tr, quiet tr).
Proof.
  unfold apply_hyperparameters. wp_step.
  wp_use for_each_quiet; [intros [key v] s; apply apply_hyperparameter_quiet|].
  intros Hq. repeat wp_step; observe; done.
Qed.

Lemma hp_search_setup_quiet trial self :
  wp (_hp_search_setup trial) self (λ _ _ tr, quiet tr).
Proof.
  unfold _hp_search_setup. do 2 wp_step.
  destruct (hp_search_backend self) as [backend|], trial as [trial|]; try by wp_step.
  repeat wp_step; try done.
  all: wp_use apply_hyperparameters_quiet; intros Hq; simpl; by apply (quiet_app [_]).
Qed.

(** Outside a hyperparameter search the trial set-up of [train] does nothing. *)
Lemma trial_setup_spec kw self :
  wp (if trial_truthy (kw_trial kw) then _hp_search_setup (kw_trial kw) else mret tt) self
    (λ v self' tr, quiet tr ∧ (search_inactive self kw → v = Ok tt ∧ self' = self ∧ tr = [])).
Proof.
  wp_step; [|by wp_step].
  destruct (hp_search_backend self) as [backend|] eqn:Hbackend.
  - wp_use hp_search_setup_quiet. intros Hq. split; [done|]. intros [?|?]; congruence.
  - unfold _hp_search_setup. do 2 wp_step. rewrite Hbackend. by wp_step.
Qed.

Lemma frame_fields self self' :
  frame self self' →
  num_epochs self' = num_epochs self ∧ batch_size self' = batch_size self ∧
  learning_rate self' = learning_rate self ∧ _freeze self' = _freeze self ∧
  model self' = model self ∧ hp_search_backend self' = hp_search_backend self ∧
  eval_dataset self' = eval_dataset self ∧ train_dataset self' = train_dataset self ∧
  column_mapping self' = column_mapping self ∧ model_init self' = model_init self.
Proof. by intros [-> | ->]. Qed.

Lemma wp_silent {A} (m : M A) self (Q : result A → SetFitTrainer → list event → Prop) :
  wp m self (λ _ self' tr, self' = self ∧ tr = []) →
  Q (value (m self)) self [] →
  wp m self Q.
Proof. unfold wp. by intros [-> ->]. Qed.

Lemma validate_value_frame d self self' :
  column_mapping self' = column_mapping self →
  value (_validate_column_mapping d self') = value (_validate_column_mapping d self).
Proof.
  intros Hcm. unfold _validate_column_mapping, mbind, M_bind, get_self, raise, mret, M_ret.
  rewrite Hcm. destruct d; [|done]. simpl. repeat case_match; simplify_eq/=; done.
Qed.

Lemma apply_mapping_value d mapping self :
  value (_apply_column_mapping d mapping self)
  = rbind (rename_columns (full_mapping d mapping) d) reformat.
Proof.
  unfold _apply_column_mapping, mbind, M_bind, lift, raise, mret, M_ret.
  destruct (rename_columns _ d) as [d'|e]; simpl; [|done]. by destruct (reformat d').
Qed.

Lemma load_frame self self' : frame self self' → load self' = load self.
Proof.
  intros Hf. pose proof (frame_fields _ _ Hf) as (_ & _ & _ & _ & _ & _ & He & Ht & Hc & _).
  unfold load. rewrite He, Ht, Hc. destruct (train_dataset self); [|done].
  rewrite (validate_value_frame _ self self' Hc).
  destruct (column_mapping self); [|done]. by rewrite !apply_mapping_value.
Qed.

Lemma train_ok_raise kw self e tr :
  body_calls tr = [] → head_calls tr = [] → train_ok kw self (Raise e) tr.
Proof.
  unfold train_ok. intros -> ->. destruct (model self); [|by eauto].
  split_and!; try done; intros ? []%elem_of_nil.
Qed.

(** The two phases of [train], trainer.py:405-515, entered in state [self']
    with the attributes read from [self] before the default loss class was
    substituted. *)
Lemma phases_spec kw m rng x_train y_train x_test y_test self self' :
  frame self self' → model self' = Some m →
  load self' = Ok (x_train, y_train, x_test, y_test) →
  wp (batch_size ←
        (if negb (has_differentiable_head m) || _freeze self then
           train_body m rng x_train y_train x_test y_test
             (or_int (kw_num_epochs kw) (num_epochs self))
             (or_int (kw_batch_size kw) (batch_size self))
             (or_float (kw_learning_rate kw) (learning_rate self))
             (kw_show_progress_bar kw) (kw_log_steps kw)
         else mret (or_int (kw_batch_size kw) (batch_size self)));
      if negb (has_differentiable_head m) || negb (_freeze self) then
        emit (HeadFit {|
          hf_x_train := x_train; hf_y_train := y_train;
          hf_x_test := x_test; hf_y_test := y_test;
          hf_num_epochs := or_int (kw_num_epochs kw) (num_epochs self);
          hf_batch_size := batch_size;
          hf_learning_rate := or_float (kw_learning_rate kw) (learning_rate self);
          hf_body_learning_rate := kw_body_learning_rate kw;
          hf_l2_weight := kw_l2_weight kw; hf_max_length := kw_max_length kw |})
      else mret tt) self'
    (λ v self'' tr, self'' = self' ∧ train_ok kw self' v tr).
Proof.
  intros (He & Hbs & Hlr & Hfr & _)%frame_fields Hm Hload.
  unfold train_ok, resolved_epochs, resolved_batch_size, resolved_learning_rate,
    body_guard, head_guard.
  rewrite Hm, He, Hbs, Hlr, Hfr.
  wp_step. wp_step.
  - wp_use train_body_spec. intros (-> & Hh & Hres). wp_step.
    + destruct Hres as (call & Hcall & Hok). wp_step; wp_step; observe; rewrite Hh, Hcall.
      all: split; [done|]; split_and!; try done.
      all: try (intros ? ->%list_elem_of_singleton; by eauto 10).
      all: try (by intros ? []%elem_of_nil).
      intros ? ->%list_elem_of_singleton. simpl. split_and!; try done.
      right. exists call. split; [by left|]. by destruct Hok as (_ & _ & _ & _ & -> & _).
    + observe. rewrite Hh, Hres. split; [done|]. split_and!; try done.
      all: by intros ? []%elem_of_nil.
  - wp_step. wp_step; wp_step; observe.
    all: split; [done|]; split_and!; try done.
    all: try (by intros ? []%elem_of_nil).
    intros ? ->%list_elem_of_singleton. simpl. split_and!; try done. by left.
Qed.

Lemma train_spec kw self :
  wp (train kw) self
    (λ v self' tr, (search_inactive self kw → frame self self') ∧ train_ok kw self' v tr).
Proof.
  unfold train. do 5 wp_step. wp_use trial_setup_spec. intros [(Hb & Hh & _) Hin].
  assert (search_inactive self kw → s = self) as Hs by (by intros (_ & -> & _)%Hin).
  wp_step; [|split; [by intros (? & _)%Hin|apply train_ok_raise; observe; by rewrite ?Hb, ?Hh]].
  assert (∀ s', frame s s' → search_inactive self kw → frame self s') as Hframe
    by (by intros s' ? ->%Hs).
  do 3 wp_step.
  2:{ split; [apply Hframe; by left|]. apply train_ok_raise; observe; by rewrite ?Hb, ?Hh. }
  wp_step. apply wp_silent; [apply validate_silent|].
  wp_step.
  2:{ split; [apply Hframe; by left|]. apply train_ok_raise; observe; by rewrite ?Hb, ?Hh. }
  wp_step.
  eapply (wp_mono _ _ (λ v s' tr',
    v = match column_mapping s with
        | Some mapping => value (_apply_column_mapping d mapping s)
        | None => Ok d
        end ∧ s' = s ∧ body_calls tr' = [] ∧ head_calls tr' = [])).
  { wp_step; [|by wp_step]. do 2 wp_step.
    apply wp_silent; [apply apply_mapping_silent|]. by destruct (value _). }
  intros v1 ? tr1 (Hv1 & -> & Hb1 & Hh1).
  repeat wp_step.
  all: try (split; [apply Hframe; by left|];
            apply train_ok_raise; observe; by rewrite ?Hb, ?Hh, ?Hb1, ?Hh1).
  all: assert (load s = Ok (a2, a3, a4, a5)) as Hload
    by (unfold load; rewrite Heqo, Heqr0, <-Hv1; simpl;
        by rewrite Heqr2, Heqr3, Heqr4, Heqr5).
  all: unfold the_model; do 3 wp_step.
  all: try (split; [apply Hframe; (by left) || (by right)|];
            apply train_ok_raise; observe; by rewrite ?Hb, ?Hh, ?Hb1, ?Hh1).
  all: wp_step.
  - wp_use (phases_spec kw _ _ _ _ _ _ s); [by right|done|by rewrite (load_frame s); [|right]|].
    intros [-> Hok]. split; [apply Hframe; by right|].
    unfold train_ok in *. observe. by rewrite ?Hb, ?Hh, ?Hb1, ?Hh1.
  - wp_use (phases_spec kw _ _ _ _ _ _ s); [by left|done|done|].
    intros [-> Hok]. split; [apply Hframe; by left|].
    unfold train_ok in *. observe. by rewrite ?Hb, ?Hh, ?Hb1, ?Hh1.
Qed.

(** Outside a hyperparameter search, a call to [train] whose columns
    cannot be loaded raises what loading raised, before any work. *)
Lemma train_load_fails kw self e :
  search_inactive self kw → load self = Raise e →
  value (train kw self) = Raise e ∧ final (train kw self) = self ∧
  quiet (trace (train kw self)).
Proof.
  intros Hin Hload.
  cut (wp (train kw) self (λ v s' tr, v = Raise e ∧ s' = self ∧ quiet tr)); [done|].
  unfold train. do 5 wp_step. wp_use trial_setup_spec.
  intros [_ (-> & -> & ->)]; [done|]. cbv beta iota. unfold load in Hload.
  do 3 wp_step; [|by wp_step; simplify_eq].
  wp_step. apply wp_silent; [apply validate_silent|].
  wp_step; [|by simplify_eq/=].
  simpl in Hload. wp_step.
  eapply (wp_mono _ _ (λ v s' tr',
    v = match column_mapping self with
        | Some mapping => value (_apply_column_mapping d mapping self)
        | None => Ok d
        end ∧ s' = self ∧ quiet tr')).
  { wp_step; [|by wp_step]. do 2 wp_step.
    apply wp_silent; [apply apply_mapping_silent|]. by destruct (value _). }
  intros v1 ? tr1 (Hv1 & -> & Hq1 & Hq2 & Hq3). rewrite <-Hv1 in Hload.
  assert (∀ tr', tr' = [] → quiet ([] ++ [SetSeed (seed self)] ++ [] ++ [] ++ [] ++ tr1 ++ tr'))
    as Hquiet.
  { intros ? ->. unfold quiet. observe. by rewrite Hq1, Hq2, Hq3. }
  wp_step; [|simplify_eq/=; split_and!; try done; by apply Hquiet].
  simpl in Hload.
  do 4 (do 2 wp_step; wp_step;
        [simpl in Hload|simplify_eq/=; split_and!; try done; by apply Hquiet]).
  done.
Qed.

Lemma train_facts kw self :
  (search_inactive self kw → frame self (final (train kw self))) ∧
  train_ok kw (final (train kw self)) (value (train kw self)) (trace (train kw self)).
Proof. apply train_spec. Qed.

(** *** The claims *)

(** C2: a call to [train] that returns has run the body-training phase
    exactly when the model's head is not differentiable or the freeze
    switch is true, and the head-training phase exactly when the head is
    not differentiable or the switch is false; the model and the switch
    are those the trainer holds when the call returns, which outside a
    hyperparameter search are those it held when the call was made.  With
    a non-differentiable head both phases run, whatever the switch. *)
Theorem train_phase_guards kw self :
  value (train kw self) = Ok tt →
  ∃ m, model (final (train kw self)) = Some m ∧
    (search_inactive self kw →
       model self = Some m ∧ _freeze (final (train kw self)) = _freeze self) ∧
    (body_calls (trace (train kw self)) ≠ [] ↔
       has_differentiable_head m = false ∨ _freeze (final (train kw self)) = true) ∧
    (head_calls (trace (train kw self)) ≠ [] ↔
       has_differentiable_head m = false ∨ _freeze (final (train kw self)) = false) ∧
    (has_differentiable_head m = false →
       body_calls (trace (train kw self)) ≠ [] ∧ head_calls (trace (train kw self)) ≠ []).
Proof.
  intros Hret. destruct (train_facts kw self) as [Hframe Hok].
  unfold train_ok in Hok. rewrite Hret in Hok.
  destruct (model (final (train kw self))) as [m|] eqn:Hm; [|by destruct Hok as (_ & _ & ? & ?)].
  destruct Hok as (_ & _ & _ & _ & Hlen). destruct (Hlen eq_refl) as [Hbody Hhead].
  exists m. split; [done|]. split.
  { intros (_ & _ & _ & Hf & Hmodel & _)%Hframe%frame_fields. by rewrite <-Hmodel. }
  unfold body_guard, head_guard in *. clear Hlen Hframe Hm Hret.
  destruct (has_differentiable_head m), (_freeze (final (train kw self)));
    simpl in *; destruct (body_calls _), (head_calls _); simplify_eq/=;
    (split_and!; [split|split|]); intros; try done; auto; by destruct_or?.
Qed.

Lemma validate_train_split d self :
  column_mapping self = None → column_names d = {["train"]} → is_DatasetDict d = true →
  value (_validate_column_mapping (Some d) self) = Raise (ValueError GotDatasetDictTrainSplit).
Proof.
  intros Hcm Hnames Hdict.
  unfold _validate_column_mapping, mbind, M_bind, get_self, raise, mret, M_ret.
  rewrite Hcm, Hnames, Hdict. simpl.
  assert (bool_decide (required_columns ⊆ ({["train"]} : gset string)) = false) as ->
    by (by vm_compute).
  by rewrite bool_decide_eq_true_2.
Qed.


Lemma assoc_is_Some {A} key (l : list (string * A)) :
  key ∈ (list_to_set l.*1 : gset string) ↔ is_Some (assoc key l).
Proof.
  induction l as [|[k v] l IH]; simpl.
  - rewrite elem_of_empty. split; [done|]. by intros [? ?].
  - rewrite elem_of_union, elem_of_singleton, IH. case_bool_decide as Hk.
    + split; [by eexists|by left].
    + split; [|by right]. by intros [?|?].
Qed.

Lemma text_required : "text" ∈ required_columns.
Proof. apply elem_of_union_l. by apply elem_of_singleton. Qed.

Lemma label_required : "label" ∈ required_columns.
Proof. apply elem_of_union_r. by apply elem_of_singleton. Qed.

Lemma getitem_Dataset_Ok key t :
  key ∈ column_names (Dataset t) → ∃ c, getitem (Dataset t) key = Ok (Column c).
Proof. simpl. intros [c Hc]%assoc_is_Some. exists c. by rewrite Hc. Qed.

Lemma getitem_Dataset_Raise key t :
  key ∉ column_names (Dataset t) → getitem (Dataset t) key = Raise (KeyError key).
Proof.
  simpl. intros Hkey. destruct (assoc key t) eqn:Hc; [|done].
  destruct Hkey. apply assoc_is_Some. by rewrite Hc.
Qed.

Lemma load_eval_columns self x_train y_train x_test y_test :
  load self = Ok (x_train, y_train, x_test, y_test) →
  subscript (eval_dataset self) "text" = Ok x_test ∧
  subscript (eval_dataset self) "label" = Ok y_test.
Proof.
  unfold load, rbind. intros Hload. repeat case_match; by simplify_eq.
Qed.

(** The validation at trainer.py:154-173 passes on a dataset that has the
    two required columns when no mapping is configured. *)
Lemma validate_plain d self :
  column_mapping self = None → required_columns ⊆ column_names d →
  value (_validate_column_mapping (Some d) self) = Ok tt.
Proof.
  intros Hcm Hcols.
  unfold _validate_column_mapping, mbind, M_bind, get_self, raise, mret, M_ret.
  rewrite Hcm. simpl. by rewrite (bool_decide_eq_true_2 _ Hcols).
Qed.

Lemma train_fails_without_eval_columns kw self :
  search_inactive self kw →
  (∀ x_test y_test, ¬ (subscript (eval_dataset self) "text" = Ok x_test ∧
                       subscript (eval_dataset self) "label" = Ok y_test)) →
  (∃ e, value (train kw self) = Raise e) ∧ quiet (trace (train kw self)).
Proof.
  intros Hin Heval. destruct (load self) as [[[[x_train y_train] x_test] y_test]|e] eqn:Hload.
  - by destruct (Heval x_test y_test), (load_eval_columns _ _ _ _ _ Hload).
  - destruct (train_load_fails kw self e Hin Hload) as (? & _ & ?). eauto.
Qed.

Lemma init_eval_dataset a self :
  __init__ a = Ok self → eval_dataset self = arg_eval_dataset a.
Proof.
  unfold __init__, rbind. intros Hinit. repeat case_match; by simplify_eq.
Qed.


(** The validation at trainer.py:174-184 passes when the mapping reaches
    both required columns and starts from columns of the dataset. *)
Lemma validate_mapped d mapping self :
  column_mapping self = Some mapping →
  required_columns ⊆ map_img mapping → dom mapping ⊆ column_names d →
  value (_validate_column_mapping (Some d) self) = Ok tt.
Proof.
  intros Hcm Himg Hdom.
  unfold _validate_column_mapping, mbind, M_bind, get_self, raise, mret, M_ret.
  rewrite Hcm. simpl.
  assert (required_columns ∖ map_img mapping = (∅ : gset string)) as Hmissing.
  { apply set_eq. intros x. rewrite elem_of_difference, elem_of_empty. split; [|done].
    intros [Hx Hnot]. by apply Hnot, Himg. }
  by rewrite (bool_decide_eq_true_2 _ Hmissing), (bool_decide_eq_true_2 _ Hdom).
Qed.

Lemma full_mapping_lookup d mapping key new :
  mapping !! key = Some new → full_mapping d mapping !! key = Some new.
Proof.
  intros Hkey. unfold full_mapping. rewrite lookup_union_r; [done|].
  apply not_elem_of_list_to_map_1. rewrite <-list_fmap_compose.
  intros (col & -> & [Hcol _]%list_elem_of_filter)%list_elem_of_fmap. simpl in *.
  by rewrite Hkey in Hcol.
Qed.

Lemma renamed_column (mapping : gmap string string) (t : table) key new :
  mapping !! key = Some new → key ∈ (list_to_set t.*1 : gset string) →
  is_Some (assoc new ((λ '(n, c), (default n (mapping !! n), c)) <$> t)).
Proof.
  intros Hkey. induction t as [|[n c] t IH]; simpl.
  - by intros ?%elem_of_empty.
  - intros [->%elem_of_singleton|Hin]%elem_of_union.
    + rewrite Hkey. simpl. by rewrite bool_decide_eq_true_2.
    + case_bool_decide; [done|]. by apply IH.
Qed.

Lemma rename_table_column mapping t t' key new :
  rename_table mapping t = Ok t' →
  mapping !! key = Some new → key ∈ column_names (Dataset t) →
  ∃ c, getitem (Dataset t') new = Ok (Column c).
Proof.
  unfold rename_table. intros Hren Hkey Hin. repeat case_match; simplify_eq.
  destruct (renamed_column mapping t key new Hkey Hin) as [c Hc].
  exists c. simpl. by rewrite Hc.
Qed.

Lemma mapped_column d mapping t t' new :
  new ∈ required_columns →
  required_columns ⊆ map_img mapping → dom mapping ⊆ column_names (Dataset t) →
  rename_table (full_mapping d mapping) t = Ok t' →
  ∃ c, getitem (Dataset t') new = Ok (Column c).
Proof.
  intros Hnew Himg Hdom Hren.
  destruct (proj1 (elem_of_map_img mapping new) (Himg _ Hnew)) as [key Hkey].
  apply (rename_table_column _ _ _ key _ Hren); [by apply full_mapping_lookup|].
  apply Hdom, elem_of_dom. by eexists.
Qed.

(** [evaluate()] on a trainer whose mapping applies to its evaluation dataset. *)
Lemma evaluate_mapped self mapping t t' m :
  column_mapping self = Some mapping → eval_dataset self = Some (Dataset t) →
  required_columns ⊆ map_img mapping → dom mapping ⊆ column_names (Dataset t) →
  rename_table (full_mapping (Dataset t) mapping) t = Ok t' →
  model self = Some m → metric self ≠ MetricOther →
  ∃ r x_test y_test,
    value (evaluate None self) = Ok r ∧
    getitem (Dataset t') "text" = Ok x_test ∧ getitem (Dataset t') "label" = Ok y_test ∧
    Predict x_test ∈ trace (evaluate None self).
Proof.
  intros Hcm Heval Himg Hdom Hren Hm Hmetric.
  destruct (mapped_column _ _ _ _ "text" text_required Himg Hdom Hren) as [x Hx].
  destruct (mapped_column _ _ _ _ "label" label_required Himg Hdom Hren) as [y Hy].
  cut (wp (evaluate None) self (λ v _ tr,
         (∃ r, v = Ok r) ∧ Predict (Column x) ∈ tr)).
  { intros [[r Hr] Htr]. by exists r, (Column x), (Column y). }
  unfold evaluate. do 2 wp_step. simpl or_dataset. rewrite Heval, Hcm.
  wp_step. apply wp_silent; [apply validate_silent|].
  rewrite (validate_mapped _ _ _ Hcm Himg Hdom). cbv beta iota.
  do 4 wp_step. apply wp_silent; [apply apply_mapping_silent|].
  rewrite apply_mapping_value. simpl rename_columns. rewrite Hren. simpl.
  do 3 wp_step. unfold subscript. rewrite Hx, Hy. cbv beta iota.
  do 2 wp_step. cbv beta iota.
  do 2 wp_step. unfold the_model. do 3 wp_step. rewrite Hm. do 3 wp_step.
  destruct (metric self); [| |done]; wp_step; (split; [by eexists|]); simpl.
  all: do 2 (apply elem_of_cons; right); by apply elem_of_cons; left.
Qed.


Lemma body_call_facts kw self call :
  call ∈ body_calls (trace (train kw self)) →
  ∃ x_train y_train x_test y_test bs',
    load (final (train kw self)) = Ok (x_train, y_train, x_test, y_test) ∧
    body_call_ok (final (train kw self)) x_train y_train
      (resolved_epochs kw (final (train kw self)))
      (resolved_batch_size kw (final (train kw self)))
      (resolved_learning_rate kw (final (train kw self))) call bs'.
Proof.
  intros Hcall. destruct (train_facts kw self) as [_ Hok]. unfold train_ok in Hok.
  destruct (model (final (train kw self))).
  - destruct Hok as (_ & _ & Hbody & _). by apply Hbody.
  - destruct Hok as (Hnone & _). rewrite Hnone in Hcall. by apply elem_of_nil in Hcall.
Qed.

(** [math.ceil] is the ceiling: the least integer not below the float. *)
Lemma ceil_finite s m e w :
  ceil (S754_finite s m e) = Ok w →
  let zm := if s then Z.neg m else Z.pos m in
  match e with
  | Z.neg k => (w - 1) * 2 ^ Z.pos k < zm <= w * 2 ^ Z.pos k
  | _ => w = zm * 2 ^ e
  end.
Proof.
  unfold ceil. intros [= <-]. destruct e as [|k|k]; try done.
  assert (0 < 2 ^ Z.pos k) by (by apply Z.pow_pos_nonneg).
  pose proof (Z.div_mod (- (if s then Z.neg m else Z.pos m)) (2 ^ Z.pos k)).
  pose proof (Z.mod_pos_bound (- (if s then Z.neg m else Z.pos m)) (2 ^ Z.pos k)).
  simpl. nia.
Qed.

(** The product is the binary64 one: [math.ceil(100 * 0.07)] is [8], since
    [100 * 0.07] is [7.000000000000001], and [math.ceil(10 * 0.1)] is [1]. *)
Example warmup_of_seven_percent :
  rbind (rbind (float_of_string "0.07") (int_mul_float 100)) ceil = Ok 8 ∧
  rbind (rbind (float_of_string "0.1") (int_mul_float 10)) ceil = Ok 1.
Proof. by vm_compute. Qed.

(** C5: the [warmup_steps] handed to the body fit is
    [math.ceil(total_steps * warmup_proportion)], computed as Python does
    (the integer converted to binary64, the product rounded to nearest,
    then the ceiling), where [total_steps] is the number of batches of one
    epoch of the training dataloader times the resolved number of epochs. *)
Theorem warmup_steps_formula kw self call :
  call ∈ body_calls (trace (train kw self)) →
  let self' := final (train kw self) in
  let batches_per_epoch := dl_len (bf_train_dataloader call) in
  let total_steps := batches_per_epoch * bf_epochs call in
  bf_epochs call = resolved_epochs kw self' ∧
  rbind (int_mul_float total_steps (warmup_proportion self')) ceil
    = Ok (bf_warmup_steps call).
Proof.
  intros (? & ? & ? & ? & ? & _ & Hep & _ & Hwarm & _)%body_call_facts. simpl.
  by rewrite Hep.
Qed.

Lemma filter_submseteq {A} (P : A → Prop) `{∀ x, Decision (P x)} (l1 l2 : list A) :
  l1 ⊆+ l2 → filter P l1 ⊆+ filter P l2.
Proof.
  induction 1 as [|x l1 l2 _ IH|x y l|x l1 l2 _ IH|l1 l2 l3 _ IH1 _ IH2].
  - done.
  - rewrite !filter_cons. case_decide; [by apply submseteq_skip|done].
  - rewrite !filter_cons. repeat case_decide; try done. apply submseteq_swap.
  - rewrite filter_cons. case_decide; [by apply submseteq_cons|done].
  - by etrans.
Qed.

Lemma filter_all {A} (P : A → Prop) `{∀ x, Decision (P x)} (l : list A) :
  Forall P l → filter P l = l.
Proof.
  induction 1 as [|x l Hx _ IH]; [done|]. rewrite filter_cons. by rewrite decide_True, IH.
Qed.

(** Examples drawn without replacement among those of one label: no more
    of any label than the data has of it. *)
Lemma drawn_label_bound examples k g k' :
  g ⊆+ filter (λ ex, has_label k ex = true) examples →
  (label_count k' g ≤ label_count k' examples)%nat.
Proof.
  intros Hsub. unfold label_count. apply submseteq_length.
  etrans; [by apply filter_submseteq|].
  apply filter_submseteq, sublist_submseteq, sublist_filter.
Qed.

(** *** Batching *)

(** With [drop_last] every batch delivered is full, the batches are the
    stream in its order, and what is dropped at the end is less than a
    batch. *)
Lemma collate_full {A} bs (cur stream : list A) :
  (0 < bs)%nat → (length cur < bs)%nat →
  Forall (λ b, length b = bs) (collate bs true cur stream) ∧
  ∃ rest, cur ++ stream = concat (collate bs true cur stream) ++ rest ∧
          (length rest < bs)%nat.
Proof.
  intros Hbs. revert cur. induction stream as [|x stream IH]; intros cur Hcur; simpl.
  - split; [done|]. exists cur. by rewrite app_nil_r.
  - destruct (Nat.eqb_spec (length (cur ++ [x])) bs) as [Hfull|Hpart].
    + destruct (IH [] Hbs) as (Hall & rest & Heq & Hrest). split; [by constructor|].
      exists rest. split; [|done]. simpl in *.
      by rewrite <-app_assoc, <-Heq, <-app_assoc.
    + rewrite length_app in Hpart. simpl in Hpart.
      destruct (IH (cur ++ [x])) as (Hall & rest & Heq & Hrest).
      { rewrite length_app. simpl. lia. }
      split; [done|]. exists rest. split; [|done]. by rewrite <-Heq, <-app_assoc.
Qed.

Lemma length_concat_full {A} bs (batches : list (list A)) :
  Forall (λ b, length b = bs) batches → length (concat batches) = (bs * length batches)%nat.
Proof.
  induction 1 as [|b batches Hb _ IH]; simpl; [lia|]. rewrite length_app, IH, Hb. lia.
Qed.

(** *** One pass over the label-grouped sampler *)

(** Every group yielded is a draw of [samples_per_label] examples from one
    label group of the sampler. *)
Lemma sld_loop_groups fuel r s label_range label_idx shuffles draws count :
  fair r → 0 < sld_samples_per_label s →
  Forall (λ g, ∃ selection, selection ∈ label_groups s ∧
                 Z.of_nat (length g) = sld_samples_per_label s ∧ g ⊆+ selection)
    (sld_loop fuel r s label_range label_idx shuffles draws count).
Proof.
  intros [_ Hchoice] Hspl.
  revert label_range label_idx shuffles draws count.
  induction fuel as [|fuel IH]; intros; simpl; [done|].
  case_match; [done|]. apply Forall_app. split; [|apply IH].
  destruct (label_groups s !! default 0%nat (label_range !! label_idx))
    as [selection|] eqn:Hsel; simpl.
  - case_match eqn:Hn; [|done]. apply Nat.leb_le in Hn.
    destruct (Hchoice draws selection _ Hn) as [Hlen Hsub].
    constructor; [|done]. exists selection. split_and!; [|lia|done].
    by eapply list_elem_of_lookup_2.
  - case_match eqn:Hn; [|done]. apply Nat.leb_le in Hn. lia.
Qed.

(** The pass ends by itself: with labels that have [samples_per_label]
    examples each, every turn yields, and the loop stops at the first
    count that is no less than [len(sampler)]. *)
Lemma sld_loop_length fuel r s label_range label_idx shuffles draws count :
  fair r → 0 < sld_samples_per_label s →
  Forall (λ g, sld_samples_per_label s <= Z.of_nat (length g)) (label_groups s) →
  label_range ≡ₚ seq 0 (length (label_groups s)) →
  (label_idx < length (label_groups s))%nat →
  (length (grouped_inputs s) - count ≤ fuel)%nat →
  (count < length (grouped_inputs s) + Z.to_nat (sld_samples_per_label s))%nat →
  let total := (count + length (concat (sld_loop fuel r s label_range label_idx
                                          shuffles draws count)))%nat in
  (length (grouped_inputs s) ≤ total)%nat ∧
  (total < length (grouped_inputs s) + Z.to_nat (sld_samples_per_label s))%nat.
Proof.
  intros [Hshuffle Hchoice] Hspl Hgroups.
  revert label_range label_idx shuffles draws count.
  induction fuel as [|fuel IH]; intros label_range label_idx shuffles draws count
    Hrange Hidx Hfuel Hcount; simpl.
  - lia.
  - destruct (Nat.leb_spec (length (grouped_inputs s)) count) as [Hdone|Hmore]; simpl; [lia|].
    assert (length label_range = length (label_groups s)) as Hlen
      by (by rewrite Hrange, length_seq).
    destruct (lookup_lt_is_Some_2 label_range label_idx) as [label Hlabel]; [lia|].
    assert (label < length (label_groups s))%nat as Hlt.
    { apply list_elem_of_lookup_2 in Hlabel. rewrite Hrange in Hlabel.
      apply elem_of_seq in Hlabel. lia. }
    destruct (lookup_lt_is_Some_2 (label_groups s) label Hlt) as [selection Hsel].
    rewrite Hlabel. simpl. rewrite Hsel. simpl.
    assert (Z.to_nat (sld_samples_per_label s) ≤ length selection)%nat as Hn.
    { pose proof (proj1 (Forall_lookup _ _) Hgroups _ _ Hsel) as Hge. simpl in Hge. lia. }
    rewrite (proj2 (Nat.leb_le _ _) Hn). simpl. rewrite app_nil_r.
    destruct (Hchoice draws selection _ Hn) as [Hdrawn _]. rewrite length_app, Hdrawn.
    rewrite Hlen.
    match goal with
    | |- context [sld_loop fuel r s ?lr ?li ?sh ?d ?c] =>
        destruct (IH lr li sh d c) as [Hlow Hhigh]
    end.
    + case_match; [apply Hshuffle|done].
    + case_match eqn:Hwrap; [lia|]. apply Nat.leb_gt in Hwrap. lia.
    + lia.
    + lia.
    + lia.
Qed.

Lemma sld_iter_length r s :
  fair r → 0 < sld_samples_per_label s →
  Forall (λ g, sld_samples_per_label s <= Z.of_nat (length g)) (label_groups s) →
  sld_len s <= Z.of_nat (length (concat (sld_iter r s)))
  < sld_len s + sld_samples_per_label s.
Proof.
  intros Hfair Hspl Hgroups. unfold sld_iter, sld_len.
  destruct (label_groups s) as [|g groups] eqn:Hs.
  - unfold grouped_inputs. rewrite Hs. simpl. lia.
  - rewrite <-Hs in *.
    destruct (sld_loop_length (length (grouped_inputs s)) r s
                (shuffled r 0 (length (label_groups s))) 0 1 0 0) as [Hlow Hhigh];
      try done.
    + apply Hfair.
    + rewrite Hs. simpl. lia.
    + lia.
    + assert (0 < Z.to_nat (sld_samples_per_label s))%nat by lia. lia.
    + simpl in Hlow, Hhigh. lia.
Qed.

(** What the constructor of the sampler keeps: for each label that has
    [samples_per_label] examples, all the examples of that label. *)
Lemma sampler_groups examples samples_per_label s :
  new_SentenceLabelDataset examples samples_per_label = Ok s →
  sld_samples_per_label s = samples_per_label ∧
  Forall (λ g, samples_per_label <= Z.of_nat (length g) ∧
               ∃ k, g = filter (λ ex, has_label k ex = true) examples) (label_groups s).
Proof.
  unfold new_SentenceLabelDataset. case_bool_decide; [|done]. intros [= <-]. simpl.
  split; [done|]. apply Forall_forall. intros g [Hlen Hg]%list_elem_of_filter.
  split; [done|]. unfold label2ex in Hg. rewrite <-list_fmap_compose in Hg.
  apply list_elem_of_fmap in Hg as (k & -> & _). by exists k.
Qed.

(** C6: under a triplet-family or supervised-contrastive loss the training
    dataloader is built over the label-grouped sampler with [drop_last],
    and its batch size is the minimum of the resolved [batch_size] and
    [len(sampler)].  For a positive [samples_per_label], whatever the
    random choices of a pass over it: the sampler yields at least
    [len(sampler)] examples, in groups; the batches delivered are the
    yielded examples in their order without the last, partial batch, so
    that every batch is full and the examples consumed are a multiple of
    the batch size, in no fewer batches than [len(dataloader)] counts;
    and every group is [samples_per_label] examples
    drawn without replacement among those of one label, no more of any
    label than the training data has of it. *)
Theorem label_grouped_batches kw self call :
  call ∈ body_calls (trace (train kw self)) →
  loss_class (final (train kw self)) ∈ Some <$> triplet_family →
  let self' := final (train kw self) in
  let dl := bf_train_dataloader call in
  ∃ x_train y_train x_test y_test sampler,
    load self' = Ok (x_train, y_train, x_test, y_test) ∧
    new_SentenceLabelDataset (examples_of x_train y_train) (samples_per_label self')
      = Ok sampler ∧
    dl_dataset dl = LabelSampler sampler ∧
    dl_batch_size dl = Z.min (resolved_batch_size kw self') (sld_len sampler) ∧
    dl_drop_last dl = true ∧
    ∀ r, fair r → 0 < samples_per_label self' →
      let groups := sld_iter r sampler in
      let batches := sampler_batches r dl sampler in
      sld_len sampler <= Z.of_nat (length (concat groups))
        < sld_len sampler + samples_per_label self' ∧
      Forall (λ b, Z.of_nat (length b) = dl_batch_size dl) batches ∧
      Z.of_nat (length (concat batches)) = dl_batch_size dl * Z.of_nat (length batches) ∧
      (∃ rest, concat groups = concat batches ++ rest ∧
               Z.of_nat (length rest) < dl_batch_size dl) ∧
      dl_len dl <= Z.of_nat (length batches) ∧
      Forall (λ g, ∃ k,
                Z.of_nat (length g) = samples_per_label self' ∧
                g ⊆+ filter (λ ex, has_label k ex = true) (examples_of x_train y_train) ∧
                ∀ k', (label_count k' g ≤ label_count k' (examples_of x_train y_train))%nat)
        groups.
Proof.
  intros (x_train & y_train & x_test & y_test & bs' & Hload & Hok)%body_call_facts Hloss.
  unfold body_call_ok in Hok. rewrite (bool_decide_eq_true_2 _ Hloss) in Hok.
  destruct Hok as (_ & _ & _ & Hpos & _ & (sampler & Hsampler & Hds & Hbs) & Hdrop & _).
  exists x_train, y_train, x_test, y_test, sampler. simpl. split_and!; try done.
  intros r Hfair Hspl. destruct (sampler_groups _ _ _ Hsampler) as [Hs Hgroups].
  rewrite <-Hs in Hspl.
  unfold sampler_batches. rewrite Hdrop.
  destruct (collate_full (Z.to_nat (dl_batch_size (bf_train_dataloader call))) []
              (concat (sld_iter r sampler))) as (Hfull & rest & Heq & Hrest);
    [lia|simpl; lia|].
  assert (sld_len sampler <= Z.of_nat (length (concat (sld_iter r sampler)))
          < sld_len sampler + sld_samples_per_label sampler) as [Hlow Hhigh].
  { apply sld_iter_length; [done..|].
    rewrite Hs. eapply Forall_impl; [exact Hgroups|]. by intros g [? _]. }
  rewrite Hs in Hhigh. split_and!; [done|done|..].
  - eapply Forall_impl; [exact Hfull|]. simpl. intros b Hb. lia.
  - rewrite (length_concat_full _ _ Hfull). lia.
  - exists rest. split; [done|]. lia.
  - unfold dl_len, dl_size. rewrite Hdrop, Hds. simpl. fold (sld_len sampler).
    apply (f_equal length) in Heq. simpl in Heq.
    rewrite length_app, (length_concat_full _ _ Hfull) in Heq.
    pose proof (Z.div_mod (sld_len sampler) (dl_batch_size (bf_train_dataloader call))).
    pose proof (Z.mod_pos_bound (sld_len sampler) (dl_batch_size (bf_train_dataloader call))).
    nia.
  - eapply Forall_impl; [by apply sld_loop_groups|]. simpl.
    intros g (selection & Hin & Hlen & Hsub).
    pose proof (proj1 (Forall_forall _ _) Hgroups _ Hin) as [_ [k ->]].
    exists k. split_and!; [congruence|done|]. intros k'. by eapply drawn_label_bound.
Qed.

Lemma head_call_facts kw self call :
  call ∈ head_calls (trace (train kw self)) →
  hf_num_epochs call = resolved_epochs kw (final (train kw self)) ∧
  hf_learning_rate call = resolved_learning_rate kw (final (train kw self)) ∧
  (hf_batch_size call = resolved_batch_size kw (final (train kw self)) ∨
   ∃ c, c ∈ body_calls (trace (train kw self)) ∧
        hf_batch_size call = dl_batch_size (bf_train_dataloader c)).
Proof.
  intros Hcall. destruct (train_facts kw self) as [_ Hok]. unfold train_ok in Hok.
  destruct (model (final (train kw self))).
  - destruct Hok as (_ & _ & _ & Hhead & _). by apply Hhead.
  - destruct Hok as (_ & Hnone & _). rewrite Hnone in Hcall. by apply elem_of_nil in Hcall.
Qed.

Lemma resolved_frame kw self self' :
  frame self self' →
  resolved_epochs kw self' = resolved_epochs kw self ∧
  resolved_batch_size kw self' = resolved_batch_size kw self ∧
  resolved_learning_rate kw self' = resolved_learning_rate kw self.
Proof.
  intros (He & Hb & Hl & _)%frame_fields.
  unfold resolved_epochs, resolved_batch_size, resolved_learning_rate.
  by rewrite He, Hb, Hl.
Qed.

Lemma or_int_spec override configured :
  (∀ z, override = Some z → z ≠ 0 → or_int override configured = z) ∧
  (override = None ∨ override = Some 0 → or_int override configured = configured).
Proof.
  unfold or_int, int_truthy. split.
  - intros z -> Hz. by rewrite (proj2 (Z.eqb_neq z 0) Hz).
  - by intros [-> | ->].
Qed.

Lemma or_float_spec override configured :
  (∀ f, override = Some f → (∀ s, f ≠ S754_zero s) → or_float override configured = f) ∧
  (override = None ∨ (∃ s, override = Some (S754_zero s)) →
   or_float override configured = configured).
Proof.
  unfold or_float. split.
  - intros f -> Hf. destruct f; try done. by destruct (Hf s).
  - by intros [-> | [s ->]].
Qed.

(** What [train] makes of its overrides, outside a hyperparameter search:
    [num_epochs], [batch_size] and [learning_rate] are resolved with
    [or], as the override when it is truthy (neither [None] nor zero) and
    as the trainer's field otherwise; both fits receive the resolved
    values (the batch size capped by the label-grouped sampler where
    there is one), and the three fields are unchanged when the call is
    over. *)
Theorem train_resolves_overrides kw self :
  search_inactive self kw →
  let tr := trace (train kw self) in
  let self' := final (train kw self) in
  (∀ call, call ∈ body_calls tr →
     bf_epochs call = resolved_epochs kw self ∧
     bf_lr call = resolved_learning_rate kw self ∧
     (dl_batch_size (bf_train_dataloader call) = resolved_batch_size kw self ∨
      loss_class self' ∈ Some <$> triplet_family ∧
      dl_batch_size (bf_train_dataloader call)
      = Z.min (resolved_batch_size kw self) (dl_size (bf_train_dataloader call)))) ∧
  (∀ call, call ∈ head_calls tr →
     hf_num_epochs call = resolved_epochs kw self ∧
     hf_learning_rate call = resolved_learning_rate kw self ∧
     (hf_batch_size call = resolved_batch_size kw self ∨
      ∃ c, c ∈ body_calls tr ∧ hf_batch_size call = dl_batch_size (bf_train_dataloader c))) ∧
  ((∀ z, kw_num_epochs kw = Some z → z ≠ 0 → resolved_epochs kw self = z) ∧
   (kw_num_epochs kw = None ∨ kw_num_epochs kw = Some 0 →
    resolved_epochs kw self = num_epochs self)) ∧
  ((∀ z, kw_batch_size kw = Some z → z ≠ 0 → resolved_batch_size kw self = z) ∧
   (kw_batch_size kw = None ∨ kw_batch_size kw = Some 0 →
    resolved_batch_size kw self = batch_size self)) ∧
  ((∀ f, kw_learning_rate kw = Some f → (∀ s, f ≠ S754_zero s) →
      resolved_learning_rate kw self = f) ∧
   (kw_learning_rate kw = None ∨ (∃ s, kw_learning_rate kw = Some (S754_zero s)) →
    resolved_learning_rate kw self = learning_rate self)) ∧
  num_epochs self' = num_epochs self ∧
  batch_size self' = batch_size self ∧
  learning_rate self' = learning_rate self.
Proof.
  intros Hin. simpl.
  destruct (train_facts kw self) as [Hframe _]. specialize (Hframe Hin).
  destruct (resolved_frame kw _ _ Hframe) as (He & Hb & Hl).
  destruct (frame_fields _ _ Hframe) as (? & ? & ? & _).
  split_and!; try done.
  - intros call (x & y & xt & yt & bs' & _ & Hok)%body_call_facts.
    rewrite He, Hb, Hl in Hok. unfold body_call_ok in Hok.
    destruct Hok as (? & ? & _ & _ & _ & Hbs). split_and!; try done.
    case_bool_decide as Hloss.
    + right. destruct Hbs as [(sampler & _ & Hds & Hmin) _]. split; [done|].
      unfold dl_size. by rewrite Hds.
    + left. by destruct Hbs.
  - intros call Hcall. destruct (head_call_facts kw self call Hcall) as (? & ? & ?).
    by rewrite <-He, <-Hb, <-Hl.
  - apply or_int_spec.
  - apply or_int_spec.
  - apply or_int_spec.
  - apply or_int_spec.
  - apply or_float_spec.
  - apply or_float_spec.
Qed.

(** Comparing two floats the other way round gives the opposite answer. *)
Lemma SFcompare_antisym x y : SFcompare y x = CompOpp <$> SFcompare x y.
Proof.
  destruct x as [sx|sx| |sx mx ex], y as [sy|sy| |sy my ey]; simpl;
    try by (repeat match goal with s : bool |- _ => destruct s end).
  destruct sx, sy; simpl; try done.
  - rewrite (Z.compare_antisym ey ex). destruct (ey ?= ex); simpl; try done.
    replace (Pos.compare_cont Eq my mx) with (CompOpp (Pos.compare_cont Eq mx my))
      by apply (Pos.compare_cont_antisym mx my Eq).
    by rewrite ?CompOpp_involutive.
  - rewrite (Z.compare_antisym ey ex). destruct (ey ?= ex); simpl; try done.
    replace (Pos.compare_cont Eq my mx) with (CompOpp (Pos.compare_cont Eq mx my))
      by apply (Pos.compare_cont_antisym mx my Eq).
    by rewrite ?CompOpp_involutive.
Qed.

Lemma float_le_not_lt x y : float_le x y = true → float_lt y x = false.
Proof.
  unfold float_le, float_lt, SFleb, SFltb. rewrite (SFcompare_antisym x y).
  by destruct (SFcompare x y) as [[]|].
Qed.

(** C7: the constructor raises the [ValueError] of trainer.py:104-107 when
    [warmup_proportion < 0.0] or [warmup_proportion > 1.0], and constructs
    the trainer when [0.0 <= warmup_proportion <= 1.0] and the other
    arguments are valid. *)
Theorem init_checks_warmup_proportion a :
  (float_lt (arg_warmup_proportion a) f0 = true ∨ float_lt f1 (arg_warmup_proportion a) = true →
   __init__ a = Raise (ValueError (WarmupProportionOutOfRange (arg_warmup_proportion a)))) ∧
  (float_le f0 (arg_warmup_proportion a) = true →
   float_le (arg_warmup_proportion a) f1 = true →
   valid_model_args a →
   ∃ self, __init__ a = Ok self ∧ warmup_proportion self = arg_warmup_proportion a).
Proof.
  unfold __init__. split.
  - intros Hout. by rewrite (proj2 (orb_true_iff _ _) Hout).
  - intros ->%float_le_not_lt ->%float_le_not_lt. simpl. unfold valid_model_args.
    destruct (arg_model a) as [m|], (arg_model_init a) as [f|]; try done.
    + by eexists.
    + unfold call_model_init, mbind, M_bind, get_self, lift, raise, mret, M_ret. simpl.
      intros [[-> [m ->]]|[-> [m ->]]]; by eexists.
Qed.

Lemma apply_unknown_hyperparameter key v self f :
  hasattr self key = false → model_init self = Some f → number_of_arguments f = 0%nat →
  apply_hyperparameter key v self = Outcome (Ok tt) self [LogWarning (NoCorrespondingField key)].
Proof.
  intros Hkey Hf Hargs.
  unfold apply_hyperparameter, mbind, M_bind, get_self, lift, mret, M_ret, emit.
  by rewrite Hkey, Hf; simpl; rewrite Hargs.
Qed.

Lemma apply_unknown_hyperparameters params self f :
  Forall (λ p, hasattr self p.1 = false) params →
  model_init self = Some f → number_of_arguments f = 0%nat →
  for_each params (λ '(key, v), apply_hyperparameter key v) self
  = Outcome (Ok tt) self ((λ p, LogWarning (NoCorrespondingField p.1)) <$> params).
Proof.
  intros Hkeys Hf Hargs. induction Hkeys as [|[key v] params Hkey _ IH]; [done|].
  simpl. unfold mbind, M_bind. rewrite (apply_unknown_hyperparameter key v self f) by done.
  fold (for_each params (λ '(key, v), apply_hyperparameter key v)). by rewrite IH.
Qed.

Lemma apply_learning_rate v final_model self f :
  to_float v = Ok f →
  learning_rate (final (apply_hyperparameters [("learning_rate", v)] final_model self)) = f ∧
  warnings (trace (apply_hyperparameters [("learning_rate", v)] final_model self)) = [].
Proof.
  intros Hv.
  unfold apply_hyperparameters, for_each, apply_hyperparameter, mbind, M_bind, get_self,
    lift, raise, modify, mret, M_ret.
  simpl. rewrite Hv. simpl.
  destruct (model_init self) as [init|]; [|done].
  destruct (call1 init _); simpl; [|done]. by destruct final_model.
Qed.

(** C4: [apply_hyperparameters({"learning_rate": "0.01"})] converts the
    string with [float], which yields the binary64 value nearest to 1/100,
    and stores it in the field [learning_rate], whatever the factory does
    afterwards; and when [model_init] takes no argument, each key that
    names no attribute of the trainer (none that [hasattr] finds: not one
    the trainer sets, not a method, not a name every object has) is
    answered with one warning and nothing else: the call leaves the
    trainer as it was, up to the model the factory returns. *)
Theorem apply_hyperparameters_coerces self final_model :
  (to_float (HStr "0.01") = Ok lit_0_01 ∧ lit_0_01 = decimal_to_float false 1 (-2)) ∧
  learning_rate (final (apply_hyperparameters [("learning_rate", HStr "0.01")]
                          final_model self)) = lit_0_01 ∧
  warnings (trace (apply_hyperparameters [("learning_rate", HStr "0.01")]
                     final_model self)) = [] ∧
  (∀ key v f,
     hasattr self key = false → model_init self = Some f → number_of_arguments f = 0%nat →
     apply_hyperparameter key v self
     = Outcome (Ok tt) self [LogWarning (NoCorrespondingField key)]) ∧
  (∀ (params : params) f,
     Forall (λ p, hasattr self p.1 = false) params →
     model_init self = Some f → number_of_arguments f = 0%nat →
     trace (apply_hyperparameters params final_model self)
     = (λ p, LogWarning (NoCorrespondingField p.1)) <$> params ∧
     final (apply_hyperparameters params final_model self)
     = match call1 f (Some params) with
       | Ok m => (if final_model then set_model_init None else id) (set_model m self)
       | Raise _ => self
       end).
Proof.
  split; [by vm_compute|].
  destruct (apply_learning_rate (HStr "0.01") final_model self lit_0_01) as [Hlr Hw];
    [by vm_compute|].
  split_and!; try done.
  - intros key v f. apply apply_unknown_hyperparameter.
  - intros params f Hkeys Hf Hargs.
    unfold apply_hyperparameters, mbind, M_bind.
    rewrite (apply_unknown_hyperparameters params self f) by done.
    unfold get_self, lift, raise, modify, mret, M_ret. rewrite Hf. simpl.
    destruct (call1 f (Some params)); simpl; [|by rewrite app_nil_r].
    destruct final_model; simpl; by rewrite ?app_nil_r.
Qed.

Lemma evaluate_silent dataset self : final (evaluate dataset self) = self.
Proof.
  cut (wp (evaluate dataset) self (λ _ self' _, self' = self)); [done|].
  unfold evaluate. do 3 wp_step. apply wp_silent; [apply validate_silent|].
  wp_step; [|done]. wp_step.
  eapply (wp_mono _ _ (λ _ self' _, self' = self)).
  { repeat wp_step; try done. apply wp_silent; [apply apply_mapping_silent|].
    repeat wp_step; done. }
  intros v ? tr ->. unfold the_model. repeat wp_step; done.
Qed.

Lemma call_model_init_silent p self : final (call_model_init p self) = self.
Proof.
  cut (wp (call_model_init p) self (λ _ self' _, self' = self)); [done|].
  unfold call_model_init. repeat wp_step; done.
Qed.

Lemma freeze_spec self :
  wp freeze self (λ v self' _,
    match v with
    | Ok _ => ∃ m, model self = Some m ∧ has_differentiable_head m = true ∧
                   self' = set_model (Some (Model.freeze Head m)) (set_freeze_switch true self)
    | Raise _ => self' = self
    end).
Proof.
  unfold freeze, the_model. repeat wp_step; try done.
  eexists. split_and!; try done. by apply negb_false_iff.
Qed.

Lemma unfreeze_spec keep self :
  wp (unfreeze keep) self (λ v self' _,
    match v with
    | Ok _ => _freeze self' = false
    | Raise _ => self' = self
    end).
Proof. unfold unfreeze, the_model. repeat wp_step; done. Qed.

Lemma body_only_after c self :
  keeps_frozen c = true → body_only self → body_only (after c self).
Proof.
  intros Hc (Hfreeze & Hbackend & m & Hm & Hhead). destruct c; try done; simpl.
  - destruct (train_facts kw self) as [Hframe _].
    destruct (frame_fields _ _ (Hframe (or_introl Hbackend)))
      as (_ & _ & _ & Hf & Hmodel & Hb & _).
    split_and!; [congruence..|]. exists m. by rewrite Hmodel.
  - rewrite evaluate_silent. split_and!; eauto.
  - pose proof (freeze_spec self) as Hspec. unfold wp in Hspec.
    destruct (value (freeze self)).
    + destruct Hspec as (m' & Hm' & Hhead' & ->). by split_and!; [..|eexists].
    + rewrite Hspec. split_and!; eauto.
  - rewrite call_model_init_silent. split_and!; eauto.
Qed.

Lemma body_only_train kw self :
  body_only self →
  head_calls (trace (train kw self)) = [] ∧
  (value (train kw self) = Ok tt → length (body_calls (trace (train kw self))) = 1%nat).
Proof.
  intros (Hfreeze & Hbackend & m & Hm & Hhead).
  destruct (train_facts kw self) as [Hframe Hok].
  destruct (frame_fields _ _ (Hframe (or_introl Hbackend)))
    as (_ & _ & _ & Hf & Hmodel & _).
  unfold train_ok in Hok. rewrite Hmodel, Hm in Hok.
  unfold body_guard, head_guard in Hok. rewrite Hf, Hfreeze, Hhead in Hok. simpl in Hok.
  destruct Hok as (_ & Hnohead & _ & _ & Hlen). split; [by apply Hnohead|].
  intros Hret. by destruct (Hlen Hret).
Qed.

Lemma init_fresh a self :
  __init__ a = Ok self → _freeze self = true ∧ hp_search_backend self = None.
Proof. unfold __init__, rbind. intros Hinit. repeat case_match; by simplify_eq. Qed.

Lemma body_only_after_all calls self :
  forallb keeps_frozen calls = true → body_only self →
  body_only (foldl (λ s c, after c s) self calls).
Proof.
  revert self. induction calls as [|c calls IH]; intros self; simpl; [done|].
  intros [Hc Hcalls]%andb_true_iff Hself. by apply IH, body_only_after.
Qed.

(** C10, amended: a newly constructed trainer has its freeze switch on; the
    switch is written by [freeze], by [unfreeze] and by
    [apply_hyperparameters] (which finds [_freeze] among the attributes),
    and by no other call outside a hyperparameter search; hence, for a
    model with a differentiable head, [train] runs the body-training phase
    only, after construction and after any calls other than [unfreeze] and
    [apply_hyperparameters]. *)
Theorem freeze_switch_lifecycle :
  (∀ a self, __init__ a = Ok self → _freeze self = true ∧ hp_search_backend self = None) ∧
  (∀ c self,
     writes_switch c = false → (∀ kw, c = call_train kw → search_inactive self kw) →
     _freeze (after c self) = _freeze self) ∧
  (∀ self, value (freeze self) = Ok tt → _freeze (after call_freeze self) = true) ∧
  (∀ keep self,
     value (unfreeze keep self) = Ok tt → _freeze (after (call_unfreeze keep) self) = false) ∧
  (∀ a self m calls kw,
     __init__ a = Ok self → model self = Some m → has_differentiable_head m = true →
     forallb keeps_frozen calls = true →
     let self' := foldl (λ s c, after c s) self calls in
     head_calls (trace (train kw self')) = [] ∧
     (value (train kw self') = Ok tt →
      length (body_calls (trace (train kw self'))) = 1%nat)).
Proof.
  split_and!.
  - apply init_fresh.
  - intros c self Hc Hin. destruct c; try done; simpl.
    + destruct (train_facts kw self) as [Hframe _].
      by destruct (frame_fields _ _ (Hframe (Hin kw eq_refl))) as (_ & _ & _ & ? & _).
    + by rewrite evaluate_silent.
    + by rewrite call_model_init_silent.
  - intros self Hret. simpl. pose proof (freeze_spec self) as Hspec. unfold wp in Hspec.
    rewrite Hret in Hspec. by destruct Hspec as (m & _ & _ & ->).
  - intros keep self Hret. simpl. pose proof (unfreeze_spec keep self) as Hspec.
    unfold wp in Hspec. by rewrite Hret in Hspec.
  - intros a self m calls kw [Hfreeze Hbackend]%init_fresh Hm Hhead Hcalls. simpl.
    apply body_only_train, body_only_after_all; [done|]. split_and!; eauto.
Qed.

(** ** More of the trainer *)

(** *** [train], step by step *)

Lemma wp_exact {A} (m : M A) self :
  wp m self (λ v self' tr, v = value (m self) ∧ self' = final (m self) ∧ tr = trace (m self)).
Proof. done. Qed.

Lemma train_anatomy kw self :
  anatomy kw self (value (train kw self)) (final (train kw self)) (trace (train kw self)).
Proof.
  change (wp (train kw) self (anatomy kw self)).
  unfold train. do 5 wp_step.
  fold (trial_setup kw). wp_use (wp_exact (trial_setup kw) self).
  intros (Hv & Hs & Htr). unfold anatomy. rewrite <-Hv, <-Hs, <-Htr. clear Hv Hs Htr.
  wp_step; [|done].
  unfold load, load_log, loss_log, with_default_loss.
  do 3 wp_step; [|wp_step; simpl; by rewrite ?app_nil_r].
  wp_step. apply wp_silent; [apply validate_silent|].
  destruct (value (_validate_column_mapping (Some d) s)) as [[]|e] eqn:Hval;
    [|simpl; by rewrite ?app_nil_r].
  cbv beta iota. simpl rbind. wp_step.
  eapply (wp_mono _ _ (λ v s' tr',
    v = match column_mapping s with
        | Some mapping => value (_apply_column_mapping d mapping s)
        | None => Ok d
        end ∧ s' = s ∧
    tr' = match column_mapping s with
          | Some _ => [LogInfo ApplyingColumnMappingTrain]
          | None => []
          end)).
  { wp_step; [|by wp_step]. do 2 wp_step.
    apply wp_silent; [apply apply_mapping_silent|]. by destruct (value _). }
  intros v1 ? tr1 (Hv1 & -> & ->). rewrite <-Hv1. clear Hv1.
  wp_step; simpl rbind; cbv beta iota; [|simpl; by rewrite ?app_nil_r].
  do 4 (do 2 wp_step; wp_step; simpl rbind; cbv beta iota; [|simpl; by rewrite ?app_nil_r]).
  unfold the_model. do 2 wp_step; [do 2 wp_step|]; wp_step.
  all: do 3 wp_step.
  all: change (model (set_loss_class (Some CosineSimilarityLoss) s)) with (model s).
  all: wp_step; wp_step; [|simpl; by rewrite ?app_nil_r].
  all: unfold wp, phases; simpl; by rewrite ?app_nil_r.
Qed.

(** *** Traces *)

Lemma omap_none {A B} (f : A → option B) (l : list A) :
  Forall (λ a, f a = None) l → omap f l = [].
Proof. induction 1 as [|a l Ha _ IH]; [done|]. simpl. by rewrite Ha. Qed.

Lemma preparation_quiet tr :
  Forall (λ e, is_preparation e = true) tr →
  seedings tr = [] ∧ warnings tr = [] ∧ body_calls tr = [] ∧ head_calls tr = [] ∧
  predictions tr = [].
Proof.
  intros Htr. split_and!; apply omap_none; eapply Forall_impl; try done.
  all: by intros [].
Qed.

Lemma logs_quiet tr :
  Forall (λ e, is_log e = true) tr →
  seedings tr = [] ∧ pair_passes tr = [] ∧ body_calls tr = [] ∧ head_calls tr = [] ∧
  predictions tr = [].
Proof.
  intros Htr. split_and!; apply omap_none; eapply Forall_impl; try done.
  all: by intros [].
Qed.

Lemma generate_pairs_trace passes ml rng x_train y_train x_test y_test acc acc' self :
  wp (generate_pairs passes ml rng x_train y_train x_test y_test acc acc') self
    (λ v self' tr,
       self' = self ∧
       ∃ k, (k ≤ passes)%nat ∧ tr = replicate k (PairGeneration ml) ∧
            ((∃ r, v = Ok r) → k = passes)).
Proof.
  revert rng acc acc'. induction passes as [|n IH]; intros; simpl.
  - wp_step. split; [done|]. by exists 0%nat.
  - do 2 wp_step.
    do 2 (do 2 wp_step; wp_step;
          [|split; [done|]; exists 1%nat; split_and!; [lia|done|by intros [? ?]]]).
    wp_use IH. intros (-> & k & Hk & -> & Hok). split; [done|].
    exists (S k). split_and!; [lia|done|]. intros Hv. by rewrite Hok.
Qed.

Lemma pair_passes_replicate n ml :
  pair_passes (replicate n (PairGeneration ml)) = replicate n ml.
Proof. induction n as [|n IH]; [done|]. simpl. by rewrite <-IH. Qed.

Lemma preparation_replicate n ml :
  Forall (λ e, is_preparation e = true) (replicate n (PairGeneration ml)).
Proof. by apply Forall_replicate. Qed.

(** The body-training phase, trainer.py:406-490: what it generates, and
    the call it ends with when it returns. *)
Lemma train_body_trace m rng x_train y_train x_test y_test epochs bs lr spb ls self :
  wp (train_body m rng x_train y_train x_test y_test epochs bs lr spb ls) self
    (λ v _ tr,
       ∃ pre k,
         Forall (λ e, is_preparation e = true) pre ∧
         pair_passes pre
         = (if bool_decide (loss_class self ∈ Some <$> triplet_family) then []
            else replicate k (bool_decide (is_Some (multi_target_strategy m)))) ∧
         (k ≤ Z.to_nat (num_iterations self))%nat ∧
         match v with
         | Ok _ => k = Z.to_nat (num_iterations self) ∧
                   ∃ call, tr = pre ++ [BodyFit call] ∧
                           body_call_shape self m x_test y_test spb ls call
         | Raise _ => tr = pre
         end).
Proof.
  unfold train_body, body_call_shape. do 4 wp_step.
  - apply bool_decide_eq_true in Heqb as Hcls.
    apply list_elem_of_fmap in Hcls as (cls & Hcls & _). rewrite Hcls.
    repeat wp_step.
    all: rewrite ?app_nil_l, ?app_nil_r, ?app_assoc.
    all: try (refine (ex_intro _ _ (ex_intro _ (Z.to_nat (num_iterations self))
                (conj _ (conj _ (conj (le_n _) eq_refl)))));
              [repeat (apply Forall_app; split); by repeat constructor|
               by rewrite ?pair_passes_app]).
    refine (ex_intro _ _ (ex_intro _ (Z.to_nat (num_iterations self))
              (conj _ (conj _ (conj (le_n _) (conj eq_refl
                 (ex_intro _ _ (conj eq_refl _)))))))).
    + repeat (apply Forall_app; split); by repeat constructor.
    + by rewrite ?pair_passes_app.
    + unfold new_DataLoader in *. repeat case_match; simplify_eq/=.
      split_and!; try done. eexists. split_and!; try done. by eexists.
  - wp_step. wp_use generate_pairs_trace. intros (_ & k & Hk & -> & Hok).
    wp_step.
    2:{ exists (replicate k (PairGeneration (bool_decide (is_Some (multi_target_strategy m))))),
          k.
        split_and!; [apply preparation_replicate|apply pair_passes_replicate|done|done]. }
    rewrite Hok in * by eauto. clear Hok Hk.
    repeat wp_step.
    all: rewrite ?app_nil_l, ?app_nil_r, ?app_assoc.
    all: try (refine (ex_intro _ _ (ex_intro _ (Z.to_nat (num_iterations self))
                (conj _ (conj _ (conj (le_n _) eq_refl)))));
              [repeat (apply Forall_app; split);
                 (by apply preparation_replicate) || (by repeat constructor)|
               rewrite ?pair_passes_app, pair_passes_replicate; simpl;
                 by rewrite ?app_nil_r]).
    refine (ex_intro _ _ (ex_intro _ (Z.to_nat (num_iterations self))
              (conj _ (conj _ (conj (le_n _) (conj eq_refl
                 (ex_intro _ _ (conj eq_refl _)))))))).
    + repeat (apply Forall_app; split);
        (by apply preparation_replicate) || (by repeat constructor).
    + rewrite ?pair_passes_app, pair_passes_replicate; simpl; by rewrite ?app_nil_r.
    + unfold new_DataLoader in *. repeat case_match; simplify_eq/=.
      split_and!; try done. by eexists.
Qed.

Lemma wp_and {A} (m : M A) self (Q1 Q2 : result A → SetFitTrainer → list event → Prop) :
  wp m self Q1 → wp m self Q2 → wp m self (λ v s tr, Q1 v s tr ∧ Q2 v s tr).
Proof. by unfold wp. Qed.

(** The two phases: what they leave in the trace. *)
Lemma phases_trace kw m rng x_train y_train x_test y_test s s' :
  wp (phases kw m rng x_train y_train x_test y_test s) s'
    (λ v s'' tr,
       s'' = s' ∧
       if negb (has_differentiable_head m) || _freeze s then
         ∃ pre k,
           Forall (λ e, is_preparation e = true) pre ∧
           pair_passes pre
           = (if bool_decide (loss_class s' ∈ Some <$> triplet_family) then []
              else replicate k (bool_decide (is_Some (multi_target_strategy m)))) ∧
           (k ≤ Z.to_nat (num_iterations s'))%nat ∧
           match v with
           | Ok _ =>
               k = Z.to_nat (num_iterations s') ∧
               ∃ call bs',
                 tr = pre ++ BodyFit call :: head_phase kw m x_train y_train x_test y_test s bs' ∧
                 body_call_shape s' m x_test y_test (kw_show_progress_bar kw) (kw_log_steps kw)
                   call ∧
                 body_call_ok s' x_train y_train (or_int (kw_num_epochs kw) (num_epochs s))
                   (or_int (kw_batch_size kw) (batch_size s))
                   (or_float (kw_learning_rate kw) (learning_rate s)) call bs'
           | Raise _ => tr = pre
           end
       else
         v = Ok tt ∧
         tr = head_phase kw m x_train y_train x_test y_test s
                (or_int (kw_batch_size kw) (batch_size s))).
Proof.
  unfold phases, head_phase. wp_step. wp_step.
  - wp_use (wp_and _ _ _ _
             (train_body_spec m rng x_train y_train x_test y_test _ _ _ _ _ s')
             (train_body_trace m rng x_train y_train x_test y_test _ _ _ _ _ s')).
    intros [(-> & _ & Hok) (pre & k & Hpre & Hpairs & Hk & Htr)].
    wp_step.
    + destruct Hok as (call & Hcalls & Hok). destruct Htr as (-> & call' & -> & Hshape).
      assert (call' = call) as ->.
      { revert Hcalls. rewrite body_calls_app.
        destruct (preparation_quiet _ Hpre) as (_ & _ & -> & _). simpl. congruence. }
      wp_step; wp_step; (split; [done|]); exists pre, (Z.to_nat (num_iterations s'));
        split_and!; try done.
      all: exists call, a; split_and!; try done.
      all: by rewrite <-app_assoc.
    + split; [done|]. exists pre, k. by subst.
  - wp_step. wp_step; wp_step; by rewrite ?app_nil_r.
Qed.

(** *** The trial set-up logs and does nothing else to the outside *)

Lemma setattr_scalar_logs key v set self :
  setattr_scalar key v = Some set → wp set self (λ _ _ tr, tr = []).
Proof. apply setattr_scalar_silent. Qed.

Lemma apply_hyperparameter_logs key v self :
  wp (apply_hyperparameter key v) self (λ _ _ tr, Forall (λ e, is_log e = true) tr).
Proof.
  unfold apply_hyperparameter. do 3 wp_step.
  - destruct (setattr_scalar key v) as [set|] eqn:Hset.
    + wp_use (setattr_scalar_silent key v set self Hset). by intros ->.
    + repeat wp_step; by repeat constructor.
  - repeat wp_step; by repeat constructor.
Qed.

Lemma for_each_logs {A} (l : list A) (body : A → M unit) self :
  (∀ a s, wp (body a) s (λ _ _ tr, Forall (λ e, is_log e = true) tr)) →
  wp (for_each l body) self (λ _ _ tr, Forall (λ e, is_log e = true) tr).
Proof.
  intros Hbody. revert self. induction l as [|a l IH]; intros self; simpl.
  - by wp_step.
  - wp_step. wp_use (Hbody a self). intros Hq. wp_step; [|done].
    wp_use IH. intros Hq'. by apply Forall_app.
Qed.

Lemma apply_hyperparameters_logs params final_model self :
  wp (apply_hyperparameters params final_model) self
    (λ _ _ tr, Forall (λ e, is_log e = true) tr).
Proof.
  unfold apply_hyperparameters. wp_step.
  wp_use for_each_logs; [intros [key v] s; apply apply_hyperparameter_logs|].
  intros Hq. repeat wp_step; rewrite ?app_nil_r; done.
Qed.

Lemma hp_search_setup_logs trial self :
  wp (_hp_search_setup trial) self (λ _ _ tr, Forall (λ e, is_log e = true) tr).
Proof.
  unfold _hp_search_setup. do 2 wp_step.
  destruct (hp_search_backend self) as [backend|], trial as [trial|]; try by wp_step.
  repeat wp_step; try done.
  all: wp_use apply_hyperparameters_logs; intros Hq; simpl; by constructor.
Qed.

Lemma trial_setup_logs kw self :
  Forall (λ e, is_log e = true) (trace (trial_setup kw self)).
Proof.
  change (wp (trial_setup kw) self (λ _ _ tr, Forall (λ e, is_log e = true) tr)).
  unfold trial_setup. wp_step; [apply hp_search_setup_logs|by wp_step].
Qed.

Lemma trial_setup_inactive kw self :
  search_inactive self kw → trial_setup kw self = Outcome (Ok tt) self [].
Proof.
  intros Hin. pose proof (trial_setup_spec kw self) as [_ Hspec].
  fold (trial_setup kw) in Hspec. destruct (Hspec Hin) as (Hv & Hs & Htr).
  destruct (trial_setup kw self). simpl in *. by subst.
Qed.

Lemma load_log_logs s : Forall (λ e, is_log e = true) (load_log s).
Proof. unfold load_log. repeat case_match; by repeat constructor. Qed.

Lemma loss_log_logs s : Forall (λ e, is_log e = true) (loss_log s).
Proof. unfold loss_log. case_match; by repeat constructor. Qed.

(** Take a call to [train] apart: the goals are, in this order, the call
    that reaches the two phases, the one that finds no model, the one that
    cannot load its columns, and the one whose trial set-up raises. *)
Ltac train_cases kw self :=
  let Ha := fresh "Ha" in
  pose proof (train_anatomy kw self) as Ha; unfold anatomy in Ha; cbv zeta in Ha;
  destruct (value (trial_setup kw self)) as [[]|?] eqn:Hsetup;
  [destruct (load (final (trial_setup kw self)))
     as [[[[x_train y_train] x_test] y_test]|?] eqn:Hload;
   [destruct (model (final (trial_setup kw self))) as [m|] eqn:Hmodel|]|];
  destruct Ha as (Hvalue & Hfinal & Htrace).

Lemma head_phase_quiet kw m x_train y_train x_test y_test s bs :
  seedings (head_phase kw m x_train y_train x_test y_test s bs) = [] ∧
  warnings (head_phase kw m x_train y_train x_test y_test s bs) = [] ∧
  pair_passes (head_phase kw m x_train y_train x_test y_test s bs) = [] ∧
  body_calls (head_phase kw m x_train y_train x_test y_test s bs) = [] ∧
  predictions (head_phase kw m x_train y_train x_test y_test s bs) = [].
Proof. unfold head_phase. by case_match. Qed.

Lemma phases_final kw m rng x_train y_train x_test y_test s s' :
  final (phases kw m rng x_train y_train x_test y_test s s') = s'.
Proof.
  pose proof (phases_trace kw m rng x_train y_train x_test y_test s s') as [Hs _].
  done.
Qed.

(** The two phases seed nothing, warn of nothing and predict nothing. *)
Lemma phases_quiet kw m rng x_train y_train x_test y_test s s' :
  let tr := trace (phases kw m rng x_train y_train x_test y_test s s') in
  seedings tr = [] ∧ warnings tr = [] ∧ predictions tr = [].
Proof.
  pose proof (phases_trace kw m rng x_train y_train x_test y_test s s') as [_ Hp].
  unfold wp in Hp. simpl.
  destruct (head_phase_quiet kw m x_train y_train x_test y_test s
              (or_int (kw_batch_size kw) (batch_size s))) as (H1 & H2 & _ & _ & H3).
  case_match.
  - destruct Hp as (pre & k & Hpre & _ & _ & Htr).
    destruct (preparation_quiet _ Hpre) as (Hs & Hw & _ & _ & Hpr).
    destruct (value (phases _ _ _ _ _ _ _ _ _)).
    + destruct Htr as (_ & call & bs' & -> & _).
      destruct (head_phase_quiet kw m x_train y_train x_test y_test s bs')
        as (H1' & H2' & _ & _ & H3').
      unfold seedings, warnings, predictions in *.
      change (BodyFit call :: ?l) with ([BodyFit call] ++ l).
      by rewrite !omap_app, Hs, Hw, Hpr, H1', H2', H3'.
    + by rewrite Htr.
  - destruct Hp as [_ ->]. done.
Qed.

Lemma logs_app tr tr' :
  Forall (λ e, is_log e = true) tr → Forall (λ e, is_log e = true) tr' →
  Forall (λ e, is_log e = true) (tr ++ tr').
Proof. intros. by apply Forall_app. Qed.

(** *** Seeding *)

(** X1: every call to [train] seeds the random generators first, with the
    seed the trainer held when the call was made, and seeds nothing again:
    a seed a trial assigns is used by the next call only. *)
Theorem train_seeds_once kw self :
  ∃ tr, trace (train kw self) = SetSeed (seed self) :: tr ∧ seedings tr = [].
Proof.
  pose proof (trial_setup_logs kw self) as Hlogs.
  train_cases kw self; rewrite Htrace; eexists; (split; [done|]).
  - destruct (phases_quiet kw m {| rng_seed := seed self; rng_draws := 0 |}
                x_train y_train x_test y_test (final (trial_setup kw self))
                (with_default_loss (final (trial_setup kw self)))) as (Hs & _).
    unfold seedings in *. rewrite !omap_app, Hs, app_nil_r. fold (seedings).
    rewrite <-!omap_app. apply logs_quiet.
    repeat apply logs_app; auto using load_log_logs, loss_log_logs.
  - apply logs_quiet. repeat apply logs_app; auto using load_log_logs, loss_log_logs.
  - apply logs_quiet. repeat apply logs_app; auto using load_log_logs, loss_log_logs.
  - by apply logs_quiet.
Qed.

(** *** What [train] leaves of the trainer *)

Lemma with_default_loss_frame s : frame s (with_default_loss s).
Proof. unfold frame, with_default_loss. case_bool_decide; auto. Qed.

Lemma with_default_loss_class s :
  loss_class (with_default_loss s) = Some (default CosineSimilarityLoss (loss_class s)).
Proof.
  unfold with_default_loss. case_bool_decide as Hcls; [by rewrite Hcls|].
  by destruct (loss_class s).
Qed.

Lemma with_default_loss_id s : loss_class s ≠ None → with_default_loss s = s.
Proof. unfold with_default_loss. by case_bool_decide. Qed.

(** Take apart a call to [train] made outside a hyperparameter search. *)
Ltac train_cases_inactive kw self Hin :=
  let Ha := fresh "Ha" in
  pose proof (train_anatomy kw self) as Ha; unfold anatomy in Ha; cbv zeta in Ha;
  rewrite (trial_setup_inactive kw self Hin) in Ha; simpl in Ha;
  destruct (load self) as [[[[x_train y_train] x_test] y_test]|?] eqn:Hload;
  [destruct (model self) as [m|] eqn:Hmodel|];
  destruct Ha as (Hvalue & Hfinal & Htrace).

(** X2: without a training dataset [train] raises the [ValueError] of
    trainer.py:382 as soon as it has seeded: nothing is logged, generated
    or fitted, and the trainer is as it was.  (Outside a hyperparameter
    search, where a trial could assign the dataset first.) *)
Theorem train_requires_train_dataset kw self :
  train_dataset self = None → search_inactive self kw →
  value (train kw self) = Raise (ValueError TrainingRequiresDataset) ∧
  final (train kw self) = self ∧
  trace (train kw self) = [SetSeed (seed self)].
Proof.
  intros Hds Hin. train_cases_inactive kw self Hin.
  all: unfold load in Hload; rewrite Hds in Hload; simplify_eq.
  unfold load_log in Htrace. by rewrite Hds in Htrace.
Qed.

Lemma load_log_warnings s : warnings (load_log s) = [].
Proof. unfold load_log. by repeat case_match. Qed.

(** X3: outside a hyperparameter search [train] assigns one attribute at
    most: once the columns are loaded, a missing loss class is replaced by
    [CosineSimilarityLoss], with one warning, and the replacement stays,
    so that a later call does not warn again; every other attribute of
    the record holds what it held, also when the trainer has a loss class
    or the call raises.  (The two history dictionaries, which the fits
    fill through their callbacks, are not attributes of the record.) *)
Theorem train_only_defaults_loss kw self :
  search_inactive self kw →
  (loss_class self ≠ None →
     final (train kw self) = self ∧ warnings (trace (train kw self)) = []) ∧
  (∀ e, load self = Raise e →
     final (train kw self) = self ∧ warnings (trace (train kw self)) = []) ∧
  (∀ cols, load self = Ok cols → loss_class self = None →
     final (train kw self) = set_loss_class (Some CosineSimilarityLoss) self ∧
     warnings (trace (train kw self)) = [NoLossClassDetected]) ∧
  (∀ cols, load self = Ok cols → loss_class (final (train kw self)) ≠ None).
Proof.
  intros Hin.
  assert (∀ tr, warnings (SetSeed (seed self) :: load_log self ++ loss_log self ++ tr)
                = warnings (loss_log self) ++ warnings tr) as Hw.
  { intros tr. unfold warnings. simpl. rewrite !omap_app.
    fold (warnings (load_log self)). by rewrite load_log_warnings. }
  assert (loss_class self ≠ None → warnings (loss_log self) = []) as Hsome.
  { intros Hcls. unfold loss_log. by rewrite bool_decide_eq_false_2. }
  assert (loss_class self = None → warnings (loss_log self) = [NoLossClassDetected]) as Hnone.
  { intros Hcls. unfold loss_log. by rewrite bool_decide_eq_true_2. }
  assert (loss_class self = None →
          with_default_loss self = set_loss_class (Some CosineSimilarityLoss) self) as Hdef.
  { intros Hcls. unfold with_default_loss. by rewrite bool_decide_eq_true_2. }
  train_cases_inactive kw self Hin.
  - rewrite phases_final in Hfinal.
    destruct (phases_quiet kw m {| rng_seed := seed self; rng_draws := 0 |}
                x_train y_train x_test y_test self (with_default_loss self)) as (_ & Hp & _).
    rewrite Hfinal, Htrace, Hw, Hp, app_nil_r. split_and!.
    + intros Hcls. by rewrite with_default_loss_id, Hsome.
    + done.
    + intros _ _ Hcls. by rewrite Hdef, Hnone.
    + intros _ _. by rewrite with_default_loss_class.
  - rewrite Hfinal, Htrace. specialize (Hw []). rewrite !app_nil_r in Hw. rewrite Hw.
    split_and!.
    + intros Hcls. by rewrite with_default_loss_id, Hsome.
    + done.
    + intros _ _ Hcls. by rewrite Hdef, Hnone.
    + intros _ _. by rewrite with_default_loss_class.
  - rewrite Hfinal, Htrace. unfold warnings. simpl. fold (warnings (load_log self)).
    rewrite load_log_warnings. by split_and!.
Qed.

(** *** The body fit *)

Lemma logs_no_work z tr tr' :
  Forall (λ e, is_log e = true) tr →
  body_calls (SetSeed z :: tr ++ tr') = body_calls tr' ∧
  head_calls (SetSeed z :: tr ++ tr') = head_calls tr' ∧
  pair_passes (SetSeed z :: tr ++ tr') = pair_passes tr'.
Proof.
  intros (_ & Hp & Hb & Hh & _)%logs_quiet. unfold body_calls, head_calls, pair_passes in *.
  simpl. by rewrite !omap_app, Hp, Hb, Hh.
Qed.

Lemma train_logs kw self :
  Forall (λ e, is_log e = true)
    (trace (trial_setup kw self) ++ load_log (final (trial_setup kw self))
       ++ loss_log (final (trial_setup kw self))).
Proof.
  repeat apply logs_app; auto using trial_setup_logs, load_log_logs, loss_log_logs.
Qed.

(** What [train] generated and fitted is what its two phases did, if it
    got that far, and nothing otherwise. *)
Lemma train_work kw self :
  let s := final (trial_setup kw self) in
  (∃ m x_train y_train x_test y_test,
     model s = Some m ∧ load s = Ok (x_train, y_train, x_test, y_test) ∧
     final (train kw self) = with_default_loss s ∧
     let p := phases kw m {| rng_seed := seed self; rng_draws := 0 |}
                x_train y_train x_test y_test s (with_default_loss s) in
     value (train kw self) = value p ∧
     body_calls (trace (train kw self)) = body_calls (trace p) ∧
     head_calls (trace (train kw self)) = head_calls (trace p) ∧
     pair_passes (trace (train kw self)) = pair_passes (trace p)) ∨
  ((∃ e, value (train kw self) = Raise e) ∧
   body_calls (trace (train kw self)) = [] ∧ head_calls (trace (train kw self)) = [] ∧
   pair_passes (trace (train kw self)) = []).
Proof.
  pose proof (train_logs kw self) as Hlogs.
  pose proof (trial_setup_logs kw self) as Hlogs0.
  train_cases kw self.
  - left. exists m, x_train, y_train, x_test, y_test. rewrite phases_final in Hfinal.
    rewrite !app_assoc, <-(app_assoc (trace _) (load_log _)) in Htrace.
    destruct (logs_no_work (seed self) _
                (trace (phases kw m {| rng_seed := seed self; rng_draws := 0 |}
                          x_train y_train x_test y_test (final (trial_setup kw self))
                          (with_default_loss (final (trial_setup kw self))))) Hlogs)
      as (Hb & Hh & Hp).
    rewrite Htrace. by split_and!.
  - right. split; [by eexists|]. rewrite Htrace.
    rewrite <-(app_nil_r (loss_log _)), !app_assoc, <-(app_assoc (trace _) (load_log _)).
    apply (logs_no_work (seed self) _ [] Hlogs).
  - right. split; [by eexists|]. rewrite Htrace.
    rewrite <-(app_nil_r (load_log _)), app_assoc.
    apply (logs_no_work (seed self) _ []).
    apply logs_app; [done|apply load_log_logs].
  - right. split; [by eexists|]. rewrite Htrace.
    rewrite <-(app_nil_r (trace _)). by apply (logs_no_work (seed self) _ []).
Qed.

Lemma with_default_loss_fields s :
  model (with_default_loss s) = model s ∧ _freeze (with_default_loss s) = _freeze s ∧
  num_epochs (with_default_loss s) = num_epochs s ∧
  batch_size (with_default_loss s) = batch_size s ∧
  learning_rate (with_default_loss s) = learning_rate s.
Proof.
  destruct (frame_fields _ _ (with_default_loss_frame s)) as (? & ? & ? & ? & ? & _).
  by split_and!.
Qed.

(** Every call [model_body.fit] received in a call to [train] is the one
    call of the body-training phase, run on the trainer [train] leaves. *)
Lemma train_body_call kw self call :
  call ∈ body_calls (trace (train kw self)) →
  let self' := final (train kw self) in
  ∃ m x_train y_train x_test y_test bs',
    model self' = Some m ∧ load self' = Ok (x_train, y_train, x_test, y_test) ∧
    body_guard m self' = true ∧
    body_calls (trace (train kw self)) = [call] ∧
    body_call_shape self' m x_test y_test (kw_show_progress_bar kw) (kw_log_steps kw) call ∧
    body_call_ok self' x_train y_train (resolved_epochs kw self')
      (resolved_batch_size kw self') (resolved_learning_rate kw self') call bs'.
Proof.
  intros Hcall. simpl.
  destruct (train_work kw self) as
    [(m & x_train & y_train & x_test & y_test & Hm & Hload & Hfinal & _ & Hb & _)
    |(_ & Hb & _)]; [|rewrite Hb in Hcall; by apply elem_of_nil in Hcall].
  rewrite Hb in Hcall |- *. rewrite Hfinal. clear Hb Hfinal.
  set (s := final (trial_setup kw self)) in *.
  destruct (with_default_loss_fields s) as (Hm' & Hf' & He' & Hb' & Hl').
  pose proof (phases_trace kw m {| rng_seed := seed self; rng_draws := 0 |}
                x_train y_train x_test y_test s (with_default_loss s)) as [_ Hp].
  unfold body_guard, resolved_epochs, resolved_batch_size, resolved_learning_rate.
  rewrite Hm', Hf', He', Hb', Hl', (load_frame s) by apply with_default_loss_frame.
  unfold wp in Hp. destruct (negb (has_differentiable_head m) || _freeze s) eqn:Hguard.
  - destruct Hp as (pre & k & Hpre & _ & _ & Htr).
    destruct (preparation_quiet _ Hpre) as (_ & _ & Hnone & _).
    destruct (value (phases _ _ _ _ _ _ _ _ _)).
    + destruct Htr as (_ & call' & bs' & Htr & Hshape & Hok). rewrite Htr in Hcall |- *.
      destruct (head_phase_quiet kw m x_train y_train x_test y_test s bs')
        as (_ & _ & _ & Hhead & _).
      assert (body_calls (pre ++ BodyFit call'
                :: head_phase kw m x_train y_train x_test y_test s bs') = [call']) as Hcalls.
      { change (BodyFit call' :: ?l) with ([BodyFit call'] ++ l).
        by rewrite !body_calls_app, Hnone, Hhead. }
      rewrite Hcalls in Hcall |- *. apply list_elem_of_singleton in Hcall as ->.
      exists m, x_train, y_train, x_test, y_test, bs'. by split_and!.
    + rewrite Htr, Hnone in Hcall. by apply elem_of_nil in Hcall.
  - destruct Hp as [_ Htr]. rewrite Htr in Hcall.
    destruct (head_phase_quiet kw m x_train y_train x_test y_test s
                (or_int (kw_batch_size kw) (batch_size s))) as (_ & _ & _ & Hhead & _).
    rewrite Hhead in Hcall. by apply elem_of_nil in Hcall.
Qed.

(** X4: the number of pair-generation passes.  Under a triplet-family or
    supervised-contrastive loss [num_iterations] is ignored: no pass is
    made.  Under any other loss a call that fits the body has made exactly
    [num_iterations] passes before (none if the number is negative), all
    of them multi-label passes if the model has a [multi_target_strategy]
    and single-label ones otherwise.  A call that skips the body phase
    generates nothing. *)
Theorem pair_generation_passes kw self :
  let self' := final (train kw self) in
  let tr := trace (train kw self) in
  (loss_class self' ∈ Some <$> triplet_family → pair_passes tr = []) ∧
  (∀ m, model self' = Some m → body_guard m self' = false → pair_passes tr = []) ∧
  (∀ m, body_calls tr ≠ [] → model self' = Some m →
        loss_class self' ∉ Some <$> triplet_family →
        pair_passes tr = replicate (Z.to_nat (num_iterations self'))
                           (bool_decide (is_Some (multi_target_strategy m)))).
Proof.
  simpl.
  destruct (train_work kw self) as
    [(m & x_train & y_train & x_test & y_test & Hm & Hload & Hfinal & _ & Hb & _ & Hpairs)
    |(_ & Hb & _ & Hpairs)]; [|by rewrite Hb, Hpairs].
  rewrite Hb, Hpairs, Hfinal. clear Hb Hpairs Hfinal.
  set (s := final (trial_setup kw self)) in *.
  destruct (with_default_loss_fields s) as (Hm' & Hf' & _).
  pose proof (phases_trace kw m {| rng_seed := seed self; rng_draws := 0 |}
                x_train y_train x_test y_test s (with_default_loss s)) as [_ Hp].
  unfold body_guard. rewrite Hm', Hf', Hm.
  unfold wp in Hp. destruct (negb (has_differentiable_head m) || _freeze s) eqn:Hguard.
  - destruct Hp as (pre & k & Hpre & Hpass & Hk & Htr).
    destruct (preparation_quiet _ Hpre) as (_ & _ & Hnone & _).
    assert (pair_passes (trace (phases kw m {| rng_seed := seed self; rng_draws := 0 |}
              x_train y_train x_test y_test s (with_default_loss s))) = pair_passes pre ∧
            (body_calls (trace (phases kw m {| rng_seed := seed self; rng_draws := 0 |}
               x_train y_train x_test y_test s (with_default_loss s))) ≠ [] →
             k = Z.to_nat (num_iterations (with_default_loss s))))
      as [-> Hfit].
    { destruct (value (phases _ _ _ _ _ _ _ _ _)); [|by rewrite Htr].
      destruct Htr as (-> & call & bs' & -> & _).
      destruct (head_phase_quiet kw m x_train y_train x_test y_test s bs')
        as (_ & _ & Hhead & _).
      change (BodyFit call :: ?l) with ([BodyFit call] ++ l).
      by rewrite !pair_passes_app, Hhead, app_nil_r. }
    rewrite Hpass. split_and!.
    + intros Hcls. by rewrite bool_decide_eq_true_2.
    + intros ? [= <-]. by rewrite Hguard.
    + intros ? Hcalls [= <-] Hcls. rewrite bool_decide_eq_false_2 by done.
      by rewrite (Hfit Hcalls).
  - destruct Hp as [_ ->].
    destruct (head_phase_quiet kw m x_train y_train x_test y_test s
                (or_int (kw_batch_size kw) (batch_size s))) as (_ & _ & -> & -> & _).
    by split_and!.
Qed.

(** Whether a loader that drops its last batch delivers any. *)
Lemma collate_any {A} bs (stream : list A) :
  (0 < bs)%nat →
  ((length stream < bs)%nat → collate bs true [] stream = []) ∧
  ((bs ≤ length stream)%nat → collate bs true [] stream ≠ []).
Proof.
  intros Hbs. destruct (collate_full bs [] stream Hbs) as (Hfull & rest & Heq & Hrest);
    [simpl; lia|].
  simpl in Heq. split.
  - intros Hshort. destruct (collate bs true [] stream) as [|b batches]; [done|].
    apply Forall_cons in Hfull as [Hb _]. rewrite Heq in Hshort. simpl in Hshort.
    rewrite !length_app in Hshort. lia.
  - intros Hlong Hnone. rewrite Hnone in Heq. simpl in Heq. subst. lia.
Qed.

(** X5: the evaluator handed to the body fit (trainer.py:427-429 and
    trainer.py:467-469) measures the loss the fit optimises: it carries
    the loss module of the fit itself, and a dataloader made like the
    training one, with the same batch size, shuffling and [drop_last].
    Under a triplet-family loss that batch size is the one capped by the
    training sampler and the loader is over a label-grouped sampler of
    the evaluation columns with [drop_last] on.  Its [len()] is zero if
    the evaluation sampler holds fewer examples than one batch; a pass
    over it (for a positive [samples_per_label]) delivers full batches
    only, at least one if the sampler holds a batch of examples, and
    none if its examples and one more group do not fill a batch. *)
Theorem body_fit_evaluator kw self call :
  call ∈ body_calls (trace (train kw self)) →
  let self' := final (train kw self) in
  let train_dataloader := bf_train_dataloader call in
  let test_dataloader := (bf_evaluator call).1 in
  (bf_evaluator call).2 = bf_train_loss call ∧
  dl_batch_size test_dataloader = dl_batch_size train_dataloader ∧
  dl_shuffle test_dataloader = dl_shuffle train_dataloader ∧
  dl_drop_last test_dataloader = dl_drop_last train_dataloader ∧
  (loss_class self' ∈ Some <$> triplet_family →
     ∃ x_train y_train x_test y_test sampler,
       load self' = Ok (x_train, y_train, x_test, y_test) ∧
       new_SentenceLabelDataset (examples_of x_test y_test) (samples_per_label self')
         = Ok sampler ∧
       dl_dataset test_dataloader = LabelSampler sampler ∧
       dl_drop_last test_dataloader = true ∧ dl_shuffle test_dataloader = false ∧
       (sld_len sampler < dl_batch_size train_dataloader → dl_len test_dataloader = 0) ∧
       ∀ r, fair r → 0 < samples_per_label self' →
         let batches := sampler_batches r test_dataloader sampler in
         Forall (λ b, Z.of_nat (length b) = dl_batch_size train_dataloader) batches ∧
         (dl_batch_size train_dataloader <= sld_len sampler → batches ≠ []) ∧
         (sld_len sampler + samples_per_label self' <= dl_batch_size train_dataloader →
          batches = [])).
Proof.
  intros (m & x_train & y_train & x_test & y_test & bs' & _ & Hload & _ & _ & Hshape & Hok)
    %train_body_call. simpl.
  destruct Hshape as (Hloss & Hbs & Hsh & Hdrop & _ & _ & _ & cls & Hcls & Hbranch).
  split_and!; try done. intros Htriplet.
  rewrite (bool_decide_eq_true_2 _ Htriplet) in Hbranch.
  destruct Hbranch as (_ & Hshuffle & sampler & Hsampler & Hds).
  unfold body_call_ok in Hok. rewrite (bool_decide_eq_true_2 _ Htriplet) in Hok.
  destruct Hok as (_ & _ & _ & Hpos & _ & _ & Hdrop' & _).
  exists x_train, y_train, x_test, y_test, sampler. split_and!; try done; try congruence.
  - intros Hsmall. unfold dl_len, dl_size. rewrite Hdrop, Hdrop', Hds, Hbs. simpl.
    apply Z.div_small. unfold sld_len in Hsmall. lia.
  - intros r Hfair Hspl. unfold sampler_batches. rewrite Hdrop, Hdrop', Hbs.
    destruct (sampler_groups _ _ _ Hsampler) as [Hs Hgroups].
    assert (sld_len sampler <= Z.of_nat (length (concat (sld_iter r sampler)))
            < sld_len sampler + sld_samples_per_label sampler) as [Hlow Hhigh].
    { apply sld_iter_length; [done|by rewrite Hs|].
      rewrite Hs. eapply Forall_impl; [exact Hgroups|]. by intros g [? _]. }
    rewrite Hs in Hhigh.
    set (bs := Z.to_nat (dl_batch_size (bf_train_dataloader call))).
    assert (0 < bs)%nat as Hbspos by (unfold bs; lia).
    destruct (collate_full bs [] (concat (sld_iter r sampler)) Hbspos) as [Hfull _];
      [simpl; lia|].
    destruct (collate_any bs (concat (sld_iter r sampler)) Hbspos) as [Hnone Hsome].
    split_and!.
    + eapply Forall_impl; [exact Hfull|]. simpl. unfold bs. intros b Hb. lia.
    + intros Hle. apply Hsome. unfold bs. lia.
    + intros Hle. apply Hnone. unfold bs. lia.
Qed.

(** X6: the arguments each loss class is constructed with
    (trainer.py:431-443 and trainer.py:465): always the model body; the
    distance metric for the four triplet losses only; the margin for the
    three of them other than [BatchHardSoftMarginTripletLoss] only.  The
    class is the trainer's [loss_class], which is never missing when the
    body is fitted. *)
Theorem body_fit_loss_binding kw self call :
  call ∈ body_calls (trace (train kw self)) →
  let self' := final (train kw self) in
  let loss := bf_train_loss call in
  ∃ m cls,
    model self' = Some m ∧ loss_class self' = Some cls ∧
    lm_class loss = cls ∧ lm_model loss = model_body m ∧
    lm_distance_metric loss
    = (if bool_decide (cls ∈ [BatchAllTripletLoss; BatchHardTripletLoss;
                              BatchSemiHardTripletLoss; BatchHardSoftMarginTripletLoss])
       then Some (distance_metric self') else None) ∧
    lm_margin loss
    = (if bool_decide (cls ∈ [BatchAllTripletLoss; BatchHardTripletLoss;
                              BatchSemiHardTripletLoss])
       then Some (margin self') else None).
Proof.
  intros (m & x_train & y_train & x_test & y_test & bs' & Hm & _ & _ & _ & Hshape & _)
    %train_body_call. simpl.
  destruct Hshape as (_ & _ & _ & _ & _ & _ & _ & cls & Hcls & Hbranch).
  exists m, cls. split; [done|]. split; [done|]. rewrite Hcls in Hbranch.
  clear Hm Hcls. generalize dependent (final (train kw self)). intros self'.
  generalize (bf_train_loss call). intros loss.
  destruct cls; vm_compute; by intros (-> & _).
Qed.

(** *** The two phases together *)

(** X7: for a model whose head is not differentiable a call to [train]
    that returns has ended with the body fit followed at once by the head
    fit, and with nothing fitted before; the head fit is given the epochs
    and the learning rate of the body fit, the four columns [train]
    loaded, and as its batch size the batch size of the body's dataloader
    (under a triplet-family loss that is the size capped by the sampler,
    not the resolved [batch_size]). *)
Theorem train_fits_body_then_head kw self m :
  value (train kw self) = Ok tt →
  model (final (train kw self)) = Some m → has_differentiable_head m = false →
  ∃ pre body_call head_call,
    trace (train kw self) = pre ++ [BodyFit body_call; HeadFit head_call] ∧
    body_calls pre = [] ∧ head_calls pre = [] ∧
    hf_num_epochs head_call = bf_epochs body_call ∧
    hf_learning_rate head_call = bf_lr body_call ∧
    hf_batch_size head_call = dl_batch_size (bf_train_dataloader body_call) ∧
    load (final (train kw self))
    = Ok (hf_x_train head_call, hf_y_train head_call, hf_x_test head_call, hf_y_test head_call).
Proof.
  intros Hret Hm Hhead. rename m into m0.
  pose proof (train_logs kw self) as Hlogs.
  train_cases kw self; rewrite Hret in Hvalue; try done.
  rewrite phases_final in Hfinal. rewrite Hfinal in Hm |- *.
  set (s := final (trial_setup kw self)) in *.
  destruct (with_default_loss_fields s) as (Hm' & _).
  assert (m0 = m) as -> by congruence. clear Hm.
  pose proof (phases_trace kw m {| rng_seed := seed self; rng_draws := 0 |}
                x_train y_train x_test y_test s (with_default_loss s)) as [_ Hp].
  unfold wp in Hp. rewrite <-Hvalue, Hhead in Hp. simpl in Hp.
  destruct Hp as (pre & k & Hpre & _ & _ & _ & call & bs' & Htr & _ & Hok).
  unfold head_phase in Htr. rewrite Hhead in Htr. simpl in Htr.
  exists (SetSeed (seed self) :: (trace (trial_setup kw self) ++ load_log s ++ loss_log s)
            ++ pre), call, (head_fit_call kw x_train y_train x_test y_test s bs').
  destruct (logs_quiet _ Hlogs) as (_ & _ & Hb1 & Hh1 & _).
  destruct (preparation_quiet _ Hpre) as (_ & _ & Hb2 & Hh2 & _).
  destruct Hok as (He & Hlr & _ & _ & Hbs & _).
  split_and!.
  - rewrite Htrace, Htr. simpl. by rewrite <-!app_assoc.
  - unfold body_calls in *. simpl. by rewrite omap_app, Hb1, Hb2.
  - unfold head_calls in *. simpl. by rewrite omap_app, Hh1, Hh2.
  - by rewrite He.
  - by rewrite Hlr.
  - done.
  - by rewrite (load_frame s) by apply with_default_loss_frame.
Qed.

(** The pair generation reads nothing of the trainer. *)
Lemma generate_pairs_value passes ml rng x_train y_train x_test y_test acc acc' s s' :
  value (generate_pairs passes ml rng x_train y_train x_test y_test acc acc' s)
  = value (generate_pairs passes ml rng x_train y_train x_test y_test acc acc' s').
Proof.
  revert rng acc acc'. induction passes as [|n IH]; intros; [done|]. simpl.
  unfold mbind, M_bind, emit, lift. simpl.
  destruct ((if ml then sentence_pairs_generation_multilabel else sentence_pairs_generation)
              rng (values x_train) (values y_train) acc) as [l|]; simpl; [|done].
  destruct ((if ml then sentence_pairs_generation_multilabel else sentence_pairs_generation)
              (next_draw rng) (values x_test) (values y_test) acc') as [l'|]; simpl; [|done].
  specialize (IH (next_draw (next_draw rng)) l l').
  destruct (generate_pairs n ml _ _ _ _ _ l l' s) as [v1 s1 tr1],
           (generate_pairs n ml _ _ _ _ _ l l' s') as [v2 s2 tr2].
  simpl in IH. subst. by destruct v2.
Qed.

(** The data loaders the body-training phase cannot build. *)
Lemma train_body_loader_error m rng x_train y_train x_test y_test epochs bs lr spb ls self :
  (loss_class self ∈ Some <$> triplet_family →
   ∀ sampler,
     new_SentenceLabelDataset (examples_of x_train y_train) (samples_per_label self)
       = Ok sampler →
     Z.min bs (sld_len sampler) <= 0 →
     value (train_body m rng x_train y_train x_test y_test epochs bs lr spb ls self)
     = Raise (LibValueError "batch_size should be a positive integer value")) ∧
  (loss_class self ∉ Some <$> triplet_family →
   ∀ train_examples test_examples,
     value (generate_pairs (Z.to_nat (num_iterations self))
              (bool_decide (is_Some (multi_target_strategy m))) rng
              x_train y_train x_test y_test [] [] self)
     = Ok (train_examples, test_examples) →
     (train_examples = [] →
      value (train_body m rng x_train y_train x_test y_test epochs bs lr spb ls self)
      = Raise (LibValueError "num_samples should be a positive integer value")) ∧
     (train_examples ≠ [] → bs <= 0 →
      value (train_body m rng x_train y_train x_test y_test epochs bs lr spb ls self)
      = Raise (LibValueError "batch_size should be a positive integer value"))).
Proof.
  split.
  - intros Hcls sampler Hsampler Hbs.
    cut (wp (train_body m rng x_train y_train x_test y_test epochs bs lr spb ls) self
           (λ v _ _, v = Raise (LibValueError "batch_size should be a positive integer value")));
      [done|].
    unfold train_body. do 3 wp_step. rewrite (bool_decide_eq_true_2 _ Hcls).
    do 2 wp_step. rewrite Hsampler. cbv beta iota zeta.
    do 2 wp_step. unfold new_DataLoader. by rewrite (proj2 (Z.leb_le _ _) Hbs).
  - intros Hcls train_examples test_examples Hpairs.
    assert (∀ e,
      new_DataLoader (ExampleList train_examples) bs true false = Raise e →
      value (train_body m rng x_train y_train x_test y_test epochs bs lr spb ls self)
      = Raise e) as Hloader.
    { intros e He.
      cut (wp (train_body m rng x_train y_train x_test y_test epochs bs lr spb ls) self
             (λ v _ _, v = Raise e)); [done|].
      unfold train_body. do 3 wp_step. rewrite (bool_decide_eq_false_2 _ Hcls).
      wp_step. wp_use wp_exact. intros (-> & _ & _). rewrite Hpairs. cbv beta iota zeta.
      do 2 wp_step. by rewrite He. }
    split.
    + intros ->. by apply Hloader.
    + intros Hne Hbs. apply Hloader. unfold new_DataLoader.
      destruct train_examples; [done|]. simpl. by rewrite (proj2 (Z.leb_le _ _) Hbs).
Qed.

Lemma default_loss_triplet s :
  bool_decide (loss_class (with_default_loss s) ∈ Some <$> triplet_family)
  = bool_decide (loss_class s ∈ Some <$> triplet_family).
Proof.
  unfold with_default_loss. destruct (loss_class s) as [cls|] eqn:Hcls.
  - rewrite (bool_decide_eq_false_2 (Some cls = None)) by done. by rewrite Hcls.
  - by rewrite (bool_decide_eq_true_2 (@None loss_class_t = None)) by done.
Qed.

Lemma phases_raise kw m rng x_train y_train x_test y_test s s' e :
  value (phases kw m rng x_train y_train x_test y_test s s') = Raise e →
  body_calls (trace (phases kw m rng x_train y_train x_test y_test s s')) = [] ∧
  head_calls (trace (phases kw m rng x_train y_train x_test y_test s s')) = [].
Proof.
  intros Hv.
  pose proof (phases_trace kw m rng x_train y_train x_test y_test s s') as [_ Hp].
  unfold wp in Hp. rewrite Hv in Hp. case_match.
  - destruct Hp as (pre & k & (_ & _ & ? & ? & _)%preparation_quiet & _ & _ & ->). done.
  - by destruct Hp.
Qed.

Lemma phases_body_raise kw m rng x_train y_train x_test y_test s s' e :
  negb (has_differentiable_head m) || _freeze s = true →
  value (train_body m rng x_train y_train x_test y_test
           (or_int (kw_num_epochs kw) (num_epochs s))
           (or_int (kw_batch_size kw) (batch_size s))
           (or_float (kw_learning_rate kw) (learning_rate s))
           (kw_show_progress_bar kw) (kw_log_steps kw) s') = Raise e →
  value (phases kw m rng x_train y_train x_test y_test s s') = Raise e.
Proof.
  intros Hguard Hv. unfold phases, mbind, M_bind. rewrite Hguard.
  destruct (train_body _ _ _ _ _ _ _ _ _ _ _ _) as [[?|?] ? ?]; simpl in *; congruence.
Qed.

(** X8: a data loader that cannot be built stops [train] before anything
    is fitted.  Under a triplet-family loss it is the batch size: the
    resolved [batch_size] is not positive, or the label-grouped sampler
    is empty because no label has [samples_per_label] examples, so that
    the capped batch size is zero.  Under a pairwise loss, once the
    passes have generated the pairs, it is the shuffling loader over no
    pair at all, whatever the batch size, and otherwise a resolved
    [batch_size] that is not positive.  (Outside a hyperparameter
    search.) *)
Theorem train_rejects_empty_batches kw self m x_train y_train x_test y_test :
  search_inactive self kw →
  load self = Ok (x_train, y_train, x_test, y_test) →
  model self = Some m → body_guard m self = true →
  (loss_class self ∈ Some <$> triplet_family →
   ∀ sampler,
     new_SentenceLabelDataset (examples_of x_train y_train) (samples_per_label self)
       = Ok sampler →
     resolved_batch_size kw self <= 0 ∨ sld_len sampler = 0 →
     value (train kw self)
     = Raise (LibValueError "batch_size should be a positive integer value")) ∧
  (loss_class self ∉ Some <$> triplet_family →
   ∀ train_examples test_examples,
     generated_pairs self m x_train y_train x_test y_test
     = Ok (train_examples, test_examples) →
     (train_examples = [] →
      value (train kw self)
      = Raise (LibValueError "num_samples should be a positive integer value")) ∧
     (train_examples ≠ [] → resolved_batch_size kw self <= 0 →
      value (train kw self)
      = Raise (LibValueError "batch_size should be a positive integer value"))) ∧
  (∀ e, value (train kw self) = Raise e →
        body_calls (trace (train kw self)) = [] ∧ head_calls (trace (train kw self)) = []).
Proof.
  intros Hin Hload Hm Hguard.
  set (s' := with_default_loss self).
  assert (value (train kw self)
          = value (phases kw m {| rng_seed := seed self; rng_draws := 0 |}
                     x_train y_train x_test y_test self s')) as Hv.
  { pose proof (train_anatomy kw self) as Ha. unfold anatomy in Ha.
    rewrite (trial_setup_inactive kw self Hin) in Ha. simpl in Ha.
    rewrite Hload, Hm in Ha. by destruct Ha as (-> & _). }
  assert (∀ e,
    value (train_body m {| rng_seed := seed self; rng_draws := 0 |}
             x_train y_train x_test y_test
             (or_int (kw_num_epochs kw) (num_epochs self))
             (or_int (kw_batch_size kw) (batch_size self))
             (or_float (kw_learning_rate kw) (learning_rate self))
             (kw_show_progress_bar kw) (kw_log_steps kw) s') = Raise e →
    value (train kw self) = Raise e) as Hbody.
  { intros e He. rewrite Hv. by apply phases_body_raise. }
  assert (samples_per_label s' = samples_per_label self ∧
          num_iterations s' = num_iterations self ∧ seed s' = seed self) as (Hspl & Hit & Hseed).
  { unfold s', with_default_loss. by destruct (bool_decide (loss_class self = None)). }
  assert (loss_class s' ∈ Some <$> triplet_family ↔ loss_class self ∈ Some <$> triplet_family)
    as Hcls.
  { pose proof (default_loss_triplet self) as Hd. fold s' in Hd.
    split; intros H%(bool_decide_eq_true_2 _).
    - rewrite Hd in H. by apply bool_decide_eq_true in H.
    - rewrite <-Hd in H. by apply bool_decide_eq_true in H. }
  destruct (train_body_loader_error m {| rng_seed := seed self; rng_draws := 0 |}
              x_train y_train x_test y_test
              (or_int (kw_num_epochs kw) (num_epochs self))
              (or_int (kw_batch_size kw) (batch_size self))
              (or_float (kw_learning_rate kw) (learning_rate self))
              (kw_show_progress_bar kw) (kw_log_steps kw) s') as [Htriplet Hpair].
  split_and!.
  - intros Hloss sampler Hsampler Hbs. apply Hbody.
    apply (Htriplet (proj2 Hcls Hloss) sampler); [by rewrite Hspl|].
    unfold resolved_batch_size in Hbs.
    assert (0 <= sld_len sampler) by (unfold sld_len; lia). lia.
  - intros Hloss train_examples test_examples Hpairs.
    assert (loss_class s' ∉ Some <$> triplet_family) as Hloss' by (by rewrite Hcls).
    unfold generated_pairs in Hpairs.
    rewrite (generate_pairs_value _ _ _ _ _ _ _ _ _ self s') in Hpairs.
    rewrite <-Hit in Hpairs.
    destruct (Hpair Hloss' train_examples test_examples Hpairs) as [Hnone Hsome].
    split; [by intros ?; apply Hbody, Hnone|by intros ? ?; apply Hbody, Hsome].
  - intros e He.
    destruct (train_work kw self) as
      [(m' & x' & y' & xt' & yt' & Hm' & Hload' & _ & Hvp & Hb & Hh & _)|(_ & Hb & Hh & _)];
      [|done].
    rewrite Hb, Hh. rewrite Hvp in He. by apply phases_raise in He.
Qed.

(** *** Columns *)

Lemma validate_run d self :
  _validate_column_mapping d self
  = Outcome (value (_validate_column_mapping d self)) self [].
Proof.
  pose proof (validate_silent d self) as [Hs Htr]. unfold wp in *.
  destruct (_validate_column_mapping d self). simpl in *. by subst.
Qed.

(** X9: [_validate_column_mapping] is a pure check: it logs nothing and
    leaves the trainer as it is.  Without a column mapping it accepts a
    dataset exactly when the dataset has the columns [text] and [label];
    with a mapping it accepts exactly when the mapping reaches both [text]
    and [label] and starts from columns of the dataset: the dataset's own
    columns [text] and [label] are then neither required nor sufficient. *)
Theorem validate_accepts_iff d self :
  final (_validate_column_mapping (Some d) self) = self ∧
  trace (_validate_column_mapping (Some d) self) = [] ∧
  (value (_validate_column_mapping (Some d) self) = Ok tt ↔
   match column_mapping self with
   | None => required_columns ⊆ column_names d
   | Some mapping => required_columns ⊆ map_img mapping ∧ dom mapping ⊆ column_names d
   end).
Proof.
  rewrite (validate_run (Some d) self). simpl. split; [done|]. split; [done|].
  split.
  - unfold _validate_column_mapping, mbind, M_bind, get_self, raise, mret, M_ret.
    destruct (column_mapping self) as [mapping|] eqn:Hcm; simpl.
    + repeat case_bool_decide; simpl; try done. intros _. split; [|done].
      intros x Hx. destruct (decide (x ∈ (map_img mapping : gset string))) as [|Hno]; [done|].
      assert (x ∈ required_columns ∖ (map_img mapping : gset string)) as Hin
        by (by apply elem_of_difference).
      match goal with H : _ ∖ _ = ∅ |- _ => rewrite H in Hin end.
      by apply elem_of_empty in Hin.
    + destruct (decide (required_columns ⊆ column_names d)) as [|Hcols]; [done|].
      rewrite (bool_decide_eq_false_2 _ Hcols). simpl.
      destruct (is_DatasetDict d); case_bool_decide; simpl; done.
  - destruct (column_mapping self) as [mapping|] eqn:Hcm.
    + intros [Himg Hdom]. by apply (validate_mapped d mapping).
    + intros Hcols. by apply validate_plain.
Qed.

(** X10: what [_validate_column_mapping] raises.  Without a mapping: the
    error of trainer.py:159 for a [DatasetDict] whose only split is
    [train], the error of trainer.py:164 naming the splits for any other
    [DatasetDict], the error of trainer.py:169 naming the required and the
    found columns for a [Dataset].  With a mapping none of these three is
    ever raised, whatever the dataset: a mapping that misses [text] or
    [label] is reported with exactly the missing names, before the
    dataset's columns are looked at; only then a mapping from columns the
    dataset does not have. *)
Theorem validate_errors d self e :
  value (_validate_column_mapping (Some d) self) = Raise e →
  match column_mapping self with
  | None =>
      ¬ required_columns ⊆ column_names d ∧
      e = ValueError
            (if is_DatasetDict d then
               if bool_decide (column_names d = {["train"]}) then GotDatasetDictTrainSplit
               else GotDatasetDictSplits (column_names d)
             else MissingRequiredColumns required_columns (column_names d))
  | Some mapping =>
      if bool_decide (required_columns ⊆ map_img mapping) then
        ¬ dom mapping ⊆ column_names d ∧
        e = ValueError (MappingExpectsColumns (dom mapping) (column_names d))
      else e = ValueError (MappingMissesColumns (required_columns ∖ map_img mapping))
  end.
Proof.
  unfold _validate_column_mapping, mbind, M_bind, get_self, raise, mret, M_ret.
  destruct (column_mapping self) as [mapping|] eqn:Hcm; simpl.
  - destruct (decide (required_columns ∖ (map_img mapping : gset string) = ∅)) as [Hall|Hmiss].
    + rewrite (bool_decide_eq_true_2 _ Hall). simpl.
      assert (required_columns ⊆ (map_img mapping : gset string)) as Himg.
      { intros x Hx. destruct (decide (x ∈ (map_img mapping : gset string))) as [|Hno]; [done|].
        assert (x ∈ required_columns ∖ (map_img mapping : gset string)) as Hin
          by (by apply elem_of_difference).
        rewrite Hall in Hin. by apply elem_of_empty in Hin. }
      rewrite (bool_decide_eq_true_2 _ Himg).
      case_bool_decide; simpl; [done|]. by intros [= <-].
    + rewrite (bool_decide_eq_false_2 _ Hmiss). simpl. intros [= <-].
      rewrite bool_decide_eq_false_2; [done|]. intros Himg. apply Hmiss.
      apply set_eq. intros x. rewrite elem_of_difference, elem_of_empty. split; [|done].
      intros [Hx Hno]. by apply Hno, Himg.
  - destruct (decide (required_columns ⊆ column_names d)) as [Hcols|Hcols].
    + by rewrite (bool_decide_eq_true_2 _ Hcols).
    + rewrite (bool_decide_eq_false_2 _ Hcols). simpl.
      destruct (is_DatasetDict d); case_bool_decide; simpl; by intros [= <-].
Qed.

Lemma full_mapping_feature d mapping col :
  col ∈ (match d with Dataset t => t.*1 | DatasetDict s => s.*1 end) →
  mapping !! col = None →
  full_mapping d mapping !! col = Some ("feat_" +:+ col).
Proof.
  intros Hcol Hnone. unfold full_mapping. apply lookup_union_Some_l.
  apply elem_of_list_to_map_1'.
  - intros y (col' & [= <- ->] & _)%list_elem_of_fmap. done.
  - apply list_elem_of_fmap. exists col. split; [done|]. by apply list_elem_of_filter.
Qed.

Lemma full_mapping_name d mapping col :
  col ∈ (match d with Dataset t => t.*1 | DatasetDict s => s.*1 end) →
  full_mapping d mapping !! col = Some (mapped_name mapping col).
Proof.
  intros Hcol. unfold mapped_name. destruct (mapping !! col) as [new|] eqn:Hnew.
  - by apply full_mapping_lookup.
  - by apply full_mapping_feature.
Qed.

Lemma rename_all (full mapping : gmap string string) (t : table) :
  (∀ col, col ∈ t.*1 → full !! col = Some (mapped_name mapping col)) →
  (λ '(n, c), (default n (full !! n), c)) <$> t
  = (λ '(n, c), (mapped_name mapping n, c)) <$> t.
Proof.
  induction t as [|[n c] t IH]; intros Hfull; [done|]. simpl.
  rewrite (Hfull n) by (simpl; left). simpl. f_equal. apply IH.
  intros col Hcol. apply Hfull. simpl. by right.
Qed.

Lemma apply_mapping_table t mapping self d' :
  value (_apply_column_mapping (Dataset t) mapping self) = Ok d' →
  rename_table (full_mapping (Dataset t) mapping) t
  = Ok ((λ '(n, c), (mapped_name mapping n, c)) <$> t) ∧
  d' = Dataset ((λ '(n, c), (mapped_name mapping n, c)) <$> t).
Proof.
  rewrite apply_mapping_value. simpl.
  destruct (rename_table _ t) as [t'|e] eqn:Hren; [|done]. simpl. intros [= <-].
  assert (t' = (λ '(n, c), (mapped_name mapping n, c)) <$> t) as ->; [|done].
  unfold rename_table in Hren. repeat case_match; simplify_eq.
  apply rename_all. intros col Hcol. by apply (full_mapping_name (Dataset t)).
Qed.

(** X11: what [_apply_column_mapping] returns for a [Dataset]: the same
    columns, in the same order and with the same values, each under the
    name the mapping gives it or, if the mapping does not mention it,
    under its own name prefixed with [feat_]; the trainer is not touched
    and nothing is logged. *)
Theorem apply_column_mapping_renames t mapping self d' :
  value (_apply_column_mapping (Dataset t) mapping self) = Ok d' →
  d' = Dataset ((λ '(n, c), (mapped_name mapping n, c)) <$> t) ∧
  (∀ i n c, t !! i = Some (n, c) →
     ∃ t', d' = Dataset t' ∧
       t' !! i = Some (match mapping !! n with Some new => new | None => "feat_" +:+ n end, c)) ∧
  final (_apply_column_mapping (Dataset t) mapping self) = self ∧
  trace (_apply_column_mapping (Dataset t) mapping self) = [].
Proof.
  intros [_ ->]%apply_mapping_table. split; [done|].
  pose proof (apply_mapping_silent (Dataset t) mapping self) as [Hs Htr].
  split; [|done]. intros i n c Hi. eexists. split; [done|].
  unfold table in *. by rewrite list_lookup_fmap, Hi.
Qed.

Lemma nodup_fmap_inj {A B} (f : A → B) (l : list A) x y :
  NoDup (f <$> l) → x ∈ l → y ∈ l → f x = f y → x = y.
Proof.
  induction l as [|a l IH]; simpl; [by intros _ ?%elem_of_nil|].
  intros [Ha Hl]%NoDup_cons [->|Hx]%elem_of_cons [->|Hy]%elem_of_cons Hf; try done.
  - destruct Ha. rewrite Hf. by apply list_elem_of_fmap_2.
  - destruct Ha. rewrite <-Hf. by apply list_elem_of_fmap_2.
  - by apply IH.
Qed.

Lemma map_values_inj (m : gmap string string) i j x :
  NoDup (map_to_list m).*2 → m !! i = Some x → m !! j = Some x → i = j.
Proof.
  intros Hdup Hi%elem_of_map_to_list Hj%elem_of_map_to_list.
  by assert ((i, x) = (j, x)) as [= ->] by (by apply (nodup_fmap_inj snd (map_to_list m))).
Qed.

Lemma renamed_lookup (mapping : gmap string string) (t : table) key c :
  (∀ n, n ∈ t.*1 → mapped_name mapping n = mapped_name mapping key → n = key) →
  assoc key t = Some c →
  assoc (mapped_name mapping key) ((λ '(n, c), (mapped_name mapping n, c)) <$> t) = Some c.
Proof.
  induction t as [|[n c0] t IH]; simpl; [done|]. intros Hinj.
  case_bool_decide as Hn.
  - intros [= ->]. subst. by rewrite bool_decide_eq_true_2.
  - intros Hc. rewrite bool_decide_eq_false_2.
    + apply IH; [|done]. intros n' Hn'. apply Hinj. by right.
    + intros Heq. apply Hn, Hinj; [by left|done].
Qed.

Lemma renamed_origin (mapping : gmap string string) (t : table) name c :
  assoc name ((λ '(n, c), (mapped_name mapping n, c)) <$> t) = Some c →
  ∃ key, mapped_name mapping key = name ∧ assoc key t = Some c.
Proof.
  induction t as [|[n c0] t IH]; simpl; [done|].
  case_bool_decide as Hn.
  - intros [= ->]. exists n. by rewrite bool_decide_eq_true_2.
  - intros (key & Hkey & Hc)%IH. exists key. split; [done|].
    rewrite bool_decide_eq_false_2; [done|]. intros ->. by rewrite Hkey in Hn.
Qed.

(** X12: renaming moves no data.  After [_apply_column_mapping] every column
    of the dataset is found under its new name with the values it had,
    and every column of the result is one of the dataset's: in particular
    the columns [train] reads as [text] and [label] are the ones the
    mapping names. *)
Theorem mapped_columns_carry_data t mapping self d' :
  value (_apply_column_mapping (Dataset t) mapping self) = Ok d' →
  (∀ key c, getitem (Dataset t) key = Ok (Column c) →
     getitem d' (match mapping !! key with Some new => new | None => "feat_" +:+ key end)
     = Ok (Column c)) ∧
  (∀ name c, getitem d' name = Ok (Column c) →
     ∃ key, name = (match mapping !! key with Some new => new | None => "feat_" +:+ key end) ∧
            getitem (Dataset t) key = Ok (Column c)).
Proof.
  intros [Hren ->]%apply_mapping_table. unfold rename_table in Hren.
  repeat case_match; simplify_eq.
  match goal with H : negb (bool_decide (NoDup _)) = false |- _ =>
    apply negb_false_iff, bool_decide_eq_true in H; rename H into Hdup end.
  split.
  - intros key c Hget. simpl in *. destruct (assoc key t) as [c'|] eqn:Hc; simplify_eq.
    fold (mapped_name mapping key). rewrite (renamed_lookup mapping t key c); [done| |done].
    intros n Hn Heq. eapply (map_values_inj (full_mapping (Dataset t) mapping)); [done|..].
    + rewrite (full_mapping_name (Dataset t)) by done. by rewrite Heq.
    + apply (full_mapping_name (Dataset t)). simpl.
      assert (is_Some (assoc key t)) as Hk%assoc_is_Some by (by eexists).
      by apply elem_of_list_to_set in Hk.
  - intros name c Hget. simpl in Hget.
    destruct (assoc name _) as [c'|] eqn:Hc; simplify_eq.
    apply renamed_origin in Hc as (key & <- & Hc). exists key. split; [done|].
    simpl. by rewrite Hc.
Qed.

(** *** Construction and the model factory *)

Lemma call_model_init_run params self :
  call_model_init params self
  = Outcome
      (match model_init self with
       | None => Raise (TypeError "None is not a callable object")
       | Some f =>
           match factory_result f params with
           | None => Raise (RuntimeError ModelInitArity)
           | Some (Raise e) => Raise e
           | Some (Ok None) => Raise (RuntimeError ModelInitReturnedNone)
           | Some (Ok (Some m)) => Ok m
           end
       end) self [].
Proof.
  unfold call_model_init, factory_result, mbind, M_bind, get_self, lift, raise, mret, M_ret.
  destruct (model_init self) as [f|]; simpl; [|done].
  destruct (number_of_arguments f) as [|[|n]]; simpl.
  - by destruct (call0 f) as [[m|]|e].
  - by destruct (call1 f params) as [[m|]|e].
  - done.
Qed.

(** X13: [call_model_init] calls the factory by its arity: with no argument
    if it takes none, with [params] if it takes one.  It returns a model
    exactly when the factory so called returns one; a factory of two or
    more arguments is answered with the [RuntimeError] of trainer.py:254
    whatever it would return, a factory that returns [None] with the one
    of trainer.py:257, and an exception of the factory is passed on.  The
    trainer is never changed: the model is returned, not stored. *)
Theorem call_model_init_by_arity params self :
  final (call_model_init params self) = self ∧
  trace (call_model_init params self) = [] ∧
  (∀ m, value (call_model_init params self) = Ok m ↔
     ∃ f, model_init self = Some f ∧
       (number_of_arguments f = 0%nat ∧ call0 f = Ok (Some m) ∨
        number_of_arguments f = 1%nat ∧ call1 f params = Ok (Some m))) ∧
  (∀ f, model_init self = Some f →
     ((2 ≤ number_of_arguments f)%nat →
      value (call_model_init params self) = Raise (RuntimeError ModelInitArity)) ∧
     (number_of_arguments f = 0%nat ∧ call0 f = Ok None ∨
      number_of_arguments f = 1%nat ∧ call1 f params = Ok None →
      value (call_model_init params self) = Raise (RuntimeError ModelInitReturnedNone)) ∧
     (∀ e, number_of_arguments f = 0%nat ∧ call0 f = Raise e ∨
           number_of_arguments f = 1%nat ∧ call1 f params = Raise e →
      value (call_model_init params self) = Raise e)).
Proof.
  rewrite call_model_init_run. simpl. split; [done|]. split; [done|]. split.
  - intros m. split.
    + destruct (model_init self) as [f|]; [|done]. unfold factory_result.
      destruct (number_of_arguments f) as [|[|n]] eqn:Hn; [| |done].
      * destruct (call0 f) as [[m'|]|e] eqn:Hcall; try done. intros [= ->]. eauto.
      * destruct (call1 f params) as [[m'|]|e] eqn:Hcall; try done. intros [= ->].
        exists f. split; [done|]. right. eauto.
    + intros (f & -> & [[Hn Hcall]|[Hn Hcall]]); unfold factory_result;
        by rewrite Hn, Hcall.
  - intros f ->. unfold factory_result. split_and!.
    + intros Hn. by destruct (number_of_arguments f) as [|[|n]]; [lia|lia|].
    + by intros [[-> ->]|[-> ->]].
    + by intros e [[-> ->]|[-> ->]].
Qed.

Lemma init_run a :
  __init__ a
  = if float_lt (arg_warmup_proportion a) f0 || float_lt f1 (arg_warmup_proportion a) then
      Raise (ValueError (WarmupProportionOutOfRange (arg_warmup_proportion a)))
    else
      match arg_model a, arg_model_init a with
      | None, None => Raise (RuntimeError RequiresModelOrModelInit)
      | Some _, Some _ => Raise (RuntimeError RequiresModelOrModelInitNotBoth)
      | Some m, None => Ok (set_model (Some m) (under_construction a))
      | None, Some f =>
          match value (call_model_init None (under_construction a)) with
          | Ok m => Ok (set_model (Some m) (under_construction a))
          | Raise e => Raise e
          end
      end.
Proof.
  unfold __init__, under_construction. case_match; [done|].
  destruct (arg_model a), (arg_model_init a); try done.
Qed.

(** X14: what a successful construction yields (trainer.py:109-148): every
    argument stored in the attribute of its name, the freeze switch on,
    no search backend, and a model, which is the [model] argument if no
    factory was given and otherwise what the factory, called by its
    arity without parameters, returned.  Exactly one of [model] and
    [model_init] was given. *)
Theorem init_constructs a self :
  __init__ a = Ok self →
  ∃ m, self = set_model (Some m) (under_construction a) ∧
    _freeze self = true ∧ hp_search_backend self = None ∧
    num_epochs self = arg_num_epochs a ∧ batch_size self = arg_batch_size a ∧
    learning_rate self = arg_learning_rate a ∧ seed self = arg_seed a ∧
    train_dataset self = arg_train_dataset a ∧ eval_dataset self = arg_eval_dataset a ∧
    column_mapping self = arg_column_mapping a ∧ loss_class self = arg_loss_class a ∧
    model_init self = arg_model_init a ∧
    (arg_model a = Some m ∧ arg_model_init a = None ∨
     arg_model a = None ∧
     ∃ f, arg_model_init a = Some f ∧
       (number_of_arguments f = 0%nat ∧ call0 f = Ok (Some m) ∨
        number_of_arguments f = 1%nat ∧ call1 f None = Ok (Some m))).
Proof.
  rewrite init_run. case_match; [done|].
  destruct (arg_model a) as [m|] eqn:Hm, (arg_model_init a) as [f|] eqn:Hf; try done.
  - intros [= <-]. exists m. split_and!; try done. by left.
  - rewrite call_model_init_run. simpl. rewrite Hf. unfold factory_result.
    destruct (number_of_arguments f) as [|[|n]] eqn:Hn; [| |done].
    + destruct (call0 f) as [[m|]|e] eqn:Hcall; try done. intros [= <-].
      exists m. split_and!; try done. right. split; [done|]. exists f. eauto.
    + destruct (call1 f None) as [[m|]|e] eqn:Hcall; try done. intros [= <-].
      exists m. split_and!; try done. right. split; [done|]. exists f. eauto.
Qed.

(** X15: the errors of the constructor and their order.  The range check of
    [warmup_proportion] comes first (trainer.py:104); then, neither
    [model] nor [model_init] is the [RuntimeError] of trainer.py:131 and
    both together the one of trainer.py:134; a factory is called only if
    no model was given, and what [call_model_init] raises (a factory of
    two or more arguments, a factory that returns [None], an exception of
    the factory) is what the constructor raises. *)
Theorem init_errors a :
  (float_lt (arg_warmup_proportion a) f0 || float_lt f1 (arg_warmup_proportion a) = true →
   __init__ a = Raise (ValueError (WarmupProportionOutOfRange (arg_warmup_proportion a)))) ∧
  (float_lt (arg_warmup_proportion a) f0 || float_lt f1 (arg_warmup_proportion a) = false →
   (arg_model a = None → arg_model_init a = None →
    __init__ a = Raise (RuntimeError RequiresModelOrModelInit)) ∧
   (is_Some (arg_model a) → is_Some (arg_model_init a) →
    __init__ a = Raise (RuntimeError RequiresModelOrModelInitNotBoth)) ∧
   (∀ f e, arg_model a = None → arg_model_init a = Some f →
      value (call_model_init None (under_construction a)) = Raise e →
      __init__ a = Raise e) ∧
   (∀ f, arg_model a = None → arg_model_init a = Some f →
      (2 ≤ number_of_arguments f)%nat → __init__ a = Raise (RuntimeError ModelInitArity))).
Proof.
  rewrite init_run. split; [by intros ->|]. intros ->. split_and!.
  - by intros -> ->.
  - by intros [m ->] [f ->].
  - by intros f e -> -> ->.
  - intros f -> Hf Hn. rewrite Hf, call_model_init_run. simpl. rewrite Hf.
    unfold factory_result. by destruct (number_of_arguments f) as [|[|n]]; [lia|lia|].
Qed.

(** *** The range of [warmup_proportion] *)

Lemma ceil_of_nan_product z : rbind (int_mul_float z S754_nan) ceil = Raise
  (match float_of_int z with
   | Ok _ => LibValueError "cannot convert float NaN to integer"
   | Raise e => e
   end).
Proof.
  unfold int_mul_float. destruct (float_of_int z) as [fz|e]; [|done].
  simpl. unfold float_mul. by destruct fz.
Qed.

(** X16: NaN slips through the range check of the constructor, since both
    comparisons of trainer.py:104 are false for it; a trainer whose
    [warmup_proportion] is NaN cannot fit the body: whenever the body
    phase is due, [train] raises (at the latest in [math.ceil], after the
    pairs were generated) and nothing is fitted. *)
Theorem nan_warmup_proportion :
  (∀ a, arg_warmup_proportion a = S754_nan → valid_model_args a →
        ∃ self, __init__ a = Ok self ∧ warmup_proportion self = S754_nan) ∧
  (∀ kw self, warmup_proportion (final (train kw self)) = S754_nan →
     body_calls (trace (train kw self)) = [] ∧
     (∀ m, model (final (train kw self)) = Some m →
           body_guard m (final (train kw self)) = true →
           head_calls (trace (train kw self)) = [] ∧
           ∃ e, value (train kw self) = Raise e)).
Proof.
  split.
  - intros a Hnan Hvalid. rewrite init_run, Hnan. simpl.
    unfold valid_model_args in Hvalid.
    destruct (arg_model a) as [m|], (arg_model_init a) as [f|] eqn:Hf; try done.
    + eexists. split; [done|]. done.
    + rewrite call_model_init_run. simpl. rewrite Hf. unfold factory_result.
      destruct Hvalid as [[-> [m ->]]|[-> [m ->]]]; (eexists; split; [done|]); done.
  - intros kw self Hnan.
    assert (body_calls (trace (train kw self)) = []) as Hnone.
    { destruct (body_calls (trace (train kw self))) as [|call calls] eqn:Hcalls; [done|].
      destruct (body_call_facts kw self call) as (? & ? & ? & ? & ? & _ & Hok).
      { rewrite Hcalls. by left. }
      destruct Hok as (_ & _ & Hwarm & _). rewrite Hnan, ceil_of_nan_product in Hwarm.
      done. }
    split; [done|]. intros m Hm Hguard.
    destruct (train_facts kw self) as [_ Hok]. unfold train_ok in Hok.
    rewrite Hm, Hguard, Hnone in Hok. destruct Hok as (_ & _ & _ & Hhead & Hlen).
    destruct (value (train kw self)) as [[]|e] eqn:Hv.
    + by destruct (Hlen eq_refl).
    + split; [|by eexists].
      destruct (train_work kw self) as
        [(m' & x' & y' & xt' & yt' & _ & _ & _ & Hv' & _ & Hh & _)|(_ & _ & Hh & _)];
        [|done].
      rewrite Hh. rewrite Hv in Hv'. symmetry in Hv'. by apply phases_raise in Hv' as [_ ?].
Qed.

Lemma apply_warmup_proportion v w self :
  to_float v = Ok w →
  apply_hyperparameter "warmup_proportion" v self
  = Outcome (Ok tt) (set_warmup_proportion w self) [].
Proof.
  intros Hv. unfold apply_hyperparameter, mbind, M_bind, get_self, lift, modify, mret, M_ret.
  assert (hasattr self "warmup_proportion" = true) as ->.
  { unfold hasattr. apply orb_true_iff. left. by vm_compute. }
  simpl. by rewrite Hv.
Qed.

(** X17: the range of [warmup_proportion] is checked by the constructor
    only: [apply_hyperparameters] stores whatever [float] makes of the
    suggested value, a number outside [0, 1] included, in the attribute
    the constructor would have refused it for. *)
Theorem hyperparameters_skip_range_check v w self :
  to_float v = Ok w →
  value (apply_hyperparameter "warmup_proportion" v self) = Ok tt ∧
  final (apply_hyperparameter "warmup_proportion" v self) = set_warmup_proportion w self ∧
  warmup_proportion (final (apply_hyperparameter "warmup_proportion" v self)) = w ∧
  (∀ a, float_lt w f0 = true ∨ float_lt f1 w = true →
        __init__ (with_warmup_proportion w a)
        = Raise (ValueError (WarmupProportionOutOfRange w))).
Proof.
  intros Hv. rewrite (apply_warmup_proportion v w self Hv). simpl. split_and!; try done.
  intros a Hout. rewrite init_run. simpl. by rewrite (proj2 (orb_true_iff _ _) Hout).
Qed.

(** *** Hyperparameters *)

Lemma same_objects_refl s : same_objects s s.
Proof. by repeat split. Qed.

Lemma same_objects_trans s1 s2 s3 :
  same_objects s1 s2 → same_objects s2 s3 → same_objects s1 s3.
Proof.
  unfold same_objects. intros (?&?&?&?&?&?&?&?&?&?&?) (?&?&?&?&?&?&?&?&?&?&?).
  split_and!; congruence.
Qed.

Lemma same_objects_hasattr s s' key : same_objects s s' → hasattr s' key = hasattr s key.
Proof. intros (_&_&_&_&_&_&_&_&_&_&Hs). unfold hasattr. by rewrite Hs. Qed.

Lemma setattr_scalar_objects key v set self :
  setattr_scalar key v = Some set →
  wp set self (λ _ self' tr, same_objects self self' ∧ tr = []).
Proof.
  unfold setattr_scalar. intros Hset.
  repeat case_match; simplify_eq; repeat wp_step; by repeat split.
Qed.

Lemma setattr_scalar_fields key v : key ∈ scalar_fields → is_Some (setattr_scalar key v).
Proof.
  unfold scalar_fields, setattr_scalar. rewrite !elem_of_cons, elem_of_nil.
  intros Hkey. repeat case_bool_decide; try by eexists. by destruct_or!.
Qed.

Lemma apply_hyperparameter_plain key v self :
  key ∈ scalar_fields ∨ hasattr self key = false →
  wp (apply_hyperparameter key v) self (λ _ self' _, same_objects self self').
Proof.
  intros Hkey. unfold apply_hyperparameter. do 3 wp_step.
  - destruct Hkey as [[set Hset]%(setattr_scalar_fields key v)|?]; [|congruence].
    rewrite Hset. wp_use (setattr_scalar_objects key v set self Hset). by intros [? _].
  - repeat wp_step; apply same_objects_refl.
Qed.

Lemma for_each_plain (p : params) self :
  plain_params self p →
  wp (for_each p (λ '(key, v), apply_hyperparameter key v)) self
    (λ _ self' _, same_objects self self').
Proof.
  revert self. induction p as [|[key v] p IH]; intros self Hp; simpl.
  - wp_step. apply same_objects_refl.
  - apply Forall_cons in Hp as [Hkey Hp]. wp_step.
    wp_use (apply_hyperparameter_plain key v self Hkey). intros Hsame.
    wp_step; [|done]. eapply wp_mono; [apply (IH s)|].
    + eapply Forall_impl; [done|]. intros [k w] [?|Hk]; [by left|right]. simpl in *.
      by rewrite (same_objects_hasattr self).
    + intros ? ? ? Hsame'. by eapply same_objects_trans.
Qed.

(** [apply_hyperparameters] with parameters that reach no object-valued
    attribute: the model becomes what the factory makes of the whole
    dictionary. *)
Lemma apply_hyperparameters_plain p final_model self :
  plain_params self p →
  wp (apply_hyperparameters p final_model) self
    (λ v self' _,
       v = Ok tt →
       ∃ f, model_init self = Some f ∧ call1 f (Some p) = Ok (model self') ∧
            model_init self' = (if final_model then None else Some f) ∧
            train_dataset self' = train_dataset self ∧
            eval_dataset self' = eval_dataset self ∧
            column_mapping self' = column_mapping self ∧
            hp_search_backend self' = hp_search_backend self).
Proof.
  intros Hp. unfold apply_hyperparameters. wp_step.
  wp_use (for_each_plain p self Hp). intros (Ht & He & Hmi & _ & _ & _ & Hcm & _ & _ & Hb & _).
  wp_step; [|done]. do 3 wp_step. rewrite Hmi. wp_step; [|by wp_step].
  wp_step. wp_step; [|done]. do 2 wp_step. wp_step; wp_step; intros _.
  all: exists m; by split_and!.
Qed.

Lemma dict_trial_setup kw self backend p :
  hp_search_backend self = Some backend → kw_trial kw = Some (TrialDict p) → p ≠ [] →
  trial_setup kw self
  = let o := apply_hyperparameters p false self in
    Outcome (value o) (final o) (LogInfo (TrialInfo p) :: trace o).
Proof.
  intros Hb Ht Hp. unfold trial_setup, _hp_search_setup. rewrite Ht. simpl.
  rewrite (bool_decide_eq_false_2 _ Hp). simpl.
  unfold mbind, M_bind, get_self, mret, M_ret, emit. rewrite Hb. simpl.
  by destruct (apply_hyperparameters p false self) as [[?|?] ? ?].
Qed.

(** X18: a call to [train] with a trial starts from a new model.  During a
    hyperparameter search, a call with a non-empty dictionary as [trial]
    logs the dictionary right after seeding, applies it, and, if it
    returns, has trained and leaves in place the model the factory made
    of the whole dictionary; the factory itself stays.  (For parameters
    that name numeric or boolean attributes of the trainer, or none.) *)
Theorem trial_reinitialises_model kw self backend p f :
  hp_search_backend self = Some backend → kw_trial kw = Some (TrialDict p) → p ≠ [] →
  model_init self = Some f → plain_params self p →
  (∃ tr, trace (train kw self) = SetSeed (seed self) :: LogInfo (TrialInfo p) :: tr) ∧
  (value (train kw self) = Ok tt →
   ∃ m, call1 f (Some p) = Ok (Some m) ∧ model (final (train kw self)) = Some m ∧
        model_init (final (train kw self)) = Some f ∧
        ∀ call, call ∈ body_calls (trace (train kw self)) →
                lm_model (bf_train_loss call) = model_body m).
Proof.
  intros Hb Ht Hp Hf Hplain.
  pose proof (dict_trial_setup kw self backend p Hb Ht Hp) as Hsetup0. cbv zeta in Hsetup0.
  pose proof (apply_hyperparameters_plain p false self Hplain) as Happly. unfold wp in Happly.
  split.
  - train_cases kw self; rewrite Htrace, Hsetup0; simpl; by eexists.
  - intros Hret. train_cases kw self; rewrite Hret in Hvalue; try done.
    rewrite phases_final in Hfinal. rewrite Hsetup0 in Hsetup, Hmodel. simpl in *.
    destruct (Happly Hsetup) as (f' & Hf' & Hcall & Hmi & _).
    assert (f' = f) as -> by congruence. rewrite Hmodel in Hcall.
    destruct (with_default_loss_fields (final (trial_setup kw self))) as (Hm' & _).
    assert (model_init (with_default_loss (final (trial_setup kw self)))
            = model_init (final (trial_setup kw self))) as Hmi'.
    { by destruct (frame_fields _ _ (with_default_loss_frame (final (trial_setup kw self))))
        as (_ & _ & _ & _ & _ & _ & _ & _ & _ & ?). }
    exists m. rewrite Hfinal, Hm', Hmi'. rewrite Hsetup0. simpl. split_and!; try done.
    intros call (m' & ? & ? & ? & ? & ? & Hm'' & _ & _ & _ & Hshape & _)%train_body_call.
    rewrite Hfinal, Hm', Hsetup0 in Hm''. simpl in Hm''. rewrite Hmodel in Hm''.
    simplify_eq.
    destruct Hshape as (_ & _ & _ & _ & _ & _ & _ & cls & Hcls & Hbranch).
    case_bool_decide; destruct Hbranch as [-> _]; [|done].
    unfold triplet_loss. by repeat case_bool_decide.
Qed.

(** X19: [apply_hyperparameters] stores what the factory makes of the whole
    dictionary, unchecked: also [None], which [call_model_init] would
    refuse.  With [final_model] the factory is then dropped, and the
    trainer can neither build a model nor apply hyperparameters again.
    (For parameters that name numeric or boolean attributes, or none.) *)
Theorem apply_hyperparameters_rebuilds_model p final_model self :
  plain_params self p →
  value (apply_hyperparameters p final_model self) = Ok tt →
  let self' := final (apply_hyperparameters p final_model self) in
  ∃ f, model_init self = Some f ∧
    call1 f (Some p) = Ok (model self') ∧
    model_init self' = (if final_model then None else Some f) ∧
    (final_model = true →
     (∀ p', ∃ e, value (call_model_init p' self') = Raise e) ∧
     (∀ p' final_model',
        plain_params self' p' →
        ∃ e, value (apply_hyperparameters p' final_model' self') = Raise e)).
Proof.
  intros Hplain Hret. simpl.
  pose proof (apply_hyperparameters_plain p final_model self Hplain) as Happly.
  unfold wp in Happly. destruct (Happly Hret) as (f & Hf & Hcall & Hmi & _).
  exists f. split_and!; try done. intros ->.
  set (self' := final (apply_hyperparameters p true self)) in *. split.
  - intros p'. rewrite call_model_init_run. simpl. rewrite Hmi. by eexists.
  - intros p' final_model' Hplain'.
    cut (wp (apply_hyperparameters p' final_model') self' (λ v _ _, ∃ e, v = Raise e));
      [done|].
    unfold apply_hyperparameters. wp_step.
    wp_use (for_each_plain p' self' Hplain'). intros (_ & _ & Hmi' & _).
    wp_step; [|by eexists]. do 3 wp_step. rewrite Hmi', Hmi. wp_step. by eexists.
Qed.

Lemma M_bind_raise {A B} (m : M A) (k : A → M B) self e s tr :
  m self = Outcome (Raise e) s tr → (m ≫= k) self = Outcome (Raise e) s tr.
Proof. unfold mbind, M_bind. by intros ->. Qed.

Lemma for_each_app {A} (l1 l2 : list A) (body : A → M unit) self :
  for_each (l1 ++ l2) body self
  = (for_each l1 body ≫= λ _, for_each l2 body) self.
Proof.
  revert self. induction l1 as [|a l1 IH]; intros self; simpl.
  - unfold mbind, M_bind, mret, M_ret. simpl. by destruct (for_each l2 body self).
  - unfold mbind, M_bind. destruct (body a self) as [[[]|e] s tr]; [|done].
    rewrite IH. unfold mbind, M_bind.
    destruct (for_each l1 body s) as [[[]|e] s' tr']; [|done].
    destruct (for_each l2 body s') as [v s'' tr'']. by rewrite app_assoc.
Qed.

(** X20: [apply_hyperparameters] is not atomic.  The parameters are applied
    in the order of the dictionary; when applying one of them raises (a
    value the attribute's type cannot be made from), the call raises the
    same: the parameters before it stay applied, the ones after it are
    not looked at, and the model is not rebuilt. *)
Theorem apply_hyperparameters_stops_at_error p1 key v p2 final_model self e :
  value (apply_each p1 self) = Ok tt →
  value (apply_hyperparameter key v (final (apply_each p1 self))) = Raise e →
  let o := apply_hyperparameters (p1 ++ (key, v) :: p2) final_model self in
  let failed := apply_hyperparameter key v (final (apply_each p1 self)) in
  value o = Raise e ∧ final o = final failed ∧
  trace o = trace (apply_each p1 self) ++ trace failed.
Proof.
  unfold apply_each. intros H1 Hkey. simpl.
  assert (for_each (p1 ++ (key, v) :: p2) (λ '(key, v), apply_hyperparameter key v) self
          = Outcome (Raise e)
              (final (apply_hyperparameter key v
                        (final (for_each p1 (λ '(key, v), apply_hyperparameter key v) self))))
              (trace (for_each p1 (λ '(key, v), apply_hyperparameter key v) self)
               ++ trace (apply_hyperparameter key v
                           (final (for_each p1 (λ '(key, v), apply_hyperparameter key v)
                                     self))))) as Hloop.
  { rewrite for_each_app. unfold mbind, M_bind.
    destruct (for_each p1 _ self) as [[[]|?] s1 tr1]; simpl in *; [|done].
    unfold mbind, M_bind.
    by destruct (apply_hyperparameter key v s1) as [[?|?] s2 tr2]; simpl in *; simplify_eq. }
  unfold apply_hyperparameters. by rewrite (M_bind_raise _ _ _ _ _ _ Hloop).
Qed.

(** X21: a trainer without a model (a factory returned [None] to
    [apply_hyperparameters]) cannot train: once the columns are loaded
    and a missing loss class replaced, [train] raises the
    [AttributeError] of reading [has_differentiable_head] off [None];
    nothing is generated or fitted.  (Outside a hyperparameter search.) *)
Theorem train_without_model kw self cols :
  model self = None → search_inactive self kw → load self = Ok cols →
  value (train kw self) = Raise (AttributeError "has_differentiable_head") ∧
  final (train kw self) = with_default_loss self ∧
  body_calls (trace (train kw self)) = [] ∧ head_calls (trace (train kw self)) = [] ∧
  pair_passes (trace (train kw self)) = [].
Proof.
  intros Hnone Hin Hcols.
  pose proof (train_anatomy kw self) as Ha. unfold anatomy in Ha.
  rewrite (trial_setup_inactive kw self Hin) in Ha. simpl in Ha.
  rewrite Hcols in Ha. destruct cols as [[[? ?] ?] ?]. rewrite Hnone in Ha.
  destruct Ha as (Hv & Hf & Htr). split; [done|]. split; [done|].
  destruct (train_work kw self) as [(m & ? & ? & ? & ? & Hm & _)|(_ & ? & ? & ?)]; [|done].
  rewrite (trial_setup_inactive kw self Hin) in Hm. simpl in Hm. congruence.
Qed.

(** *** [evaluate] *)

Lemma evaluate_anatomy dataset self :
  eval_anatomy dataset self (value (evaluate dataset self)) (final (evaluate dataset self))
    (trace (evaluate dataset self)).
Proof.
  change (wp (evaluate dataset) self (eval_anatomy dataset self)).
  unfold evaluate, eval_anatomy, eval_columns, eval_log. do 3 wp_step.
  generalize (or_dataset dataset (eval_dataset self)). intros ed.
  apply wp_silent; [apply validate_silent|].
  destruct (value (_validate_column_mapping ed self)) as [[]|e] eqn:Hval; [|done].
  cbv beta iota. simpl rbind. wp_step.
  eapply (wp_mono _ _ (λ v s' tr',
    v = match column_mapping self, ed with
        | Some mapping, Some d =>
            rbind (value (_apply_column_mapping d mapping self)) (λ d', Ok (Some d'))
        | _, _ => Ok ed
        end ∧ s' = self ∧
    tr' = match column_mapping self, ed with
          | Some _, Some _ => [LogInfo ApplyingColumnMappingEval]
          | _, _ => []
          end)).
  { destruct (column_mapping self) as [mapping|], ed as [d|]; try by wp_step.
    do 3 wp_step. apply wp_silent; [apply apply_mapping_silent|].
    destruct (value (_apply_column_mapping d mapping self)); simpl; [|done].
    by wp_step. }
  intros v1 ? tr1 (Hv1 & -> & ->). rewrite <-Hv1. clear Hv1.
  wp_step; simpl rbind; cbv beta iota; [|by rewrite ?app_nil_r].
  do 2 (do 2 wp_step; wp_step; simpl rbind; cbv beta iota; [|by rewrite ?app_nil_r]).
  unfold the_model. do 6 wp_step.
  - do 3 wp_step. unfold eval_metric.
    destruct (metric self); wp_step; (split; [done|]); (split; [done|]).
    all: simpl; by rewrite ?app_nil_r, <-?app_assoc.
  - wp_step. split; [done|]. split; [done|]. simpl. by rewrite ?app_nil_r.
Qed.

Lemma or_dataset_empty d other : len d = 0%nat → or_dataset (Some d) other = other.
Proof. intros Hlen. unfold or_dataset. by rewrite Hlen. Qed.

Lemma or_dataset_nonempty d other : len d ≠ 0%nat → or_dataset (Some d) other = Some d.
Proof.
  intros Hlen. unfold or_dataset. by destruct (Nat.eqb_spec (len d) 0).
Qed.

Lemma eval_columns_frame self self' ed :
  column_mapping self' = column_mapping self →
  eval_columns self' ed = eval_columns self ed ∧ eval_log self' ed = eval_log self ed.
Proof.
  intros Hmap. unfold eval_columns, eval_log.
  rewrite (validate_value_frame ed self self' Hmap), Hmap.
  destruct (column_mapping self) as [mapping|], ed as [d|]; try done.
  by rewrite !apply_mapping_value.
Qed.

(** X22: which dataset [evaluate] scores.  A dataset passed in is used
    whenever it has at least one row, whatever [self.eval_dataset]
    holds; an empty one (falsy for [or]) is ignored as if no dataset had
    been passed; and with no usable dataset on either side the call
    ends in the [AttributeError] of reading [column_names] off [None],
    before anything is logged. *)
Theorem evaluate_dataset_choice self d :
  (len d = 0%nat → evaluate (Some d) self = evaluate None self) ∧
  (len d ≠ 0%nat → ∀ other,
     value (evaluate (Some d) (set_eval_dataset other self)) = value (evaluate (Some d) self) ∧
     trace (evaluate (Some d) (set_eval_dataset other self)) = trace (evaluate (Some d) self)) ∧
  (eval_dataset self = None →
     evaluate None self = Outcome (Raise (AttributeError "column_names")) self []).
Proof.
  split_and!.
  - intros Hlen. unfold evaluate, mbind, M_bind, get_self. cbv beta iota zeta.
    by rewrite (or_dataset_empty d _ Hlen).
  - intros Hlen other.
    pose proof (evaluate_anatomy (Some d) (set_eval_dataset other self)) as H1.
    pose proof (evaluate_anatomy (Some d) self) as H2.
    unfold eval_anatomy in H1, H2. rewrite !(or_dataset_nonempty d _ Hlen) in H1.
    rewrite !(or_dataset_nonempty d _ Hlen) in H2.
    destruct H1 as [_ H1], H2 as [_ H2].
    destruct (eval_columns_frame self (set_eval_dataset other self) (Some d) eq_refl)
      as [Hcols Hlog].
    rewrite Hcols, Hlog in H1. change (model (set_eval_dataset other self)) with (model self) in H1.
    destruct (eval_columns self (Some d)) as [[x y]|e].
    + destruct (model self) as [m|]; destruct H1 as [-> ->], H2 as [-> ->]; done.
    + by destruct H1 as [-> ->], H2 as [-> ->].
  - intros Hnone.
    pose proof (evaluate_anatomy None self) as Ha. unfold eval_anatomy in Ha.
    simpl or_dataset in Ha. rewrite Hnone in Ha. destruct Ha as [Hf Ha].
    unfold eval_columns, eval_log in Ha.
    change (_validate_column_mapping None self)
      with (Outcome (@Raise unit (AttributeError "column_names")) self []) in Ha.
    simpl in Ha. destruct Ha as [Hv Htr].
    destruct (evaluate None self) as [v s tr]. simpl in *. by subst.
Qed.

(** *** What [train] reads after the trial set-up *)

(** The trial set-up fits and generates nothing. *)
Lemma trial_setup_quiet kw self : quiet (trace (trial_setup kw self)).
Proof.
  destruct (logs_quiet _ (trial_setup_logs kw self)) as (_ & ? & ? & ? & _). by split_and!.
Qed.

(** A call whose trial cannot be applied raises what the trial set-up
    raised. *)
Lemma train_trial_fails kw self e :
  value (trial_setup kw self) = Raise e →
  value (train kw self) = Raise e ∧ final (train kw self) = final (trial_setup kw self) ∧
  quiet (trace (train kw self)).
Proof.
  intros Hsetup. pose proof (train_anatomy kw self) as Ha. unfold anatomy in Ha.
  rewrite Hsetup in Ha. destruct Ha as (Hv & Hf & Htr). split_and!; [done..|].
  destruct (train_work kw self) as [(m & ? & ? & ? & ? & _ & _ & _ & Hp & _)|(_ & ? & ? & ?)];
    [|done].
  rewrite Htr. destruct (trial_setup_quiet kw self) as (? & ? & ?). by split_and!.
Qed.

(** A call that cannot load its columns from the trainer the trial
    set-up leaves raises what the loading raised. *)
Lemma train_load_raises kw self e :
  value (trial_setup kw self) = Ok tt →
  load (final (trial_setup kw self)) = Raise e →
  value (train kw self) = Raise e ∧ final (train kw self) = final (trial_setup kw self) ∧
  quiet (trace (train kw self)).
Proof.
  intros Hsetup Hload. pose proof (train_anatomy kw self) as Ha. unfold anatomy in Ha.
  rewrite Hsetup, Hload in Ha. destruct Ha as (Hv & Hf & Htr). split_and!; [done..|].
  destruct (train_work kw self) as [(m & ? & ? & ? & ? & _ & Hok & _)|(_ & ? & ? & ?)];
    [simpl in Hok; congruence|done].
Qed.

Lemma train_raises_without_eval_columns kw self :
  (∀ x_test y_test,
     ¬ (subscript (eval_dataset (final (trial_setup kw self))) "text" = Ok x_test ∧
        subscript (eval_dataset (final (trial_setup kw self))) "label" = Ok y_test)) →
  (∃ e, value (train kw self) = Raise e) ∧ quiet (trace (train kw self)).
Proof.
  intros Heval. destruct (value (trial_setup kw self)) as [[]|e] eqn:Hsetup.
  - destruct (load (final (trial_setup kw self)))
      as [[[[x_train y_train] x_test] y_test]|e] eqn:Hload.
    + by destruct (Heval x_test y_test), (load_eval_columns _ _ _ _ _ Hload).
    + destruct (train_load_raises kw self e Hsetup Hload) as (? & _ & ?). eauto.
  - destruct (train_trial_fails kw self e Hsetup) as (? & _ & ?). eauto.
Qed.

(** C3: [train] validates the training dataset the trainer holds once the
    trial of the call, if there is one, has been applied.  If that is a
    [DatasetDict] whose only split is [train], and no column mapping is
    configured, the call raises the [ValueError] of trainer.py:159, whose
    message quotes every split name of the container; the trainer is
    left as the trial set-up left it, and nothing is generated or fitted.
    Outside a hyperparameter search the trial set-up does nothing, so
    the dataset and the mapping are those of the trainer as called. *)
Theorem train_rejects_train_split kw self splits :
  value (trial_setup kw self) = Ok tt →
  train_dataset (final (trial_setup kw self)) = Some (DatasetDict splits) →
  column_names (DatasetDict splits) = {["train"]} →
  column_mapping (final (trial_setup kw self)) = None →
  value (train kw self) = Raise (ValueError GotDatasetDictTrainSplit) ∧
  final (train kw self) = final (trial_setup kw self) ∧
  quiet (trace (train kw self)) ∧
  (∃ text, message GotDatasetDictTrainSplit = Some text ∧
     ∀ name, name ∈ column_names (DatasetDict splits) → contains (quoted name) text = true) ∧
  (search_inactive self kw → trial_setup kw self = Outcome (Ok tt) self []).
Proof.
  intros Hsetup Hds Hnames Hcm.
  destruct (train_load_raises kw self (ValueError GotDatasetDictTrainSplit) Hsetup)
    as (? & ? & ?).
  { unfold load. rewrite Hds. by rewrite validate_train_split. }
  split_and!; try done.
  - eexists. split; [done|]. rewrite Hnames. by intros name ->%elem_of_singleton.
  - apply trial_setup_inactive.
Qed.

(** C8: whenever the trainer holds no evaluation dataset once the trial of
    the call, if there is one, has been applied, [train] raises, and does
    so before any pair generation or fitting; when the trial set-up
    returned and the training dataset has its [text] and [label]
    columns, what is raised is the [TypeError] of subscripting [None] at
    trainer.py:394.  Outside a hyperparameter search the trial set-up
    does nothing, so that this is every call on a trainer whose
    [eval_dataset] is [None].  The constructor does not ask for the
    evaluation dataset: a construction that succeeds also succeeds with
    [eval_dataset=None]. *)
Theorem train_needs_eval_dataset kw self :
  eval_dataset (final (trial_setup kw self)) = None →
  (∃ e, value (train kw self) = Raise e) ∧
  quiet (trace (train kw self)) ∧
  (∀ t, value (trial_setup kw self) = Ok tt →
        train_dataset (final (trial_setup kw self)) = Some (Dataset t) →
        column_mapping (final (trial_setup kw self)) = None →
        required_columns ⊆ column_names (Dataset t) →
        value (train kw self) = Raise (TypeError "'NoneType' object is not subscriptable")) ∧
  (search_inactive self kw → trial_setup kw self = Outcome (Ok tt) self []) ∧
  (∀ a constructed, __init__ a = Ok constructed →
        ∃ self', __init__ (with_eval_dataset None a) = Ok self' ∧ eval_dataset self' = None).
Proof.
  intros Heval.
  destruct (train_raises_without_eval_columns kw self) as [Hraise Hquiet].
  { intros x_test y_test [Hx _]. by rewrite Heval in Hx. }
  split_and!; try done.
  - intros t Hsetup Hds Hcm Hcols. apply train_load_raises; [done|].
    unfold load. rewrite Hds, Hcm, Heval. rewrite validate_plain by done. simpl.
    destruct (getitem_Dataset_Ok "text" t) as [x Hx]; [apply Hcols, text_required|].
    destruct (getitem_Dataset_Ok "label" t) as [y Hy]; [apply Hcols, label_required|].
    simpl in Hx, Hy. by rewrite Hx, Hy.
  - apply trial_setup_inactive.
  - intros a constructed Hinit.
    assert (∃ self', __init__ (with_eval_dataset None a) = Ok self') as [self' Hinit'].
    { revert Hinit. unfold __init__, rbind, call_model_init, mbind, M_bind, get_self, lift,
        raise, mret, M_ret; simpl. repeat case_match; simplify_eq/=; eauto; congruence. }
    exists self'. split; [done|]. by rewrite (init_eval_dataset _ _ Hinit').
Qed.

(** C9: let [self] hold a column mapping and an evaluation dataset that
    does not have both columns [text] and [label] under these names.
    Every call to [train] that reads this trainer, that is, every call
    whose trial set-up leaves [self] (outside a hyperparameter search:
    every call on [self]), raises before any pair generation or fitting,
    because [train] subscripts the evaluation dataset as it is; while
    [evaluate] on [self], which renames the columns first, runs through
    to the metric whenever the mapping applies to the dataset. *)
Theorem train_reads_unmapped_eval self mapping t :
  column_mapping self = Some mapping →
  eval_dataset self = Some (Dataset t) →
  ¬ required_columns ⊆ column_names (Dataset t) →
  (∀ kw called, final (trial_setup kw called) = self →
     (∃ e, value (train kw called) = Raise e) ∧ quiet (trace (train kw called))) ∧
  (∀ kw, search_inactive self kw → final (trial_setup kw self) = self) ∧
  (∀ t' m,
     required_columns ⊆ map_img mapping → dom mapping ⊆ column_names (Dataset t) →
     rename_table (full_mapping (Dataset t) mapping) t = Ok t' →
     model self = Some m → metric self ≠ MetricOther →
     ∃ r x_test y_test,
       value (evaluate None self) = Ok r ∧
       getitem (Dataset t') "text" = Ok x_test ∧ getitem (Dataset t') "label" = Ok y_test ∧
       Predict x_test ∈ trace (evaluate None self)).
Proof.
  intros Hcm Heval Hcols. split_and!.
  - intros kw called Hcalled. apply train_raises_without_eval_columns.
    rewrite Hcalled, Heval. intros x_test y_test [Hx Hy]. apply Hcols.
    intros col [->%elem_of_singleton| ->%elem_of_singleton]%elem_of_union.
    + destruct (decide ("text" ∈ column_names (Dataset t))) as [|Hno]; [done|].
      change (getitem (Dataset t) "text" = Ok x_test) in Hx.
      by rewrite (getitem_Dataset_Raise _ _ Hno) in Hx.
    + destruct (decide ("label" ∈ column_names (Dataset t))) as [|Hno]; [done|].
      change (getitem (Dataset t) "label" = Ok y_test) in Hy.
      by rewrite (getitem_Dataset_Raise _ _ Hno) in Hy.
  - intros kw Hin. by rewrite trial_setup_inactive.
  - intros t' m. by apply evaluate_mapped.
Qed.

End Trainer.

(** ** The theorems at work on sample data *)

Lemma train_phase_guards_witness :
  ∃ m, model (final (train sample_pairs sample_pairs no_reflection default_kwargs
                       (sample_trainer classical_model (Some (Dataset sample_table))
                          (Some (Dataset sample_table))))) = Some m ∧
       has_differentiable_head m = false.
Proof.
  destruct (train_phase_guards sample_pairs sample_pairs no_reflection default_kwargs
              (sample_trainer classical_model (Some (Dataset sample_table))
                 (Some (Dataset sample_table)))) as (m & Hm & _).
  - by vm_compute.
  - exists m. split; [done|]. vm_compute in Hm. by simplify_eq.
Defined.

Lemma train_rejects_train_split_witness :
  value (train sample_pairs sample_pairs no_reflection default_kwargs
           (sample_trainer classical_model (Some (DatasetDict [("train", sample_table)]))
              (Some (Dataset sample_table))))
  = Raise (ValueError GotDatasetDictTrainSplit) ∧
  value (train sample_pairs sample_pairs no_reflection trial_kwargs split_search_trainer)
  = Raise (ValueError GotDatasetDictTrainSplit).
Proof.
  split.
  - apply (train_rejects_train_split sample_pairs sample_pairs no_reflection default_kwargs
             (sample_trainer classical_model (Some (DatasetDict [("train", sample_table)]))
                (Some (Dataset sample_table))) [("train", sample_table)]).
    + reflexivity.
    + reflexivity.
    + by vm_compute.
    + reflexivity.
  - apply (train_rejects_train_split sample_pairs sample_pairs no_reflection trial_kwargs
             split_search_trainer [("train", sample_table)]).
    + by vm_compute.
    + by vm_compute.
    + by vm_compute.
    + by vm_compute.
Defined.

(** C3 as stated fails: during a hyperparameter search the trial is
    applied before the training dataset is looked at, and a trial that
    cannot be applied ends the call with its own error. *)
Lemma trial_error_precedes_split_check :
  train_dataset split_search_trainer = Some (DatasetDict [("train", sample_table)]) ∧
  column_mapping split_search_trainer = None ∧
  value (train sample_pairs sample_pairs no_reflection seed_trial split_search_trainer)
  = Raise (LibValueError "invalid literal for int() with base 10").
Proof. by vm_compute. Qed.

Lemma train_needs_eval_dataset_witness :
  value (train sample_pairs sample_pairs no_reflection default_kwargs
           (sample_trainer classical_model (Some (Dataset sample_table)) None))
  = Raise (TypeError "'NoneType' object is not subscriptable") ∧
  value (train sample_pairs sample_pairs no_reflection trial_kwargs
           (set_eval_dataset None searching_trainer))
  = Raise (TypeError "'NoneType' object is not subscriptable").
Proof.
  split.
  - destruct (train_needs_eval_dataset sample_pairs sample_pairs no_reflection default_kwargs
                (sample_trainer classical_model (Some (Dataset sample_table)) None))
      as (_ & _ & Htype & _).
    + reflexivity.
    + apply (Htype sample_table); [reflexivity|reflexivity|reflexivity|].
      apply (bool_decide_unpack _). by vm_compute.
  - destruct (train_needs_eval_dataset sample_pairs sample_pairs no_reflection trial_kwargs
                (set_eval_dataset None searching_trainer))
      as (_ & _ & Htype & _).
    + by vm_compute.
    + apply (Htype sample_table); [by vm_compute|by vm_compute|by vm_compute|].
      apply (bool_decide_unpack _). by vm_compute.
Defined.

(** C8 as stated fails: a trainer constructed with [eval_dataset=None] that
    is called, during a hyperparameter search, with a trial that names
    [eval_dataset] has the dataset stored as it is (the attribute holds
    [None], so nothing is cast), and [train] goes on to fit. *)
Lemma trial_assigns_eval_dataset :
  ∃ constructed,
    __init__ (with_eval_dataset None factory_args) = Ok constructed ∧
    eval_dataset constructed = None ∧
    value (train sample_pairs sample_pairs no_reflection eval_trial
             (set_hp_search_backend (Some OPTUNA) constructed)) = Ok tt ∧
    length (body_calls (trace (train sample_pairs sample_pairs no_reflection eval_trial
                                 (set_hp_search_backend (Some OPTUNA) constructed)))) = 1%nat ∧
    eval_dataset (final (train sample_pairs sample_pairs no_reflection eval_trial
                           (set_hp_search_backend (Some OPTUNA) constructed)))
    = Some (Dataset sample_table).
Proof. exists (set_eval_dataset None factory_trainer). by vm_compute. Qed.

Lemma train_reads_unmapped_eval_witness :
  (∃ e, value (train sample_pairs sample_pairs no_reflection default_kwargs mapped_trainer)
        = Raise e) ∧
  (∃ r, value (evaluate None mapped_trainer) = Ok r).
Proof.
  destruct (train_reads_unmapped_eval sample_pairs sample_pairs no_reflection
              mapped_trainer sample_mapping raw_table) as (Htrain & _ & Hevaluate).
  - reflexivity.
  - reflexivity.
  - intros Hcols. apply (bool_decide_pack _) in Hcols. by vm_compute in Hcols.
  - split.
    + apply (Htrain default_kwargs mapped_trainer). reflexivity.
    + destruct (Hevaluate sample_table classical_model) as (r & _ & _ & Hr & _).
      * apply (bool_decide_unpack _). by vm_compute.
      * apply (bool_decide_unpack _). by vm_compute.
      * by vm_compute.
      * reflexivity.
      * done.
      * by exists r.
Defined.

Lemma warmup_steps_formula_witness :
  ∃ call,
    call ∈ body_calls (trace (train sample_pairs sample_pairs no_reflection default_kwargs
             (sample_trainer classical_model (Some (Dataset sample_table))
                (Some (Dataset sample_table))))) ∧
    dl_len (bf_train_dataloader call) = 10 ∧ bf_epochs call = 1 ∧
    rbind (int_mul_float 10 lit_0_1) ceil = Ok (bf_warmup_steps call) ∧
    bf_warmup_steps call = 1.
Proof.
  assert (∃ call, call ∈ body_calls (trace
            (train sample_pairs sample_pairs no_reflection default_kwargs
               (sample_trainer classical_model (Some (Dataset sample_table))
                  (Some (Dataset sample_table))))) ∧
            dl_len (bf_train_dataloader call) = 10 ∧ bf_epochs call = 1 ∧
            bf_warmup_steps call = 1) as (call & Hcall & Hlen & Hepochs & Hsteps).
  { vm_compute. eexists. split; [by left|]. done. }
  exists call. split_and!; try done.
  destruct (warmup_steps_formula sample_pairs sample_pairs no_reflection default_kwargs
              _ call Hcall) as [_ Hwarm].
  by rewrite Hlen, Hepochs in Hwarm.
Defined.

Lemma first_choices_fair : fair first_choices.
Proof.
  split; [done|]. intros t selection n Hn. simpl. split.
  - rewrite length_take. lia.
  - apply sublist_submseteq, sublist_take.
Qed.

Lemma label_grouped_batches_witness :
  ∃ call sampler,
    call ∈ body_calls (trace (train sample_pairs sample_pairs no_reflection three_per_batch
             (set_loss_class (Some BatchHardTripletLoss)
                (sample_trainer classical_model (Some (Dataset sample_table))
                   (Some (Dataset sample_table)))))) ∧
    dl_dataset (bf_train_dataloader call) = LabelSampler sampler ∧
    sld_len sampler = 4 ∧
    dl_batch_size (bf_train_dataloader call) = 3 ∧
    length <$> sld_iter first_choices sampler = [2; 2]%nat ∧
    Forall (λ b, Z.of_nat (length b) = 3)
      (sampler_batches first_choices (bf_train_dataloader call) sampler) ∧
    length (sampler_batches first_choices (bf_train_dataloader call) sampler) = 1%nat.
Proof.
  assert (∃ call sampler, call ∈ body_calls (trace
            (train sample_pairs sample_pairs no_reflection three_per_batch
               (set_loss_class (Some BatchHardTripletLoss)
                  (sample_trainer classical_model (Some (Dataset sample_table))
                     (Some (Dataset sample_table)))))) ∧
            dl_dataset (bf_train_dataloader call) = LabelSampler sampler ∧
            sld_len sampler = 4 ∧
            dl_batch_size (bf_train_dataloader call) = 3 ∧
            length <$> sld_iter first_choices sampler = [2; 2]%nat ∧
            length (sampler_batches first_choices (bf_train_dataloader call) sampler) = 1%nat)
    as (call & sampler & Hcall & Hds & Hlen & Hbs & Hgroups & Hbatches).
  { vm_compute. eexists. eexists. split; [by left|]. done. }
  exists call, sampler.
  destruct (label_grouped_batches sample_pairs sample_pairs no_reflection three_per_batch
              _ call Hcall)
    as (? & ? & ? & ? & sampler' & _ & _ & Hds' & _ & _ & Hpass).
  - apply (bool_decide_unpack _). by vm_compute.
  - assert (sampler' = sampler) as -> by congruence.
    destruct (Hpass first_choices first_choices_fair) as (_ & Hfull & _); [by vm_compute|].
    rewrite Hbs in Hfull. by split_and!.
Defined.

Lemma train_resolves_overrides_witness :
  (bf_epochs <$> body_calls (trace (train sample_pairs sample_pairs no_reflection some_overrides
     (sample_trainer classical_model (Some (Dataset sample_table))
        (Some (Dataset sample_table)))))) = [3] ∧
  num_epochs (final (train sample_pairs sample_pairs no_reflection some_overrides
     (sample_trainer classical_model (Some (Dataset sample_table))
        (Some (Dataset sample_table))))) = 1.
Proof.
  destruct (train_resolves_overrides sample_pairs sample_pairs no_reflection some_overrides
     (sample_trainer classical_model (Some (Dataset sample_table))
        (Some (Dataset sample_table)))) as (_ & _ & _ & _ & _ & Hepochs & _).
  - by left.
  - split; [by vm_compute|]. by rewrite Hepochs.
Defined.

(** C1: the code at the failing input.  The overrides [0] and [0.0] are
    not [None], yet [train(num_epochs=0, batch_size=0, learning_rate=0.0)]
    hands the body fit the configured [1] epoch, batch size [16] and
    learning rate [2e-5]: trainer.py:401-403 resolve with [or]. *)
Lemma zero_override_is_ignored :
  kw_num_epochs zero_overrides = Some 0 ∧
  kw_batch_size zero_overrides = Some 0 ∧
  kw_learning_rate zero_overrides = Some (S754_zero false) ∧
  (λ call, (bf_epochs call, dl_batch_size (bf_train_dataloader call), bf_lr call))
    <$> body_calls (trace (train sample_pairs sample_pairs no_reflection zero_overrides
          (sample_trainer classical_model (Some (Dataset sample_table))
             (Some (Dataset sample_table)))))
  = [(1, 16, lit_2e_5)] ∧
  (λ call, (hf_num_epochs call, hf_batch_size call, hf_learning_rate call))
    <$> head_calls (trace (train sample_pairs sample_pairs no_reflection zero_overrides
          (sample_trainer classical_model (Some (Dataset sample_table))
             (Some (Dataset sample_table)))))
  = [(1, 16, lit_2e_5)].
Proof. by vm_compute. Qed.

Lemma init_checks_warmup_proportion_witness :
  (∃ self, __init__ (with_warmup_proportion f1
             (sample_args classical_model None None)) = Ok self) ∧
  __init__ (with_warmup_proportion (S754_finite false 4503599627370497 (-52))
             (sample_args classical_model None None))
  = Raise (ValueError (WarmupProportionOutOfRange (S754_finite false 4503599627370497 (-52)))).
Proof.
  split.
  - destruct (init_checks_warmup_proportion
                (with_warmup_proportion f1 (sample_args classical_model None None)))
      as [_ Hin].
    destruct Hin as [self [Hinit _]]; [reflexivity|reflexivity|exact I|]. by exists self.
  - apply (init_checks_warmup_proportion
             (with_warmup_proportion (S754_finite false 4503599627370497 (-52))
                (sample_args classical_model None None))).
    right. reflexivity.
Defined.

Lemma apply_hyperparameters_coerces_witness :
  learning_rate (final (apply_hyperparameters no_reflection
                          [("learning_rate", HStr "0.01")] false searching_trainer))
  = S754_finite false 5764607523034235 (-59) ∧
  apply_hyperparameter no_reflection "max_iter" (HInt 100)
    (set_model_init (Some (nullary_factory classical_model)) searching_trainer)
  = Outcome (Ok tt) (set_model_init (Some (nullary_factory classical_model)) searching_trainer)
      [LogWarning (NoCorrespondingField "max_iter")].
Proof.
  destruct (apply_hyperparameters_coerces no_reflection searching_trainer false)
    as (_ & Hlr & _).
  destruct (apply_hyperparameters_coerces no_reflection
              (set_model_init (Some (nullary_factory classical_model)) searching_trainer) false)
    as (_ & _ & _ & Hkey & _).
  split; [exact Hlr|].
  apply (Hkey "max_iter" (HInt 100) (nullary_factory classical_model)); reflexivity.
Defined.

Lemma freeze_switch_lifecycle_witness :
  __init__ factory_args = Ok factory_trainer ∧
  head_calls (trace (train sample_pairs sample_pairs no_reflection default_kwargs
    (foldl (λ s c, after sample_pairs sample_pairs no_reflection c s) factory_trainer
       [call_train default_kwargs; call_evaluate None; call_freeze]))) = [] ∧
  length (body_calls (trace (train sample_pairs sample_pairs no_reflection default_kwargs
    (foldl (λ s c, after sample_pairs sample_pairs no_reflection c s) factory_trainer
       [call_train default_kwargs; call_evaluate None; call_freeze])))) = 1%nat.
Proof.
  destruct (freeze_switch_lifecycle sample_pairs sample_pairs no_reflection)
    as (_ & _ & _ & _ & Hbody).
  destruct (Hbody factory_args factory_trainer differentiable_model
              [call_train default_kwargs; call_evaluate None; call_freeze] default_kwargs)
    as [Hhead Hlen]; try reflexivity.
  split_and!; [reflexivity|exact Hhead|apply Hlen; by vm_compute].
Defined.

(** C10 as stated fails: [apply_hyperparameters({"_freeze": False})] on a
    newly constructed trainer returns and leaves the switch off, and the
    next [train] runs the head-training phase only, although neither
    [freeze] nor [unfreeze] was called. *)
Lemma hyperparameter_writes_freeze_switch :
  __init__ factory_args = Ok factory_trainer ∧
  _freeze factory_trainer = true ∧
  value (apply_hyperparameters no_reflection [("_freeze", HBool false)] false factory_trainer)
  = Ok tt ∧
  _freeze (after sample_pairs sample_pairs no_reflection
             (call_apply_hyperparameters [("_freeze", HBool false)] false) factory_trainer)
  = false ∧
  body_calls (trace (train sample_pairs sample_pairs no_reflection default_kwargs
    (after sample_pairs sample_pairs no_reflection
       (call_apply_hyperparameters [("_freeze", HBool false)] false) factory_trainer))) = [] ∧
  length (head_calls (trace (train sample_pairs sample_pairs no_reflection default_kwargs
    (after sample_pairs sample_pairs no_reflection
       (call_apply_hyperparameters [("_freeze", HBool false)] false) factory_trainer))))
  = 1%nat.
Proof. by vm_compute. Qed.

(** ** More theorems at work on sample data *)

Lemma train_requires_train_dataset_witness :
  trace (train sample_pairs sample_pairs no_reflection default_kwargs
           (sample_trainer classical_model None (Some (Dataset sample_table))))
  = [SetSeed 42].
Proof.
  destruct (train_requires_train_dataset sample_pairs sample_pairs no_reflection default_kwargs
              (sample_trainer classical_model None (Some (Dataset sample_table))))
    as (_ & _ & Htrace).
  - reflexivity.
  - by left.
  - exact Htrace.
Defined.

Lemma train_only_defaults_loss_witness :
  final (train sample_pairs sample_pairs no_reflection default_kwargs (loss_trainer None))
  = loss_trainer (Some CosineSimilarityLoss) ∧
  warnings (trace (train sample_pairs sample_pairs no_reflection default_kwargs
                     (loss_trainer None))) = [NoLossClassDetected].
Proof.
  destruct (train_only_defaults_loss sample_pairs sample_pairs no_reflection default_kwargs
              (loss_trainer None)) as (_ & _ & Hnone & _).
  - by left.
  - apply (Hnone sample_columns); reflexivity.
Defined.

Lemma body_fit_evaluator_witness :
  ∃ call,
    call ∈ body_calls (trace (train sample_pairs sample_pairs no_reflection three_per_batch
                                (loss_trainer (Some BatchHardTripletLoss)))) ∧
    (bf_evaluator call).2 = bf_train_loss call ∧
    dl_batch_size (bf_evaluator call).1 = 3.
Proof.
  assert (∃ call, call ∈ body_calls (trace
            (train sample_pairs sample_pairs no_reflection three_per_batch
               (loss_trainer (Some BatchHardTripletLoss)))) ∧
            dl_batch_size (bf_train_dataloader call) = 3) as (call & Hcall & Hbs).
  { vm_compute. eexists. split; [by left|]. done. }
  exists call.
  destruct (body_fit_evaluator sample_pairs sample_pairs no_reflection three_per_batch
              _ call Hcall) as (Hloss & Hsame & _).
  split_and!; [done|done|]. by rewrite Hsame.
Defined.

Lemma body_fit_loss_binding_witness :
  ∃ call,
    call ∈ body_calls (trace (train sample_pairs sample_pairs no_reflection three_per_batch
                                (loss_trainer (Some BatchHardSoftMarginTripletLoss)))) ∧
    lm_distance_metric (bf_train_loss call) = Some cosine_distance ∧
    lm_margin (bf_train_loss call) = None.
Proof.
  assert (∃ call, call ∈ body_calls (trace
            (train sample_pairs sample_pairs no_reflection three_per_batch
               (loss_trainer (Some BatchHardSoftMarginTripletLoss)))))
    as (call & Hcall).
  { vm_compute. eexists. by left. }
  exists call.
  destruct (body_fit_loss_binding sample_pairs sample_pairs no_reflection three_per_batch
              _ call Hcall) as (m & cls & _ & Hcls & _ & _ & Hdistance & Hmargin).
  vm_compute in Hcls. simplify_eq. split_and!; [done|exact Hdistance|exact Hmargin].
Defined.

Lemma train_fits_body_then_head_witness :
  ∃ pre body_call head_call,
    trace (train sample_pairs sample_pairs no_reflection default_kwargs
             (loss_trainer (Some CosineSimilarityLoss)))
    = pre ++ [BodyFit body_call; HeadFit head_call] ∧
    hf_batch_size head_call = dl_batch_size (bf_train_dataloader body_call).
Proof.
  destruct (train_fits_body_then_head sample_pairs sample_pairs no_reflection default_kwargs
              (loss_trainer (Some CosineSimilarityLoss)) classical_model)
    as (pre & body_call & head_call & Htrace & _ & _ & _ & _ & Hbs & _).
  - by vm_compute.
  - by vm_compute.
  - reflexivity.
  - by exists pre, body_call, head_call.
Defined.

Lemma train_rejects_empty_batches_witness :
  value (train sample_pairs sample_pairs no_reflection default_kwargs
           (set_samples_per_label 3 (loss_trainer (Some BatchHardTripletLoss))))
  = Raise (LibValueError "batch_size should be a positive integer value") ∧
  value (train sample_pairs sample_pairs no_reflection default_kwargs
           (set_num_iterations 0 (loss_trainer (Some CosineSimilarityLoss))))
  = Raise (LibValueError "num_samples should be a positive integer value").
Proof.
  destruct sample_columns as [[[x_train y_train] x_test] y_test] eqn:Hcols.
  split.
  - destruct (train_rejects_empty_batches sample_pairs sample_pairs no_reflection
                default_kwargs
                (set_samples_per_label 3 (loss_trainer (Some BatchHardTripletLoss)))
                classical_model x_train y_train x_test y_test) as (Htriplet & _).
    + by left.
    + by rewrite <-Hcols.
    + reflexivity.
    + reflexivity.
    + vm_compute in Hcols. simplify_eq.
      eapply Htriplet; [apply (bool_decide_unpack _); by vm_compute|by vm_compute|].
      by right.
  - destruct (train_rejects_empty_batches sample_pairs sample_pairs no_reflection
                default_kwargs
                (set_num_iterations 0 (loss_trainer (Some CosineSimilarityLoss)))
                classical_model x_train y_train x_test y_test) as (_ & Hpair & _).
    + by left.
    + by rewrite <-Hcols.
    + reflexivity.
    + reflexivity.
    + vm_compute in Hcols. simplify_eq.
      assert (loss_class (set_num_iterations 0 (loss_trainer (Some CosineSimilarityLoss)))
              ∉ Some <$> triplet_family) as Hloss.
      { intros H. apply (bool_decide_pack _) in H. by vm_compute in H. }
      destruct (Hpair Hloss [] []) as [Hnone _]; [by vm_compute|]. by apply Hnone.
Defined.

Lemma validate_errors_witness :
  value (_validate_column_mapping (Some (Dataset raw_table))
           (sample_trainer classical_model None None))
  = Raise (ValueError (MissingRequiredColumns required_columns
                         (column_names (Dataset raw_table)))).
Proof.
  assert (∃ e, value (_validate_column_mapping (Some (Dataset raw_table))
                        (sample_trainer classical_model None None)) = Raise e) as [e He].
  { vm_compute. by eexists. }
  pose proof (validate_errors (Dataset raw_table) (sample_trainer classical_model None None)
                e He) as Herr.
  simpl in Herr. destruct Herr as [_ Herr]. rewrite Herr in He. exact He.
Defined.

Lemma apply_column_mapping_renames_witness :
  value (_apply_column_mapping (Dataset raw_table) sample_mapping mapped_trainer)
  = Ok (Dataset ((λ '(n, c), (mapped_name sample_mapping n, c)) <$> raw_table)).
Proof.
  assert (∃ d', value (_apply_column_mapping (Dataset raw_table) sample_mapping
                         mapped_trainer) = Ok d') as [d' Hd'].
  { vm_compute. by eexists. }
  destruct (apply_column_mapping_renames raw_table sample_mapping mapped_trainer d' Hd')
    as (Hrenamed & _).
  by rewrite <-Hrenamed.
Defined.

Lemma mapped_columns_carry_data_witness :
  ∃ d' c,
    value (_apply_column_mapping (Dataset raw_table) sample_mapping mapped_trainer) = Ok d' ∧
    getitem (Dataset raw_table) "sentence" = Ok (Column c) ∧
    getitem d' "text" = Ok (Column c).
Proof.
  assert (∃ d', value (_apply_column_mapping (Dataset raw_table) sample_mapping
                         mapped_trainer) = Ok d') as [d' Hd'].
  { vm_compute. by eexists. }
  assert (∃ c, getitem (Dataset raw_table) "sentence" = Ok (Column c)) as [c Hc].
  { vm_compute. by eexists. }
  exists d', c.
  destruct (mapped_columns_carry_data raw_table sample_mapping mapped_trainer d' Hd')
    as (Hcarried & _).
  split_and!; [done|done|]. exact (Hcarried "sentence" c Hc).
Defined.

Lemma init_constructs_witness :
  __init__ factory_args = Ok factory_trainer ∧
  model factory_trainer = Some differentiable_model ∧ _freeze factory_trainer = true.
Proof.
  destruct (init_constructs factory_args factory_trainer) as (m & Hself & Hfreeze & _).
  - reflexivity.
  - split_and!; [reflexivity|reflexivity|exact Hfreeze].
Defined.

Lemma hyperparameters_skip_range_check_witness :
  warmup_proportion
    (final (apply_hyperparameter no_reflection "warmup_proportion"
              (HFloat (S754_finite false 4503599627370497 (-52))) searching_trainer))
  = S754_finite false 4503599627370497 (-52) ∧
  __init__ (with_warmup_proportion (S754_finite false 4503599627370497 (-52)) factory_args)
  = Raise (ValueError (WarmupProportionOutOfRange (S754_finite false 4503599627370497 (-52)))).
Proof.
  destruct (hyperparameters_skip_range_check no_reflection
              (HFloat (S754_finite false 4503599627370497 (-52)))
              (S754_finite false 4503599627370497 (-52)) searching_trainer)
    as (_ & _ & Hstored & Hrefused).
  - reflexivity.
  - split; [exact Hstored|]. apply Hrefused. right. by vm_compute.
Defined.

Lemma trial_reinitialises_model_witness :
  ∃ tr,
    trace (train sample_pairs sample_pairs no_reflection trial_kwargs searching_trainer)
    = SetSeed 42 :: LogInfo (TrialInfo [("num_epochs", HInt 3)]) :: tr.
Proof.
  destruct (trial_reinitialises_model sample_pairs sample_pairs no_reflection trial_kwargs
              searching_trainer OPTUNA [("num_epochs", HInt 3)]
              (sample_factory classical_model)) as [Htrace _].
  - reflexivity.
  - reflexivity.
  - done.
  - reflexivity.
  - constructor; [|constructor]. left. apply (bool_decide_unpack _). by vm_compute.
  - exact Htrace.
Defined.

Lemma apply_hyperparameters_rebuilds_model_witness :
  model_init (final (apply_hyperparameters no_reflection [("num_epochs", HInt 3)] true
                       searching_trainer)) = None ∧
  model (final (apply_hyperparameters no_reflection [("num_epochs", HInt 3)] true
                  searching_trainer)) = Some classical_model.
Proof.
  destruct (apply_hyperparameters_rebuilds_model no_reflection [("num_epochs", HInt 3)] true
              searching_trainer) as (f & Hf & Hmodel & Hinit & _).
  - constructor; [|constructor]. left. apply (bool_decide_unpack _). by vm_compute.
  - by vm_compute.
  - split; [exact Hinit|]. by vm_compute.
Defined.

Lemma apply_hyperparameters_stops_at_error_witness :
  value (apply_hyperparameters no_reflection
           [("num_epochs", HInt 3); ("seed", HStr "abc"); ("batch_size", HInt 4)] false
           searching_trainer)
  = Raise (LibValueError "invalid literal for int() with base 10") ∧
  final (apply_hyperparameters no_reflection
           [("num_epochs", HInt 3); ("seed", HStr "abc"); ("batch_size", HInt 4)] false
           searching_trainer)
  = set_num_epochs 3 searching_trainer.
Proof.
  destruct (apply_hyperparameters_stops_at_error no_reflection [("num_epochs", HInt 3)]
              "seed" (HStr "abc") [("batch_size", HInt 4)] false searching_trainer
              (LibValueError "invalid literal for int() with base 10"))
    as (Hvalue & Hfinal & _).
  - by vm_compute.
  - by vm_compute.
  - split; [exact Hvalue|]. simpl app in Hfinal. rewrite Hfinal. by vm_compute.
Defined.

Lemma train_without_model_witness :
  value (train sample_pairs sample_pairs no_reflection default_kwargs
           (set_model None (loss_trainer None)))
  = Raise (AttributeError "has_differentiable_head") ∧
  loss_class (final (train sample_pairs sample_pairs no_reflection default_kwargs
                       (set_model None (loss_trainer None))))
  = Some CosineSimilarityLoss.
Proof.
  destruct (train_without_model sample_pairs sample_pairs no_reflection default_kwargs
              (set_model None (loss_trainer None)) sample_columns)
    as (Hvalue & Hfinal & _).
  - reflexivity.
  - by left.
  - reflexivity.
  - split; [exact Hvalue|]. by rewrite Hfinal.
Defined.

